(** * MemStorage: the in-memory store of the college records server

    A shallow embedding of [server/storage.ts] (class [MemStorage]) and of
    the row types of [shared/schema.ts], followed by the properties the
    specification states about them.

    Conventions of the embedding.
    - A JavaScript [Map<number, T>] is an association list in insertion
      order: [Map.prototype.values()] iterates in that order, [set] on a
      present key keeps the key's position, [set] on a fresh key appends.
    - Identifiers are JavaScript numbers holding integers; they are modelled
      in [Z], and the one place arithmetic is done on them (the
      post-increment of a counter) is written with the precision limit of a
      double spelled out, see [js_incr].
    - [Date] values are their time value (milliseconds), in [Z].
    - Strings are [string]; [toLowerCase] is the ASCII case mapping.
    - Every method of the class is [async] without ever suspending, so it
      is a function from the store (and its arguments) to its result and,
      for the mutating ones, the next store. *)

From Stdlib Require Import ZArith List Bool String Ascii Lia.
From Stdlib Require Import Permutation Sorted.
From Stdlib Require Import SpecFloat.
Import ListNotations.

Local Open Scope string_scope.
Local Open Scope list_scope.
Local Open Scope Z_scope.

Set Implicit Arguments.

(* ------------------------------------------------------------------ *)
(** ** JavaScript [Map] with number keys *)

Module JsMap.
Section Ops.
Variable V : Type.

Definition t := list (Z * V).

Definition empty : t := [].

Fixpoint get (k : Z) (m : t) : option V :=
  match m with
  | [] => None
  | (k', v) :: rest => if k' =? k then Some v else get k rest
  end.

Definition has (k : Z) (m : t) : bool :=
  match get k m with Some _ => true | None => false end.

(** Overwrite the entry of [k] where it stands. *)
Fixpoint replace (k : Z) (v : V) (m : t) : t :=
  match m with
  | [] => []
  | (k', v') :: rest =>
      if k' =? k then (k, v) :: rest else (k', v') :: replace k v rest
  end.

Definition set (k : Z) (v : V) (m : t) : t :=
  if has k m then replace k v m else m ++ [(k, v)].

Definition remove (k : Z) (m : t) : t :=
  filter (fun kv => negb (fst kv =? k)) m.

(** [Map.prototype.delete]: the answer tells whether the key was there. *)
Definition delete (k : Z) (m : t) : bool * t := (has k m, remove k m).

Definition keys (m : t) : list Z := map fst m.

(** [Array.from(m.values())] *)
Definition values (m : t) : list V := map snd m.
End Ops.
End JsMap.

(** [Array.prototype.find] *)
Definition array_find {A} (f : A -> bool) (l : list A) : option A := find f l.

(** [counter++] on a number holding an integer: exact below [2^53]; at
    [2^53] the sum [2^53 + 1] is not a double and rounds back to [2^53]. *)
Definition MAX_SAFE : Z := 2 ^ 53.

Definition js_incr (c : Z) : Z := if c <? MAX_SAFE then c + 1 else c.

(* ------------------------------------------------------------------ *)
(** ** Row types ([shared/schema.ts])

    For each table: the stored row ([$inferSelect]), the insert payload
    (the insert schema with [id] omitted) and [Partial<Row>].

    A nullable column reads [None] for [null] (or no value).  A column
    with a default is optional in the insert schema; the store applies no
    default, so such a column is an [option] in the stored row too and
    reads [None] when the payload left it out.  In a [Partial], [None] is
    "property not supplied". *)

Module User.
Record t := mk {
  id : Z; username : string; password : string; email : string;
  role : string; name : string; profileImage : option string }.
End User.
Module InsertUser.
Record t := mk {
  username : string; password : string; email : string;
  role : string; name : string; profileImage : option string }.
End InsertUser.
Module PartialUser.
Record t := mk {
  id : option Z; username : option string; password : option string;
  email : option string; role : option string; name : option string;
  profileImage : option (option string) }.
End PartialUser.

Module Student.
Record t := mk {
  id : Z; userId : Z; studentId : string; program : string;
  yearLevel : Z; status : option string; enrollmentDate : option Z }.
End Student.
Module InsertStudent.
Record t := mk {
  userId : Z; studentId : string; program : string;
  yearLevel : Z; status : option string; enrollmentDate : option Z }.
End InsertStudent.
Module PartialStudent.
Record t := mk {
  id : option Z; userId : option Z; studentId : option string;
  program : option string; yearLevel : option Z; status : option string;
  enrollmentDate : option Z }.
End PartialStudent.

Module Faculty.
Record t := mk {
  id : Z; userId : Z; facultyId : string; department : string;
  position : string; joinDate : option Z; status : option string }.
End Faculty.
Module InsertFaculty.
Record t := mk {
  userId : Z; facultyId : string; department : string;
  position : string; joinDate : option Z; status : option string }.
End InsertFaculty.
Module PartialFaculty.
Record t := mk {
  id : option Z; userId : option Z; facultyId : option string;
  department : option string; position : option string;
  joinDate : option Z; status : option string }.
End PartialFaculty.

Module Course.
Record t := mk {
  id : Z; code : string; title : string; description : option string;
  credits : Z; department : string; status : option string }.
End Course.
Module InsertCourse.
Record t := mk {
  code : string; title : string; description : option string;
  credits : Z; department : string; status : option string }.
End InsertCourse.
Module PartialCourse.
Record t := mk {
  id : option Z; code : option string; title : option string;
  description : option (option string); credits : option Z;
  department : option string; status : option string }.
End PartialCourse.

Module CourseAssignment.
Record t := mk {
  id : Z; courseId : Z; facultyId : Z; semester : string; year : Z }.
End CourseAssignment.
Module InsertCourseAssignment.
Record t := mk {
  courseId : Z; facultyId : Z; semester : string; year : Z }.
End InsertCourseAssignment.
Module PartialCourseAssignment.
Record t := mk {
  id : option Z; courseId : option Z; facultyId : option Z;
  semester : option string; year : option Z }.
End PartialCourseAssignment.

Module Enrollment.
Record t := mk {
  id : Z; studentId : Z; courseAssignmentId : Z;
  enrollmentDate : option Z; status : option string }.
End Enrollment.
Module InsertEnrollment.
Record t := mk {
  studentId : Z; courseAssignmentId : Z;
  enrollmentDate : option Z; status : option string }.
End InsertEnrollment.
Module PartialEnrollment.
Record t := mk {
  id : option Z; studentId : option Z; courseAssignmentId : option Z;
  enrollmentDate : option Z; status : option string }.
End PartialEnrollment.

Module Attendance.
Record t := mk {
  id : Z; enrollmentId : Z; date : option Z; status : string;
  notes : option string }.
End Attendance.
Module InsertAttendance.
Record t := mk {
  enrollmentId : Z; date : option Z; status : string;
  notes : option string }.
End InsertAttendance.
Module PartialAttendance.
Record t := mk {
  id : option Z; enrollmentId : option Z; date : option Z;
  status : option string; notes : option (option string) }.
End PartialAttendance.

Module Grade.
Record t := mk {
  id : Z; enrollmentId : Z; assignmentName : string; score : Z;
  maxScore : Z; weight : Z; date : option Z }.
End Grade.
Module InsertGrade.
Record t := mk {
  enrollmentId : Z; assignmentName : string; score : Z;
  maxScore : Z; weight : Z; date : option Z }.
End InsertGrade.
Module PartialGrade.
Record t := mk {
  id : option Z; enrollmentId : option Z; assignmentName : option string;
  score : option Z; maxScore : option Z; weight : option Z;
  date : option Z }.
End PartialGrade.

Module Event.
Record t := mk {
  id : Z; title : string; description : option string; startDate : Z;
  endDate : Z; location : option string; type : string }.
End Event.
Module InsertEvent.
Record t := mk {
  title : string; description : option string; startDate : Z;
  endDate : Z; location : option string; type : string }.
End InsertEvent.
Module PartialEvent.
Record t := mk {
  id : option Z; title : option string;
  description : option (option string); startDate : option Z;
  endDate : option Z; location : option (option string);
  type : option string }.
End PartialEvent.

(* ------------------------------------------------------------------ *)
(** ** Object spread

    [{ ...data, id }] adds the [id] property to the payload;
    [{ ...row, ...partial }] copies the row and then every property the
    partial supplies, the later copy winning. *)

Definition pick {A} (old : A) (supplied : option A) : A :=
  match supplied with Some v => v | None => old end.

(** A defaulted column: the row holds [option A], the partial supplies a
    plain [A]. *)
Definition pick_set {A} (old : option A) (supplied : option A) : option A :=
  match supplied with Some v => Some v | None => old end.

Definition user_with_id (user : InsertUser.t) (id : Z) : User.t :=
  User.mk id (InsertUser.username user) (InsertUser.password user)
    (InsertUser.email user) (InsertUser.role user) (InsertUser.name user)
    (InsertUser.profileImage user).

Definition user_spread (user : User.t) (userData : PartialUser.t) : User.t :=
  User.mk
    (pick (User.id user) (PartialUser.id userData))
    (pick (User.username user) (PartialUser.username userData))
    (pick (User.password user) (PartialUser.password userData))
    (pick (User.email user) (PartialUser.email userData))
    (pick (User.role user) (PartialUser.role userData))
    (pick (User.name user) (PartialUser.name userData))
    (pick (User.profileImage user) (PartialUser.profileImage userData)).

Definition student_with_id (student : InsertStudent.t) (id : Z) : Student.t :=
  Student.mk id (InsertStudent.userId student)
    (InsertStudent.studentId student) (InsertStudent.program student)
    (InsertStudent.yearLevel student) (InsertStudent.status student)
    (InsertStudent.enrollmentDate student).

Definition student_spread (student : Student.t) (studentData : PartialStudent.t)
  : Student.t :=
  Student.mk
    (pick (Student.id student) (PartialStudent.id studentData))
    (pick (Student.userId student) (PartialStudent.userId studentData))
    (pick (Student.studentId student) (PartialStudent.studentId studentData))
    (pick (Student.program student) (PartialStudent.program studentData))
    (pick (Student.yearLevel student) (PartialStudent.yearLevel studentData))
    (pick_set (Student.status student) (PartialStudent.status studentData))
    (pick_set (Student.enrollmentDate student)
       (PartialStudent.enrollmentDate studentData)).

Definition faculty_with_id (faculty : InsertFaculty.t) (id : Z) : Faculty.t :=
  Faculty.mk id (InsertFaculty.userId faculty)
    (InsertFaculty.facultyId faculty) (InsertFaculty.department faculty)
    (InsertFaculty.position faculty) (InsertFaculty.joinDate faculty)
    (InsertFaculty.status faculty).

Definition faculty_spread (faculty : Faculty.t) (facultyData : PartialFaculty.t)
  : Faculty.t :=
  Faculty.mk
    (pick (Faculty.id faculty) (PartialFaculty.id facultyData))
    (pick (Faculty.userId faculty) (PartialFaculty.userId facultyData))
    (pick (Faculty.facultyId faculty) (PartialFaculty.facultyId facultyData))
    (pick (Faculty.department faculty) (PartialFaculty.department facultyData))
    (pick (Faculty.position faculty) (PartialFaculty.position facultyData))
    (pick_set (Faculty.joinDate faculty) (PartialFaculty.joinDate facultyData))
    (pick_set (Faculty.status faculty) (PartialFaculty.status facultyData)).

Definition course_with_id (course : InsertCourse.t) (id : Z) : Course.t :=
  Course.mk id (InsertCourse.code course) (InsertCourse.title course)
    (InsertCourse.description course) (InsertCourse.credits course)
    (InsertCourse.department course) (InsertCourse.status course).

Definition course_spread (course : Course.t) (courseData : PartialCourse.t)
  : Course.t :=
  Course.mk
    (pick (Course.id course) (PartialCourse.id courseData))
    (pick (Course.code course) (PartialCourse.code courseData))
    (pick (Course.title course) (PartialCourse.title courseData))
    (pick (Course.description course) (PartialCourse.description courseData))
    (pick (Course.credits course) (PartialCourse.credits courseData))
    (pick (Course.department course) (PartialCourse.department courseData))
    (pick_set (Course.status course) (PartialCourse.status courseData)).

Definition courseAssignment_with_id (assignment : InsertCourseAssignment.t)
  (id : Z) : CourseAssignment.t :=
  CourseAssignment.mk id (InsertCourseAssignment.courseId assignment)
    (InsertCourseAssignment.facultyId assignment)
    (InsertCourseAssignment.semester assignment)
    (InsertCourseAssignment.year assignment).

Definition courseAssignment_spread (assignment : CourseAssignment.t)
  (assignmentData : PartialCourseAssignment.t) : CourseAssignment.t :=
  CourseAssignment.mk
    (pick (CourseAssignment.id assignment)
       (PartialCourseAssignment.id assignmentData))
    (pick (CourseAssignment.courseId assignment)
       (PartialCourseAssignment.courseId assignmentData))
    (pick (CourseAssignment.facultyId assignment)
       (PartialCourseAssignment.facultyId assignmentData))
    (pick (CourseAssignment.semester assignment)
       (PartialCourseAssignment.semester assignmentData))
    (pick (CourseAssignment.year assignment)
       (PartialCourseAssignment.year assignmentData)).

Definition enrollment_with_id (enrollment : InsertEnrollment.t) (id : Z)
  : Enrollment.t :=
  Enrollment.mk id (InsertEnrollment.studentId enrollment)
    (InsertEnrollment.courseAssignmentId enrollment)
    (InsertEnrollment.enrollmentDate enrollment)
    (InsertEnrollment.status enrollment).

Definition enrollment_spread (enrollment : Enrollment.t)
  (enrollmentData : PartialEnrollment.t) : Enrollment.t :=
  Enrollment.mk
    (pick (Enrollment.id enrollment) (PartialEnrollment.id enrollmentData))
    (pick (Enrollment.studentId enrollment)
       (PartialEnrollment.studentId enrollmentData))
    (pick (Enrollment.courseAssignmentId enrollment)
       (PartialEnrollment.courseAssignmentId enrollmentData))
    (pick_set (Enrollment.enrollmentDate enrollment)
       (PartialEnrollment.enrollmentDate enrollmentData))
    (pick_set (Enrollment.status enrollment)
       (PartialEnrollment.status enrollmentData)).

Definition attendance_with_id (attendance : InsertAttendance.t) (id : Z)
  : Attendance.t :=
  Attendance.mk id (InsertAttendance.enrollmentId attendance)
    (InsertAttendance.date attendance) (InsertAttendance.status attendance)
    (InsertAttendance.notes attendance).

Definition attendance_spread (attendance : Attendance.t)
  (attendanceData : PartialAttendance.t) : Attendance.t :=
  Attendance.mk
    (pick (Attendance.id attendance) (PartialAttendance.id attendanceData))
    (pick (Attendance.enrollmentId attendance)
       (PartialAttendance.enrollmentId attendanceData))
    (pick_set (Attendance.date attendance)
       (PartialAttendance.date attendanceData))
    (pick (Attendance.status attendance)
       (PartialAttendance.status attendanceData))
    (pick (Attendance.notes attendance)
       (PartialAttendance.notes attendanceData)).

Definition grade_with_id (grade : InsertGrade.t) (id : Z) : Grade.t :=
  Grade.mk id (InsertGrade.enrollmentId grade)
    (InsertGrade.assignmentName grade) (InsertGrade.score grade)
    (InsertGrade.maxScore grade) (InsertGrade.weight grade)
    (InsertGrade.date grade).

Definition grade_spread (grade : Grade.t) (gradeData : PartialGrade.t)
  : Grade.t :=
  Grade.mk
    (pick (Grade.id grade) (PartialGrade.id gradeData))
    (pick (Grade.enrollmentId grade) (PartialGrade.enrollmentId gradeData))
    (pick (Grade.assignmentName grade) (PartialGrade.assignmentName gradeData))
    (pick (Grade.score grade) (PartialGrade.score gradeData))
    (pick (Grade.maxScore grade) (PartialGrade.maxScore gradeData))
    (pick (Grade.weight grade) (PartialGrade.weight gradeData))
    (pick_set (Grade.date grade) (PartialGrade.date gradeData)).

Definition event_with_id (event : InsertEvent.t) (id : Z) : Event.t :=
  Event.mk id (InsertEvent.title event) (InsertEvent.description event)
    (InsertEvent.startDate event) (InsertEvent.endDate event)
    (InsertEvent.location event) (InsertEvent.type event).

Definition event_spread (event : Event.t) (eventData : PartialEvent.t)
  : Event.t :=
  Event.mk
    (pick (Event.id event) (PartialEvent.id eventData))
    (pick (Event.title event) (PartialEvent.title eventData))
    (pick (Event.description event) (PartialEvent.description eventData))
    (pick (Event.startDate event) (PartialEvent.startDate eventData))
    (pick (Event.endDate event) (PartialEvent.endDate eventData))
    (pick (Event.location event) (PartialEvent.location eventData))
    (pick (Event.type event) (PartialEvent.type eventData)).

(* ------------------------------------------------------------------ *)
(** ** The nine tables

    The class repeats the same five methods for each table, differing
    only in the map and the counter they touch.  [kind] names the table
    (its constructors follow the keys of [currentIds]); the methods are
    written once, over a [kind], and the class's own method names are
    given to their instances. *)

Inductive kind :=
  | KUser | KStudent | KFaculty | KCourse | KCourseAssignment
  | KEnrollment | KAttendance | KGrade | KEvent.

Definition kind_eqb (a b : kind) : bool :=
  match a, b with
  | KUser, KUser | KStudent, KStudent | KFaculty, KFaculty
  | KCourse, KCourse | KCourseAssignment, KCourseAssignment
  | KEnrollment, KEnrollment | KAttendance, KAttendance
  | KGrade, KGrade | KEvent, KEvent => true
  | _, _ => false
  end.

Definition Row (k : kind) : Type :=
  match k with
  | KUser => User.t | KStudent => Student.t | KFaculty => Faculty.t
  | KCourse => Course.t | KCourseAssignment => CourseAssignment.t
  | KEnrollment => Enrollment.t | KAttendance => Attendance.t
  | KGrade => Grade.t | KEvent => Event.t
  end.

Definition InsertRow (k : kind) : Type :=
  match k with
  | KUser => InsertUser.t | KStudent => InsertStudent.t
  | KFaculty => InsertFaculty.t | KCourse => InsertCourse.t
  | KCourseAssignment => InsertCourseAssignment.t
  | KEnrollment => InsertEnrollment.t | KAttendance => InsertAttendance.t
  | KGrade => InsertGrade.t | KEvent => InsertEvent.t
  end.

Definition PartialRow (k : kind) : Type :=
  match k with
  | KUser => PartialUser.t | KStudent => PartialStudent.t
  | KFaculty => PartialFaculty.t | KCourse => PartialCourse.t
  | KCourseAssignment => PartialCourseAssignment.t
  | KEnrollment => PartialEnrollment.t | KAttendance => PartialAttendance.t
  | KGrade => PartialGrade.t | KEvent => PartialEvent.t
  end.

(** The [id] property of a row. *)
Definition row_id (k : kind) : Row k -> Z :=
  match k with
  | KUser => User.id | KStudent => Student.id | KFaculty => Faculty.id
  | KCourse => Course.id | KCourseAssignment => CourseAssignment.id
  | KEnrollment => Enrollment.id | KAttendance => Attendance.id
  | KGrade => Grade.id | KEvent => Event.id
  end.

(** [{ ...data, id }] *)
Definition with_id (k : kind) : InsertRow k -> Z -> Row k :=
  match k with
  | KUser => user_with_id | KStudent => student_with_id
  | KFaculty => faculty_with_id | KCourse => course_with_id
  | KCourseAssignment => courseAssignment_with_id
  | KEnrollment => enrollment_with_id | KAttendance => attendance_with_id
  | KGrade => grade_with_id | KEvent => event_with_id
  end.

(** [{ ...row, ...partial }] *)
Definition spread (k : kind) : Row k -> PartialRow k -> Row k :=
  match k with
  | KUser => user_spread | KStudent => student_spread
  | KFaculty => faculty_spread | KCourse => course_spread
  | KCourseAssignment => courseAssignment_spread
  | KEnrollment => enrollment_spread | KAttendance => attendance_spread
  | KGrade => grade_spread | KEvent => event_spread
  end.

(** The [id] property of a partial, when it has one. *)
Definition partial_id (k : kind) : PartialRow k -> option Z :=
  match k with
  | KUser => PartialUser.id | KStudent => PartialStudent.id
  | KFaculty => PartialFaculty.id | KCourse => PartialCourse.id
  | KCourseAssignment => PartialCourseAssignment.id
  | KEnrollment => PartialEnrollment.id | KAttendance => PartialAttendance.id
  | KGrade => PartialGrade.id | KEvent => PartialEvent.id
  end.

Module CurrentIds.
Record t := mk {
  user : Z; student : Z; faculty : Z; course : Z; courseAssignment : Z;
  enrollment : Z; attendance : Z; grade : Z; event : Z }.
End CurrentIds.

Record MemStorage := mkMemStorage {
  users : JsMap.t User.t;
  students : JsMap.t Student.t;
  faculty : JsMap.t Faculty.t;
  courses : JsMap.t Course.t;
  courseAssignments : JsMap.t CourseAssignment.t;
  enrollments : JsMap.t Enrollment.t;
  attendance : JsMap.t Attendance.t;
  grades : JsMap.t Grade.t;
  events : JsMap.t Event.t;
  currentIds : CurrentIds.t }.

(** The state the constructor builds before it seeds the sample rows. *)
Definition new_MemStorage : MemStorage :=
  mkMemStorage [] [] [] [] [] [] [] [] []
    (CurrentIds.mk 1 1 1 1 1 1 1 1 1).

Definition table (k : kind) (s : MemStorage) : JsMap.t (Row k) :=
  match k with
  | KUser => users s | KStudent => students s | KFaculty => faculty s
  | KCourse => courses s | KCourseAssignment => courseAssignments s
  | KEnrollment => enrollments s | KAttendance => attendance s
  | KGrade => grades s | KEvent => events s
  end.

Definition set_table (k : kind) (m : JsMap.t (Row k)) (s : MemStorage)
  : MemStorage :=
  let '(mkMemStorage us st fa co ca en at_ gr ev ids) := s in
  match k return JsMap.t (Row k) -> MemStorage with
  | KUser => fun m => mkMemStorage m st fa co ca en at_ gr ev ids
  | KStudent => fun m => mkMemStorage us m fa co ca en at_ gr ev ids
  | KFaculty => fun m => mkMemStorage us st m co ca en at_ gr ev ids
  | KCourse => fun m => mkMemStorage us st fa m ca en at_ gr ev ids
  | KCourseAssignment => fun m => mkMemStorage us st fa co m en at_ gr ev ids
  | KEnrollment => fun m => mkMemStorage us st fa co ca m at_ gr ev ids
  | KAttendance => fun m => mkMemStorage us st fa co ca en m gr ev ids
  | KGrade => fun m => mkMemStorage us st fa co ca en at_ m ev ids
  | KEvent => fun m => mkMemStorage us st fa co ca en at_ gr m ids
  end m.

Definition counter (k : kind) (s : MemStorage) : Z :=
  match k with
  | KUser => CurrentIds.user (currentIds s)
  | KStudent => CurrentIds.student (currentIds s)
  | KFaculty => CurrentIds.faculty (currentIds s)
  | KCourse => CurrentIds.course (currentIds s)
  | KCourseAssignment => CurrentIds.courseAssignment (currentIds s)
  | KEnrollment => CurrentIds.enrollment (currentIds s)
  | KAttendance => CurrentIds.attendance (currentIds s)
  | KGrade => CurrentIds.grade (currentIds s)
  | KEvent => CurrentIds.event (currentIds s)
  end.

Definition set_counter (k : kind) (c : Z) (s : MemStorage) : MemStorage :=
  let '(mkMemStorage us st fa co ca en at_ gr ev ids) := s in
  let '(CurrentIds.mk u1 s1 f1 c1 a1 e1 t1 g1 v1) := ids in
  mkMemStorage us st fa co ca en at_ gr ev
    match k with
    | KUser => CurrentIds.mk c s1 f1 c1 a1 e1 t1 g1 v1
    | KStudent => CurrentIds.mk u1 c f1 c1 a1 e1 t1 g1 v1
    | KFaculty => CurrentIds.mk u1 s1 c c1 a1 e1 t1 g1 v1
    | KCourse => CurrentIds.mk u1 s1 f1 c a1 e1 t1 g1 v1
    | KCourseAssignment => CurrentIds.mk u1 s1 f1 c1 c e1 t1 g1 v1
    | KEnrollment => CurrentIds.mk u1 s1 f1 c1 a1 c t1 g1 v1
    | KAttendance => CurrentIds.mk u1 s1 f1 c1 a1 e1 c g1 v1
    | KGrade => CurrentIds.mk u1 s1 f1 c1 a1 e1 t1 c v1
    | KEvent => CurrentIds.mk u1 s1 f1 c1 a1 e1 t1 g1 c
    end.

(** *** The five methods of a table *)

(** [get<Entity>(id)]: [return this.<table>.get(id)] *)
Definition get (k : kind) (s : MemStorage) (id : Z) : option (Row k) :=
  JsMap.get id (table k s).

(** [getAll<Entity>()]: [return Array.from(this.<table>.values())] *)
Definition getAll (k : kind) (s : MemStorage) : list (Row k) :=
  JsMap.values (table k s).

(** [create<Entity>(data)]:
    [const id = this.currentIds.<k>++;
     const row = { ...data, id };
     this.<table>.set(id, row);
     return row] *)
Definition create (k : kind) (s : MemStorage) (data : InsertRow k)
  : Row k * MemStorage :=
  let id := counter k s in
  let s1 := set_counter k (js_incr id) s in
  let row := with_id k data id in
  (row, set_table k (JsMap.set id row (table k s1)) s1).

(** [update<Entity>(id, data)]:
    [const row = this.<table>.get(id);
     if (!row) return undefined;
     const updated = { ...row, ...data };
     this.<table>.set(id, updated);
     return updated] *)
Definition update (k : kind) (s : MemStorage) (id : Z) (data : PartialRow k)
  : option (Row k) * MemStorage :=
  match JsMap.get id (table k s) with
  | None => (None, s)
  | Some row =>
      let updated := spread k row data in
      (Some updated, set_table k (JsMap.set id updated (table k s)) s)
  end.

(** [delete<Entity>(id)]: [return this.<table>.delete(id)] *)
Definition delete (k : kind) (s : MemStorage) (id : Z) : bool * MemStorage :=
  let '(existed, m) := JsMap.delete id (table k s) in
  (existed, set_table k m s).

Definition getUser := get KUser.
Definition getStudent := get KStudent.
Definition getFaculty := get KFaculty.
Definition getCourse := get KCourse.
Definition getCourseAssignment := get KCourseAssignment.
Definition getEnrollment := get KEnrollment.
Definition getAttendance := get KAttendance.
Definition getGrade := get KGrade.
Definition getEvent := get KEvent.

Definition getAllUsers := getAll KUser.
Definition getAllStudents := getAll KStudent.
Definition getAllFaculty := getAll KFaculty.
Definition getAllCourses := getAll KCourse.
Definition getAllCourseAssignments := getAll KCourseAssignment.
Definition getAllEnrollments := getAll KEnrollment.
Definition getAllAttendance := getAll KAttendance.
Definition getAllGrades := getAll KGrade.
Definition getAllEvents := getAll KEvent.

Definition createUser := create KUser.
Definition createStudent := create KStudent.
Definition createFaculty := create KFaculty.
Definition createCourse := create KCourse.
Definition createCourseAssignment := create KCourseAssignment.
Definition createEnrollment := create KEnrollment.
Definition createAttendance := create KAttendance.
Definition createGrade := create KGrade.
Definition createEvent := create KEvent.

Definition updateUser := update KUser.
Definition updateStudent := update KStudent.
Definition updateFaculty := update KFaculty.
Definition updateCourse := update KCourse.
Definition updateCourseAssignment := update KCourseAssignment.
Definition updateEnrollment := update KEnrollment.
Definition updateAttendance := update KAttendance.
Definition updateGrade := update KGrade.
Definition updateEvent := update KEvent.

Definition deleteUser := delete KUser.
Definition deleteStudent := delete KStudent.
Definition deleteFaculty := delete KFaculty.
Definition deleteCourse := delete KCourse.
Definition deleteCourseAssignment := delete KCourseAssignment.
Definition deleteEnrollment := delete KEnrollment.
Definition deleteAttendance := delete KAttendance.
Definition deleteGrade := delete KGrade.
Definition deleteEvent := delete KEvent.

(* ------------------------------------------------------------------ *)
(** ** Secondary lookups and relationship queries *)

(** [String.prototype.toLowerCase], on the ASCII letters. *)
Definition lower_ascii (c : ascii) : ascii :=
  let n := nat_of_ascii c in
  if ((65 <=? n) && (n <=? 90))%nat then ascii_of_nat (n + 32) else c.

Fixpoint toLowerCase (s : string) : string :=
  match s with
  | EmptyString => EmptyString
  | String c rest => String (lower_ascii c) (toLowerCase rest)
  end.

Definition getUserByUsername (s : MemStorage) (username : string)
  : option User.t :=
  array_find
    (fun user =>
       String.eqb (toLowerCase (User.username user)) (toLowerCase username))
    (JsMap.values (users s)).

Module LoginCredentials.
Record t := mk { username : string; password : string }.
End LoginCredentials.

Definition getUserByCredentials (s : MemStorage)
  (credentials : LoginCredentials.t) : option User.t :=
  array_find
    (fun user =>
       String.eqb (toLowerCase (User.username user))
         (toLowerCase (LoginCredentials.username credentials))
       && String.eqb (User.password user)
            (LoginCredentials.password credentials))
    (JsMap.values (users s)).

Definition getStudentByStudentId (s : MemStorage) (studentId : string)
  : option Student.t :=
  array_find (fun student => String.eqb (Student.studentId student) studentId)
    (JsMap.values (students s)).

Definition getStudentByUserId (s : MemStorage) (userId : Z)
  : option Student.t :=
  array_find (fun student => Student.userId student =? userId)
    (JsMap.values (students s)).

Definition getFacultyByFacultyId (s : MemStorage) (facultyId : string)
  : option Faculty.t :=
  array_find (fun f => String.eqb (Faculty.facultyId f) facultyId)
    (JsMap.values (faculty s)).

Definition getFacultyByUserId (s : MemStorage) (userId : Z)
  : option Faculty.t :=
  array_find (fun f => Faculty.userId f =? userId)
    (JsMap.values (faculty s)).

Definition getCourseByCode (s : MemStorage) (code : string)
  : option Course.t :=
  array_find (fun course => String.eqb (Course.code course) code)
    (JsMap.values (courses s)).

Definition getCourseAssignmentsByCourse (s : MemStorage) (courseId : Z)
  : list CourseAssignment.t :=
  filter (fun assignment => CourseAssignment.courseId assignment =? courseId)
    (JsMap.values (courseAssignments s)).

Definition getCourseAssignmentsByFaculty (s : MemStorage) (facultyId : Z)
  : list CourseAssignment.t :=
  filter (fun assignment => CourseAssignment.facultyId assignment =? facultyId)
    (JsMap.values (courseAssignments s)).

Definition getEnrollmentsByStudent (s : MemStorage) (studentId : Z)
  : list Enrollment.t :=
  filter (fun enrollment => Enrollment.studentId enrollment =? studentId)
    (JsMap.values (enrollments s)).

Definition getEnrollmentsByCourseAssignment (s : MemStorage)
  (courseAssignmentId : Z) : list Enrollment.t :=
  filter
    (fun enrollment =>
       Enrollment.courseAssignmentId enrollment =? courseAssignmentId)
    (JsMap.values (enrollments s)).

Definition getAttendanceByEnrollment (s : MemStorage) (enrollmentId : Z)
  : list Attendance.t :=
  filter (fun a => Attendance.enrollmentId a =? enrollmentId)
    (JsMap.values (attendance s)).

Definition getGradesByEnrollment (s : MemStorage) (enrollmentId : Z)
  : list Grade.t :=
  filter (fun grade => Grade.enrollmentId grade =? enrollmentId)
    (JsMap.values (grades s)).

(* ------------------------------------------------------------------ *)
(** ** [getStudentDetails] *)

(** One element of the [enrollments] array of the result. *)
Module EnrollmentDetails.
Record t := mk {
  enrollment : Enrollment.t;
  course : option Course.t;
  faculty : option Faculty.t;
  facultyName : option string;
  attendance : list Attendance.t;
  grades : list Grade.t;
  semester : string;
  year : Z }.
End EnrollmentDetails.

(** [{ ...student, user, enrollments }] *)
Module StudentDetails.
Record t := mk {
  student : Student.t;
  user : User.t;
  enrollments : list EnrollmentDetails.t }.
End StudentDetails.

(** The callback mapped over the student's enrollments; [None] is the
    [null] it returns when the course assignment is not found. *)
Definition enrollment_details (s : MemStorage) (enrollment : Enrollment.t)
  : option EnrollmentDetails.t :=
  match getCourseAssignment s (Enrollment.courseAssignmentId enrollment) with
  | None => None
  | Some courseAssignment =>
      let course := getCourse s (CourseAssignment.courseId courseAssignment) in
      let facultyMember :=
        getFaculty s (CourseAssignment.facultyId courseAssignment) in
      let facultyUser :=
        match facultyMember with
        | Some f => getUser s (Faculty.userId f)
        | None => None
        end in
      let attendanceRecords :=
        getAttendanceByEnrollment s (Enrollment.id enrollment) in
      let gradeRecords := getGradesByEnrollment s (Enrollment.id enrollment) in
      Some (EnrollmentDetails.mk enrollment course facultyMember
              (option_map User.name facultyUser)
              attendanceRecords gradeRecords
              (CourseAssignment.semester courseAssignment)
              (CourseAssignment.year courseAssignment))
  end.

(** [array.filter(Boolean)] on an array of objects and [null]s. *)
Fixpoint filter_Boolean {A} (l : list (option A)) : list A :=
  match l with
  | [] => []
  | Some x :: rest => x :: filter_Boolean rest
  | None :: rest => filter_Boolean rest
  end.

Definition getStudentDetails (s : MemStorage) (id : Z)
  : option StudentDetails.t :=
  match getStudent s id with
  | None => None
  | Some student =>
      match getUser s (Student.userId student) with
      | None => None
      | Some user =>
          let enrollments := getEnrollmentsByStudent s id in
          let courses := map (enrollment_details s) enrollments in
          Some (StudentDetails.mk student user (filter_Boolean courses))
      end
  end.

(* ------------------------------------------------------------------ *)
(** ** [Array.prototype.sort]

    The sort is stable.  With a comparator that orders by an integer key
    the outcome of a stable sort is determined (see [js_sort_unique]
    below), so any stable algorithm models it; insertion is used.
    [cmp a b <= 0] keeps [a] before [b]. *)

Section Sort.
Variable A : Type.
Variable cmp : A -> A -> Z.

Fixpoint sort_insert (x : A) (l : list A) : list A :=
  match l with
  | [] => [x]
  | y :: rest =>
      if cmp x y <=? 0 then x :: y :: rest else y :: sort_insert x rest
  end.

Fixpoint js_sort (l : list A) : list A :=
  match l with
  | [] => []
  | x :: rest => sort_insert x (js_sort rest)
  end.
End Sort.

(** [array.slice(0, n)] *)
Definition slice0 {A} (n : nat) (l : list A) : list A := firstn n l.

(* ------------------------------------------------------------------ *)
(** ** [getUpcomingEvents]

    [now] is the time value of [new Date()] read at the call. *)

Definition getUpcomingEvents (s : MemStorage) (now : Z) : list Event.t :=
  js_sort (fun a b => Event.startDate a - Event.startDate b)
    (filter (fun event => now <? Event.startDate event)
       (JsMap.values (events s))).

(* ------------------------------------------------------------------ *)
(** ** JavaScript numbers that are not integers

    The percentages of the dashboard are doubles.  They are modelled by
    the IEEE 754 binary64 operations of the Standard Library
    ([SpecFloat], precision 53, [emax] 1024), which are executable and
    round to nearest, ties to even, as JavaScript does. *)

Definition Number := spec_float.

Definition prec : Z := 53.
Definition emax : Z := 1024.

(** The number an integer (a [length], a literal) denotes. *)
Definition num_of_Z (z : Z) : Number := binary_normalize prec emax z 0 false.

(** [a / b] and [a * b] *)
Definition num_div (a b : Number) : Number := SFdiv prec emax a b.
Definition num_mul (a b : Number) : Number := SFmul prec emax a b.

(** The number a decimal literal with one fractional digit denotes:
    [tenths / 10] rounded to the nearest double (the division of the
    integers [tenths] and [10] is correctly rounded, see
    [num_of_tenths_nearest]). *)
Definition num_of_tenths (neg : bool) (tenths : Z) : Number :=
  match tenths with
  | Zpos p => SFdiv prec emax (S754_finite neg p 0) (S754_finite false 10 0)
  | _ => S754_zero neg
  end.

(** [x.toFixed(1)], as the count of tenths it prints: the integer [n]
    with [n / 10] nearest to [|x|], the larger one on a tie.  [x] is
    finite, [|x| = m * 2^e]. *)
Definition toFixed1_tenths (m : positive) (e : Z) : Z :=
  let num := Zpos m * 2 ^ Z.max e 0 in
  let den := 2 ^ Z.max (- e) 0 in
  (20 * num + den) / (2 * den).

(** [|x| >= 10^21], where [toFixed] prints as [toString] does. *)
Definition at_least_1e21 (m : positive) (e : Z) : bool :=
  10 ^ 21 * 2 ^ Z.max (- e) 0 <=? Zpos m * 2 ^ Z.max e 0.

(** [parseFloat(x.toFixed(1))] *)
Definition parseFloat_toFixed1 (x : Number) : Number :=
  match x with
  | S754_nan => S754_nan
  | S754_infinity sg => S754_infinity sg
  | S754_zero _ => S754_zero false
  | S754_finite sg m e =>
      if at_least_1e21 m e then x
      else num_of_tenths sg (toFixed1_tenths m e)
  end.

(* ------------------------------------------------------------------ *)
(** ** [getDashboardStats] *)

Module CourseStat.
Record t := mk { count : Z; percentage : Number }.
End CourseStat.

Module CourseStatistics.
Record t := mk {
  active : CourseStat.t; pending : CourseStat.t; archived : CourseStat.t }.
End CourseStatistics.

Module PopularCourse.
Record t := mk { id : Z; code : string; title : string; studentCount : Z }.
End PopularCourse.

Module DashboardStats.
Record t := mk {
  totalStudents : Z;
  totalFaculty : Z;
  totalCourses : Z;
  activeCourses : Z;
  attendanceRate : Number;
  courseStatistics : CourseStatistics.t;
  popularCourses : list PopularCourse.t }.
End DashboardStats.

(** [array.length] *)
Definition len {A} (l : list A) : Z := Z.of_nat (List.length l).

(** [total > 0 ? (part / total) * 100 : 0] *)
Definition percent_of (part total : Z) : Number :=
  if 0 <? total
  then num_mul (num_div (num_of_Z part) (num_of_Z total)) (num_of_Z 100)
  else num_of_Z 0.

Definition status_is (st : string) (c : Course.t) : bool :=
  match Course.status c with
  | Some v => String.eqb v st
  | None => false
  end.

Definition is_attended (record : Attendance.t) : bool :=
  String.eqb (Attendance.status record) "present"
  || String.eqb (Attendance.status record) "late".

(** The callback mapped over the courses: the [for] loop adds up the
    number of enrollments of each assignment of the course. *)
Definition course_with_enrollments (s : MemStorage) (course : Course.t)
  : PopularCourse.t :=
  let assignments := getCourseAssignmentsByCourse s (Course.id course) in
  let studentCount :=
    fold_left
      (fun studentCount assignment =>
         let assignmentEnrollments :=
           getEnrollmentsByCourseAssignment s
             (CourseAssignment.id assignment) in
         studentCount + len assignmentEnrollments)
      assignments 0 in
  PopularCourse.mk (Course.id course) (Course.code course)
    (Course.title course) studentCount.

Definition getDashboardStats (s : MemStorage) : DashboardStats.t :=
  let students := getAllStudents s in
  let facultyMembers := getAllFaculty s in
  let courses := getAllCourses s in
  let allAttendance := getAllAttendance s in
  let totalAttendanceRecords := len allAttendance in
  let presentAttendance := len (filter is_attended allAttendance) in
  let attendanceRate := percent_of presentAttendance totalAttendanceRecords in
  let activeCourses := len (filter (status_is "active") courses) in
  let pendingCourses := len (filter (status_is "pending") courses) in
  let archivedCourses := len (filter (status_is "archived") courses) in
  let totalCourses := len courses in
  let activeCoursesPercentage := percent_of activeCourses totalCourses in
  let pendingCoursesPercentage := percent_of pendingCourses totalCourses in
  let archivedCoursesPercentage := percent_of archivedCourses totalCourses in
  let coursesWithEnrollments := map (course_with_enrollments s) courses in
  let popularCourses :=
    slice0 3
      (js_sort
         (fun a b => PopularCourse.studentCount b - PopularCourse.studentCount a)
         coursesWithEnrollments) in
  DashboardStats.mk
    (len students) (len facultyMembers) (len courses) activeCourses
    (parseFloat_toFixed1 attendanceRate)
    (CourseStatistics.mk
       (CourseStat.mk activeCourses
          (parseFloat_toFixed1 activeCoursesPercentage))
       (CourseStat.mk pendingCourses
          (parseFloat_toFixed1 pendingCoursesPercentage))
       (CourseStat.mk archivedCourses
          (parseFloat_toFixed1 archivedCoursesPercentage)))
    popularCourses.

(* ------------------------------------------------------------------ *)
(** ** The [IStorage] interface

    The interface the routes program against, with [Promise<T>] read as
    [T] and the five per-table methods indexed by [kind]; [MemStorage] is
    its one implementation.  The clock that [getUpcomingEvents] reads is
    an argument. *)

Class IStorage (St : Type) := {
  storage_get : forall k : kind, St -> Z -> option (Row k);
  storage_getAll : forall k : kind, St -> list (Row k);
  storage_create : forall k : kind, St -> InsertRow k -> Row k * St;
  storage_update : forall k : kind, St -> Z -> PartialRow k -> option (Row k) * St;
  storage_delete : forall k : kind, St -> Z -> bool * St;
  storage_getUserByUsername : St -> string -> option User.t;
  storage_getUserByCredentials : St -> LoginCredentials.t -> option User.t;
  storage_getStudentByStudentId : St -> string -> option Student.t;
  storage_getStudentByUserId : St -> Z -> option Student.t;
  storage_getStudentDetails : St -> Z -> option StudentDetails.t;
  storage_getFacultyByFacultyId : St -> string -> option Faculty.t;
  storage_getFacultyByUserId : St -> Z -> option Faculty.t;
  storage_getCourseByCode : St -> string -> option Course.t;
  storage_getCourseAssignmentsByCourse : St -> Z -> list CourseAssignment.t;
  storage_getCourseAssignmentsByFaculty : St -> Z -> list CourseAssignment.t;
  storage_getEnrollmentsByStudent : St -> Z -> list Enrollment.t;
  storage_getEnrollmentsByCourseAssignment : St -> Z -> list Enrollment.t;
  storage_getAttendanceByEnrollment : St -> Z -> list Attendance.t;
  storage_getGradesByEnrollment : St -> Z -> list Grade.t;
  storage_getUpcomingEvents : St -> Z -> list Event.t;
  storage_getDashboardStats : St -> DashboardStats.t }.

#[export] Instance MemStorage_IStorage : IStorage MemStorage := {
  storage_get := get;
  storage_getAll := getAll;
  storage_create := create;
  storage_update := update;
  storage_delete := delete;
  storage_getUserByUsername := getUserByUsername;
  storage_getUserByCredentials := getUserByCredentials;
  storage_getStudentByStudentId := getStudentByStudentId;
  storage_getStudentByUserId := getStudentByUserId;
  storage_getStudentDetails := getStudentDetails;
  storage_getFacultyByFacultyId := getFacultyByFacultyId;
  storage_getFacultyByUserId := getFacultyByUserId;
  storage_getCourseByCode := getCourseByCode;
  storage_getCourseAssignmentsByCourse := getCourseAssignmentsByCourse;
  storage_getCourseAssignmentsByFaculty := getCourseAssignmentsByFaculty;
  storage_getEnrollmentsByStudent := getEnrollmentsByStudent;
  storage_getEnrollmentsByCourseAssignment := getEnrollmentsByCourseAssignment;
  storage_getAttendanceByEnrollment := getAttendanceByEnrollment;
  storage_getGradesByEnrollment := getGradesByEnrollment;
  storage_getUpcomingEvents := getUpcomingEvents;
  storage_getDashboardStats := getDashboardStats }.

(* ------------------------------------------------------------------ *)
(** ** Rows seen as objects

    [entries] lists the own properties of a row and [supplied] those of a
    partial, as JavaScript sees them; they are used to say which
    properties an update touches. *)

Inductive JsValue :=
  | JNum (n : Z)
  | JStr (s : string)
  | JDate (time : Z)
  | JNull.

Definition Obj := list (string * JsValue).

Fixpoint obj_get (name : string) (o : Obj) : option JsValue :=
  match o with
  | [] => None
  | (n, v) :: rest => if String.eqb n name then Some v else obj_get name rest
  end.

Definition prop (name : string) (v : JsValue) : Obj := [(name, v)].

Definition prop_opt (name : string) (v : option JsValue) : Obj :=
  match v with Some v => [(name, v)] | None => [] end.

Definition nullable {A} (f : A -> JsValue) (v : option A) : JsValue :=
  match v with Some a => f a | None => JNull end.

Definition entries (k : kind) : Row k -> Obj :=
  match k with
  | KUser => fun r =>
      prop "id" (JNum (User.id r)) ++
      prop "username" (JStr (User.username r)) ++
      prop "password" (JStr (User.password r)) ++
      prop "email" (JStr (User.email r)) ++
      prop "role" (JStr (User.role r)) ++
      prop "name" (JStr (User.name r)) ++
      prop "profileImage" (nullable JStr (User.profileImage r))
  | KStudent => fun r =>
      prop "id" (JNum (Student.id r)) ++
      prop "userId" (JNum (Student.userId r)) ++
      prop "studentId" (JStr (Student.studentId r)) ++
      prop "program" (JStr (Student.program r)) ++
      prop "yearLevel" (JNum (Student.yearLevel r)) ++
      prop_opt "status" (option_map JStr (Student.status r)) ++
      prop_opt "enrollmentDate" (option_map JDate (Student.enrollmentDate r))
  | KFaculty => fun r =>
      prop "id" (JNum (Faculty.id r)) ++
      prop "userId" (JNum (Faculty.userId r)) ++
      prop "facultyId" (JStr (Faculty.facultyId r)) ++
      prop "department" (JStr (Faculty.department r)) ++
      prop "position" (JStr (Faculty.position r)) ++
      prop_opt "joinDate" (option_map JDate (Faculty.joinDate r)) ++
      prop_opt "status" (option_map JStr (Faculty.status r))
  | KCourse => fun r =>
      prop "id" (JNum (Course.id r)) ++
      prop "code" (JStr (Course.code r)) ++
      prop "title" (JStr (Course.title r)) ++
      prop "description" (nullable JStr (Course.description r)) ++
      prop "credits" (JNum (Course.credits r)) ++
      prop "department" (JStr (Course.department r)) ++
      prop_opt "status" (option_map JStr (Course.status r))
  | KCourseAssignment => fun r =>
      prop "id" (JNum (CourseAssignment.id r)) ++
      prop "courseId" (JNum (CourseAssignment.courseId r)) ++
      prop "facultyId" (JNum (CourseAssignment.facultyId r)) ++
      prop "semester" (JStr (CourseAssignment.semester r)) ++
      prop "year" (JNum (CourseAssignment.year r))
  | KEnrollment => fun r =>
      prop "id" (JNum (Enrollment.id r)) ++
      prop "studentId" (JNum (Enrollment.studentId r)) ++
      prop "courseAssignmentId" (JNum (Enrollment.courseAssignmentId r)) ++
      prop_opt "enrollmentDate"
        (option_map JDate (Enrollment.enrollmentDate r)) ++
      prop_opt "status" (option_map JStr (Enrollment.status r))
  | KAttendance => fun r =>
      prop "id" (JNum (Attendance.id r)) ++
      prop "enrollmentId" (JNum (Attendance.enrollmentId r)) ++
      prop_opt "date" (option_map JDate (Attendance.date r)) ++
      prop "status" (JStr (Attendance.status r)) ++
      prop "notes" (nullable JStr (Attendance.notes r))
  | KGrade => fun r =>
      prop "id" (JNum (Grade.id r)) ++
      prop "enrollmentId" (JNum (Grade.enrollmentId r)) ++
      prop "assignmentName" (JStr (Grade.assignmentName r)) ++
      prop "score" (JNum (Grade.score r)) ++
      prop "maxScore" (JNum (Grade.maxScore r)) ++
      prop "weight" (JNum (Grade.weight r)) ++
      prop_opt "date" (option_map JDate (Grade.date r))
  | KEvent => fun r =>
      prop "id" (JNum (Event.id r)) ++
      prop "title" (JStr (Event.title r)) ++
      prop "description" (nullable JStr (Event.description r)) ++
      prop "startDate" (JDate (Event.startDate r)) ++
      prop "endDate" (JDate (Event.endDate r)) ++
      prop "location" (nullable JStr (Event.location r)) ++
      prop "type" (JStr (Event.type r))
  end.

Definition supplied (k : kind) : PartialRow k -> Obj :=
  match k with
  | KUser => fun p =>
      prop_opt "id" (option_map JNum (PartialUser.id p)) ++
      prop_opt "username" (option_map JStr (PartialUser.username p)) ++
      prop_opt "password" (option_map JStr (PartialUser.password p)) ++
      prop_opt "email" (option_map JStr (PartialUser.email p)) ++
      prop_opt "role" (option_map JStr (PartialUser.role p)) ++
      prop_opt "name" (option_map JStr (PartialUser.name p)) ++
      prop_opt "profileImage"
        (option_map (nullable JStr) (PartialUser.profileImage p))
  | KStudent => fun p =>
      prop_opt "id" (option_map JNum (PartialStudent.id p)) ++
      prop_opt "userId" (option_map JNum (PartialStudent.userId p)) ++
      prop_opt "studentId" (option_map JStr (PartialStudent.studentId p)) ++
      prop_opt "program" (option_map JStr (PartialStudent.program p)) ++
      prop_opt "yearLevel" (option_map JNum (PartialStudent.yearLevel p)) ++
      prop_opt "status" (option_map JStr (PartialStudent.status p)) ++
      prop_opt "enrollmentDate"
        (option_map JDate (PartialStudent.enrollmentDate p))
  | KFaculty => fun p =>
      prop_opt "id" (option_map JNum (PartialFaculty.id p)) ++
      prop_opt "userId" (option_map JNum (PartialFaculty.userId p)) ++
      prop_opt "facultyId" (option_map JStr (PartialFaculty.facultyId p)) ++
      prop_opt "department" (option_map JStr (PartialFaculty.department p)) ++
      prop_opt "position" (option_map JStr (PartialFaculty.position p)) ++
      prop_opt "joinDate" (option_map JDate (PartialFaculty.joinDate p)) ++
      prop_opt "status" (option_map JStr (PartialFaculty.status p))
  | KCourse => fun p =>
      prop_opt "id" (option_map JNum (PartialCourse.id p)) ++
      prop_opt "code" (option_map JStr (PartialCourse.code p)) ++
      prop_opt "title" (option_map JStr (PartialCourse.title p)) ++
      prop_opt "description"
        (option_map (nullable JStr) (PartialCourse.description p)) ++
      prop_opt "credits" (option_map JNum (PartialCourse.credits p)) ++
      prop_opt "department" (option_map JStr (PartialCourse.department p)) ++
      prop_opt "status" (option_map JStr (PartialCourse.status p))
  | KCourseAssignment => fun p =>
      prop_opt "id" (option_map JNum (PartialCourseAssignment.id p)) ++
      prop_opt "courseId"
        (option_map JNum (PartialCourseAssignment.courseId p)) ++
      prop_opt "facultyId"
        (option_map JNum (PartialCourseAssignment.facultyId p)) ++
      prop_opt "semester"
        (option_map JStr (PartialCourseAssignment.semester p)) ++
      prop_opt "year" (option_map JNum (PartialCourseAssignment.year p))
  | KEnrollment => fun p =>
      prop_opt "id" (option_map JNum (PartialEnrollment.id p)) ++
      prop_opt "studentId" (option_map JNum (PartialEnrollment.studentId p)) ++
      prop_opt "courseAssignmentId"
        (option_map JNum (PartialEnrollment.courseAssignmentId p)) ++
      prop_opt "enrollmentDate"
        (option_map JDate (PartialEnrollment.enrollmentDate p)) ++
      prop_opt "status" (option_map JStr (PartialEnrollment.status p))
  | KAttendance => fun p =>
      prop_opt "id" (option_map JNum (PartialAttendance.id p)) ++
      prop_opt "enrollmentId"
        (option_map JNum (PartialAttendance.enrollmentId p)) ++
      prop_opt "date" (option_map JDate (PartialAttendance.date p)) ++
      prop_opt "status" (option_map JStr (PartialAttendance.status p)) ++
      prop_opt "notes" (option_map (nullable JStr) (PartialAttendance.notes p))
  | KGrade => fun p =>
      prop_opt "id" (option_map JNum (PartialGrade.id p)) ++
      prop_opt "enrollmentId" (option_map JNum (PartialGrade.enrollmentId p)) ++
      prop_opt "assignmentName"
        (option_map JStr (PartialGrade.assignmentName p)) ++
      prop_opt "score" (option_map JNum (PartialGrade.score p)) ++
      prop_opt "maxScore" (option_map JNum (PartialGrade.maxScore p)) ++
      prop_opt "weight" (option_map JNum (PartialGrade.weight p)) ++
      prop_opt "date" (option_map JDate (PartialGrade.date p))
  | KEvent => fun p =>
      prop_opt "id" (option_map JNum (PartialEvent.id p)) ++
      prop_opt "title" (option_map JStr (PartialEvent.title p)) ++
      prop_opt "description"
        (option_map (nullable JStr) (PartialEvent.description p)) ++
      prop_opt "startDate" (option_map JDate (PartialEvent.startDate p)) ++
      prop_opt "endDate" (option_map JDate (PartialEvent.endDate p)) ++
      prop_opt "location"
        (option_map (nullable JStr) (PartialEvent.location p)) ++
      prop_opt "type" (option_map JStr (PartialEvent.type p))
  end.

(* ------------------------------------------------------------------ *)
(** ** Runs of the store

    A client drives the store by a sequence of calls of the mutating
    methods.  [run] performs them in order and logs, for every [create],
    the table and the id it assigned. *)

Inductive call :=
  | Create (k : kind) (data : InsertRow k)
  | Update (k : kind) (id : Z) (data : PartialRow k)
  | Delete (k : kind) (id : Z).

Definition perform (s : MemStorage) (c : call)
  : MemStorage * option (kind * Z) :=
  match c with
  | Create k data =>
      let '(row, s') := create k s data in (s', Some (k, row_id k row))
  | Update k id data => (snd (update k s id data), None)
  | Delete k id => (snd (delete k s id), None)
  end.

Fixpoint run (s : MemStorage) (calls : list call)
  : MemStorage * list (kind * Z) :=
  match calls with
  | [] => (s, [])
  | c :: rest =>
      let '(s1, assigned) := perform s c in
      let '(s2, log) := run s1 rest in
      (s2, match assigned with Some a => a :: log | None => log end)
  end.

(** The ids a log records for table [k], in the order they were assigned. *)
Definition assigned_ids (k : kind) (log : list (kind * Z)) : list Z :=
  map snd (filter (fun a => kind_eqb (fst a) k) log).

Definition is_create_of (k : kind) (c : call) : bool :=
  match c with Create k' _ => kind_eqb k' k | _ => false end.

Definition creates_of (k : kind) (calls : list call) : Z :=
  len (filter (is_create_of k) calls).

(** [c; c+1; ...], [n] of them. *)
Fixpoint consecutive (c : Z) (n : nat) : list Z :=
  match n with
  | O => []
  | S n' => c :: consecutive (c + 1) n'
  end.

(** *** Invariants *)

(** Every key of table [k] lies below the table's counter. *)
Definition keys_below_counter (k : kind) (s : MemStorage) : Prop :=
  forall key, In key (JsMap.keys (table k s)) -> key < counter k s.

(** Every row is stored under its own [id]. *)
Definition id_is_key (s : MemStorage) : Prop :=
  forall k key row, get k s key = Some row -> row_id k row = key.

(** The secondary key the schema declares [unique], where a table has one. *)
Definition secondary_key (k : kind) : Row k -> option string :=
  match k with
  | KUser => fun r => Some (User.username r)
  | KStudent => fun r => Some (Student.studentId r)
  | KFaculty => fun r => Some (Faculty.facultyId r)
  | KCourse => fun r => Some (Course.code r)
  | _ => fun _ => None
  end.

Definition insert_secondary_key (k : kind) : InsertRow k -> option string :=
  match k with
  | KUser => fun d => Some (InsertUser.username d)
  | KStudent => fun d => Some (InsertStudent.studentId d)
  | KFaculty => fun d => Some (InsertFaculty.facultyId d)
  | KCourse => fun d => Some (InsertCourse.code d)
  | _ => fun _ => None
  end.

(* ------------------------------------------------------------------ *)
(** ** Sample payloads and stores used in the examples *)

Definition sample_user : InsertUser.t :=
  InsertUser.mk "Admin" "admin123" "admin@college.edu" "admin" "John Admin"
    None.

(** The body of [PUT /api/users/1] carrying [{ "id": 2 }]. *)
Definition partial_with_id_2 : PartialUser.t :=
  PartialUser.mk (Some 2) None None None None None None.

Definition sample_course (code : string) : InsertCourse.t :=
  InsertCourse.mk code "Introduction" None 3 "Computer Science"
    (Some "active").

Definition sample_calls : list call :=
  [ Create KUser sample_user;
    Create KCourse (sample_course "CS101");
    Delete KUser 1;
    Create KUser sample_user;
    Update KUser 2 partial_with_id_2;
    Delete KUser 2;
    Create KUser sample_user ].




Definition sample_assignment (courseId : Z) : InsertCourseAssignment.t :=
  InsertCourseAssignment.mk courseId 1 "Fall" 2023.

Definition sample_enrollment (studentId courseAssignmentId : Z)
  : InsertEnrollment.t :=
  InsertEnrollment.mk studentId courseAssignmentId None (Some "enrolled").


Definition sample_event (title : string) (startDate : Z) : InsertEvent.t :=
  InsertEvent.mk title None startDate (startDate + 3600000) None "academic".

Definition events_store : MemStorage :=
  Eval vm_compute in
  fst (run new_MemStorage
         [ Create KEvent (sample_event "late" 5000);
           Create KEvent (sample_event "past" 1000);
           Create KEvent (sample_event "soon" 3000);
           Create KEvent (sample_event "now" 2000) ]).


(** [f] holds of [x], and of no element before it. *)
Definition first_match {A} (f : A -> bool) (l : list A) (x : A) : Prop :=
  exists before after,
    l = before ++ x :: after /\ f x = true /\
    forall y, In y before -> f y = false.


Definition sample_student (userId : Z) (studentId : string)
  : InsertStudent.t :=
  InsertStudent.mk userId studentId "Computer Science" 2 (Some "active") None.

(** One user and one student profile, ids 1. *)
Definition one_student_store : MemStorage :=
  Eval vm_compute in
  fst (run new_MemStorage
         [ Create KUser sample_user;
           Create KStudent (sample_student 1 "S1001") ]).



Definition sample_attendance (enrollmentId : Z) (status : string)
  : InsertAttendance.t :=
  InsertAttendance.mk enrollmentId None status None.

Definition sample_grade (enrollmentId : Z) : InsertGrade.t :=
  InsertGrade.mk enrollmentId "Midterm" 85 100 30 None.

(** Student 1 is enrolled in assignments 1 and 2, with one attendance
    record and one grade on each enrollment; assignment 1 is then
    deleted. *)
Definition dangling_store : MemStorage :=
  Eval vm_compute in
  fst (run new_MemStorage
         [ Create KUser sample_user;
           Create KStudent (sample_student 1 "S1001");
           Create KCourse (sample_course "CS101");
           Create KCourseAssignment (sample_assignment 1);
           Create KCourseAssignment (sample_assignment 1);
           Create KEnrollment (sample_enrollment 1 1);
           Create KEnrollment (sample_enrollment 1 2);
           Create KAttendance (sample_attendance 1 "present");
           Create KAttendance (sample_attendance 2 "late");
           Create KGrade (sample_grade 1);
           Create KGrade (sample_grade 2);
           Delete KCourseAssignment 1 ]).

(* ------------------------------------------------------------------ *)
(** ** Vocabulary for the rounding of doubles *)

(** The exact value [N / D] (in units of the record's exponent) lies
    where the round and sticky bits of the record say, relative to its
    mantissa [m]: at [m], strictly between [m] and [m + 1/2], at
    [m + 1/2], or strictly between [m + 1/2] and [m + 1]. *)
Definition located (N D : Z) (mrs : shr_record) : Prop :=
  let m := shr_m mrs in
  match shr_r mrs, shr_s mrs with
  | false, false => N = m * D
  | false, true => m * D < N /\ 2 * N < (2 * m + 1) * D
  | true, false => 2 * N = (2 * m + 1) * D
  | true, true => (2 * m + 1) * D < 2 * N /\ N < (m + 1) * D
  end.

(** [n] right shifts of a record. *)
Definition shr_n (n : Z) (mrs : shr_record) : shr_record :=
  match n with
  | Zpos p => iter_pos shr_1 p mrs
  | _ => mrs
  end.

(** [n / 10] is a multiple of one tenth nearest to [100 * part / total]. *)
Definition nearest_tenths (n part total : Z) : Prop :=
  0 <= n /\ - total <= 2 * (n * total - 1000 * part) <= total.

Definition status_matches (st : string) (status : option string) : bool :=
  match status with Some v => String.eqb v st | None => false end.

Definition attended_status (status : string) : bool :=
  String.eqb status "present" || String.eqb status "late".

Definition course_with_status (code status : string) : InsertCourse.t :=
  InsertCourse.mk code "Introduction" None 3 "Computer Science" (Some status).

(** Four courses (active, active, pending, archived) and five attendance
    records (present, present, late, absent, excused). *)
Definition dashboard_store : MemStorage :=
  Eval vm_compute in
  fst (run new_MemStorage
         [ Create KCourse (course_with_status "CS101" "active");
           Create KCourse (course_with_status "CS201" "active");
           Create KCourse (course_with_status "CS301" "pending");
           Create KCourse (course_with_status "CS401" "archived");
           Create KAttendance (sample_attendance 1 "present");
           Create KAttendance (sample_attendance 1 "present");
           Create KAttendance (sample_attendance 1 "late");
           Create KAttendance (sample_attendance 1 "absent");
           Create KAttendance (sample_attendance 1 "excused") ]).

(** The body of [PUT /api/courses/1] carrying [{ "status": "archived" }]. *)
Definition partial_archived : PartialCourse.t :=
  PartialCourse.mk None None None None None None (Some "archived").

(** One course, id 1, status active. *)
Definition one_course_store : MemStorage :=
  Eval vm_compute in
  snd (createCourse new_MemStorage (course_with_status "CS101" "active")).

(** "[100 * part / total] rounded to 1 decimal place", read with the
    usual conventions for a value halfway between two tenths: round half
    up, and round half to even.  Both in counts of tenths. *)
Definition tenths_half_up (part total : Z) : Z :=
  (2000 * part + total) / (2 * total).

Definition tenths_half_even (part total : Z) : Z :=
  let k := (1000 * part) / total in
  let twice_rest := 2 * (1000 * part - k * total) in
  if twice_rest <? total then k
  else if total <? twice_rest then k + 1
  else if Z.even k then k else k + 1.

(** 80 attendance records, 23 of them present. *)
Definition ties_store : MemStorage :=
  Eval vm_compute in
  fst (run new_MemStorage
         (map (fun _ => Create KAttendance (sample_attendance 1 "present"))
            (seq 0 23) ++
          map (fun _ => Create KAttendance (sample_attendance 1 "absent"))
            (seq 0 57))).

(** A call that leaves the [id] of rows alone: any create, any delete,
    and an update whose partial has no [id] or repeats the key. *)
Definition keeps_id (c : call) : Prop :=
  match c with
  | Update k id data =>
      partial_id k data = None \/ partial_id k data = Some id
  | _ => True
  end.

(* ------------------------------------------------------------------ *)
(** ** The HTTP routes ([server/routes.ts])

    [registerRoutes] installs 42 routes on the one [storage] object.  A
    route is a chain of middlewares and a handler; each is modelled as a
    function of the store and of [req.session.user] to the response and
    the next store.

    Conventions of the embedding.
    - A response is its status code and the value passed to [res.json]
      ([res.json] alone answers 200).
    - [parseInt(req.params.id)] is an argument of the handler: [Some n]
      for an integer, [None] for [NaN] (or an infinity), which is the key
      of no row and equal to no id.
    - The outcome of [insert<Entity>Schema.parse(req.body)] is an
      argument of the handler: [Some data] for a body the schema accepts,
      [None] for the [ZodError] it throws otherwise.  [loginSchema] is
      written out in the schema file and is modelled on the body.
    - The body of a PUT reaches [update<Entity>] unvalidated; it is read
      at the type that method declares for it, [Partial<Entity>].
    - A handler is [async], but every promise it awaits is one the
      store returns already resolved: it runs to its response before the
      handler of another request starts, so requests are served one
      after the other.
    - A handler body sits in [try]/[catch].  The store never throws; the
      one exception a handler can raise is the read of a property of
      [req.session.user] when the session has no user, and it is answered
      by the [catch] with 500. *)

Module SessionUser.
Record t := mk { id : Z; username : string; role : string; name : string }.
End SessionUser.

(** [req.session.user]; [None] when the session has none. *)
Definition Session := option SessionUser.t.

(** [{ id, username, email, name, role, profileImage }], the object the
    user routes and the login answer. *)
Module UserView.
Record t := mk {
  id : Z; username : string; email : string; name : string;
  role : string; profileImage : option string }.
End UserView.

(** [{ id, username, email, name, profileImage }], the [user] property
    the student and faculty routes attach to a profile. *)
Module ProfileUser.
Record t := mk {
  id : Z; username : string; email : string; name : string;
  profileImage : option string }.
End ProfileUser.

Definition user_view (user : User.t) : UserView.t :=
  UserView.mk (User.id user) (User.username user) (User.email user)
    (User.name user) (User.role user) (User.profileImage user).

Definition profile_user (user : User.t) : ProfileUser.t :=
  ProfileUser.mk (User.id user) (User.username user) (User.email user)
    (User.name user) (User.profileImage user).

(** [{ ...assignment, course }] of [GET /api/faculty/:id]. *)
Module AssignedCourse.
Record t := mk { assignment : CourseAssignment.t; course : option Course.t }.
End AssignedCourse.

(** [{ ...assignment, faculty, facultyName }] of [GET /api/courses/:id]. *)
Module AssignedFaculty.
Record t := mk {
  assignment : CourseAssignment.t; faculty : option Faculty.t;
  facultyName : option string }.
End AssignedFaculty.

(** The values the routes pass to [res.json]. *)
Inductive Body :=
  | BMessage (message : string)
  | BValidationError
  | BSession (user : Session)
  | BUser (user : UserView.t)
  | BUsers (users : list UserView.t)
  | BRow (k : kind) (row : Row k)
  | BRows (k : kind) (rows : list (Row k))
  | BProfile (k : kind) (row : Row k) (user : option ProfileUser.t)
  | BProfiles (k : kind) (rows : list (Row k * option ProfileUser.t))
  | BStudentDetails (details : StudentDetails.t)
  | BFacultyDetails (faculty : Faculty.t) (user : option ProfileUser.t)
      (courses : list AssignedCourse.t)
  | BCourseDetails (course : Course.t) (assignments : list AssignedFaculty.t)
  | BDashboardStats (stats : DashboardStats.t).

Module Response.
Record t := mk { status : Z; body : Body }.
End Response.

(** [res.json(body)] and [res.status(code).json({ message })]. *)
Definition json (body : Body) : Response.t := Response.mk 200 body.

Definition fail (code : Z) (message : string) : Response.t :=
  Response.mk code (BMessage message).

(** [parseInt(req.params.id)] *)
Definition ParsedInt := option Z.

(** The outcome of a schema's [parse]. *)
Definition Parsed (A : Type) := option A.

(** [n === id] for a stored number [n]. *)
Definition num_eq (n : Z) (id : ParsedInt) : bool :=
  match id with Some i => n =? i | None => false end.

(** The store's methods at a parsed parameter. *)
Definition get_at (k : kind) (s : MemStorage) (id : ParsedInt)
  : option (Row k) :=
  match id with Some i => get k s i | None => None end.

Definition update_at (k : kind) (s : MemStorage) (id : ParsedInt)
  (data : PartialRow k) : option (Row k) * MemStorage :=
  match id with Some i => update k s i data | None => (None, s) end.

Definition delete_at (k : kind) (s : MemStorage) (id : ParsedInt)
  : bool * MemStorage :=
  match id with Some i => delete k s i | None => (false, s) end.

(** A string in a condition: the empty string is falsy. *)
Definition truthy (v : string) : bool := negb (String.eqb v "").

(** The check the PUT handlers of the users, students, faculty and
    courses make before the update, on the unique column of the table:
    [if (req.body.key && req.body.key !== row.key) {
       const existing = await storage.getByKey(req.body.key);
       if (existing && existing.id !== id) return res.status(400)... }];
    [true] when the handler answers 400. *)
Definition key_taken {A : Type} (supplied : option string) (current : string)
  (lookup : string -> option A) (id_of : A -> Z) (id : ParsedInt) : bool :=
  match supplied with
  | Some key =>
      if truthy key && negb (String.eqb key current)
      then
        match lookup key with
        | Some existing => negb (num_eq (id_of existing) id)
        | None => false
        end
      else false
  | None => false
  end.

(** *** Middlewares *)

(** A middleware answers ([Some]) or calls [next()] ([None]). *)
Definition Middleware := Session -> option Response.t.

Definition requireAuth : Middleware := fun session =>
  match session with
  | None => Some (fail 401 "Authentication required")
  | Some _ => None
  end.

(** [roles.includes(role)] *)
Definition includes (roles : list string) (role : string) : bool :=
  existsb (String.eqb role) roles.

Definition requireRole (roles : list string) : Middleware := fun session =>
  match session with
  | None => Some (fail 401 "Authentication required")
  | Some user =>
      if includes roles (SessionUser.role user) then None
      else Some (fail 403 "Access denied")
  end.

Definition Handler := MemStorage -> Session -> Response.t * MemStorage.

(** [app.METHOD(path, ...middlewares, handler)] *)
Fixpoint through (middlewares : list Middleware) (handler : Handler)
  (s : MemStorage) (session : Session) : Response.t * MemStorage :=
  match middlewares with
  | [] => handler s session
  | m :: rest =>
      match m session with
      | Some res => (res, s)
      | None => through rest handler s session
      end
  end.

(** *** Auth routes *)

(** [z.object({ username: z.string().min(1, ...),
                password: z.string().min(1, ...) })] *)
Definition loginSchema_parse (body : Obj) : Parsed LoginCredentials.t :=
  match obj_get "username" body, obj_get "password" body with
  | Some (JStr username), Some (JStr password) =>
      if ((1 <=? String.length username)%nat
          && (1 <=? String.length password)%nat)%bool
      then Some (LoginCredentials.mk username password)
      else None
  | _, _ => None
  end.

(** [POST /api/auth/login] *)
Definition post_auth_login (s : MemStorage) (session : Session) (body : Obj)
  : Response.t * Session :=
  match loginSchema_parse body with
  | None => (Response.mk 400 BValidationError, session)
  | Some credentials =>
      match getUserByCredentials s credentials with
      | None => (fail 401 "Invalid username or password", session)
      | Some user =>
          (json (BUser (user_view user)),
           Some (SessionUser.mk (User.id user) (User.username user)
                   (User.role user) (User.name user)))
      end
  end.

(** [POST /api/auth/logout]; the session store in memory reports no error
    to [destroy]. *)
Definition post_auth_logout (session : Session) : Response.t * Session :=
  (json (BMessage "Logged out successfully"), None).

(** [GET /api/auth/session] *)
Definition get_auth_session (session : Session) : Response.t :=
  json (BSession session).

(** *** User routes *)

(** [GET /api/users] *)
Definition get_users : Handler := fun s session =>
  let users := getAllUsers s in
  (json (BUsers (map user_view users)), s).

(** [GET /api/users/:id] *)
Definition get_user (id : ParsedInt) : Handler := fun s session =>
  match get_at KUser s id with
  | None => (fail 404 "User not found", s)
  | Some user =>
      match session with
      | None => (fail 500 "Failed to retrieve user", s)
      | Some session_user =>
          if negb (String.eqb (SessionUser.role session_user) "admin")
             && negb (num_eq (SessionUser.id session_user) id)
          then (fail 403 "Access denied", s)
          else (json (BUser (user_view user)), s)
      end
  end.

(** [POST /api/users] *)
Definition post_users (body : Parsed InsertUser.t) : Handler :=
  fun s session =>
  match body with
  | None => (Response.mk 400 BValidationError, s)
  | Some userData =>
      match getUserByUsername s (InsertUser.username userData) with
      | Some existingUser => (fail 400 "Username already exists", s)
      | None =>
          let '(user, s') := createUser s userData in
          (Response.mk 201 (BUser (user_view user)), s')
      end
  end.

(** [PUT /api/users/:id] *)
Definition put_user (id : ParsedInt) (body : PartialUser.t) : Handler :=
  fun s session =>
  match get_at KUser s id with
  | None => (fail 404 "User not found", s)
  | Some user =>
      match session with
      | None => (fail 500 "Failed to update user", s)
      | Some session_user =>
          if negb (String.eqb (SessionUser.role session_user) "admin")
             && negb (num_eq (SessionUser.id session_user) id)
          then (fail 403 "Access denied", s)
          else
            let taken :=
              key_taken (PartialUser.username body) (User.username user)
                (getUserByUsername s) User.id id in
            if taken then (fail 400 "Username already exists", s)
            else
              let role_change :=
                match PartialUser.role body with
                | Some role =>
                    truthy role
                    && negb (String.eqb role (User.role user))
                    && negb (String.eqb (SessionUser.role session_user)
                               "admin")
                | None => false
                end in
              if role_change then (fail 403 "Cannot change role", s)
              else
                match update_at KUser s id body with
                | (None, s') => (fail 500 "Failed to update user", s')
                | (Some updatedUser, s') =>
                    (json (BUser (user_view updatedUser)), s')
                end
      end
  end.

(** [DELETE /api/users/:id] *)
Definition delete_user (id : ParsedInt) : Handler := fun s session =>
  match session with
  | None => (fail 500 "Failed to delete user", s)
  | Some session_user =>
      if num_eq (SessionUser.id session_user) id
      then (fail 400 "Cannot delete your own account", s)
      else
        let '(deleted, s') := delete_at KUser s id in
        if deleted then (json (BMessage "User deleted successfully"), s')
        else (fail 404 "User not found", s')
  end.

(** *** Student routes *)

(** The callback of [GET /api/students] and [GET /api/faculty]:
    [{ ...row, user: user ? { ... } : null }]. *)
Definition with_user (s : MemStorage) (k : kind) (userId : Row k -> Z)
  (row : Row k) : Row k * option ProfileUser.t :=
  let user := getUser s (userId row) in
  (row, option_map profile_user user).

(** [GET /api/students] *)
Definition get_students : Handler := fun s session =>
  let students := getAllStudents s in
  (json (BProfiles KStudent
           (map (with_user s KStudent Student.userId) students)), s).

(** [GET /api/students/:id] *)
Definition get_student (id : ParsedInt) : Handler := fun s session =>
  let studentDetails :=
    match id with Some i => getStudentDetails s i | None => None end in
  match studentDetails with
  | None => (fail 404 "Student not found", s)
  | Some details => (json (BStudentDetails details), s)
  end.

(** [POST /api/students] *)
Definition post_students (body : Parsed InsertStudent.t) : Handler :=
  fun s session =>
  match body with
  | None => (Response.mk 400 BValidationError, s)
  | Some studentData =>
      match getUser s (InsertStudent.userId studentData) with
      | None => (fail 400 "User not found", s)
      | Some user =>
          if negb (String.eqb (User.role user) "student")
          then (fail 400 "User is not a student", s)
          else
            match getStudentByStudentId s
                    (InsertStudent.studentId studentData) with
            | Some existingStudent =>
                (fail 400 "Student ID already exists", s)
            | None =>
                match getStudentByUserId s
                        (InsertStudent.userId studentData) with
                | Some existingProfile =>
                    (fail 400 "User already has a student profile", s)
                | None =>
                    let '(student, s') := createStudent s studentData in
                    (Response.mk 201
                       (BProfile KStudent student
                          (Some (profile_user user))), s')
                end
            end
      end
  end.

(** [PUT /api/students/:id] *)
Definition put_student (id : ParsedInt) (body : PartialStudent.t) : Handler :=
  fun s session =>
  match get_at KStudent s id with
  | None => (fail 404 "Student not found", s)
  | Some student =>
      let taken :=
        key_taken (PartialStudent.studentId body) (Student.studentId student)
          (getStudentByStudentId s) Student.id id in
      if taken then (fail 400 "Student ID already exists", s)
      else
        match update_at KStudent s id body with
        | (None, s') => (fail 500 "Failed to update student", s')
        | (Some updatedStudent, s') =>
            let user := getUser s' (Student.userId updatedStudent) in
            (json (BProfile KStudent updatedStudent
                     (option_map profile_user user)), s')
        end
  end.

(** *** Faculty routes *)

(** [GET /api/faculty] *)
Definition get_faculty_members : Handler := fun s session =>
  let facultyMembers := getAllFaculty s in
  (json (BProfiles KFaculty
           (map (with_user s KFaculty Faculty.userId) facultyMembers)), s).

(** [GET /api/faculty/:id] *)
Definition get_faculty (id : ParsedInt) : Handler := fun s session =>
  match get_at KFaculty s id with
  | None => (fail 404 "Faculty member not found", s)
  | Some faculty =>
      let user := getUser s (Faculty.userId faculty) in
      let courseAssignments :=
        match id with
        | Some i => getCourseAssignmentsByFaculty s i
        | None => []
        end in
      let courses :=
        map (fun assignment =>
               let course :=
                 getCourse s (CourseAssignment.courseId assignment) in
               AssignedCourse.mk assignment course)
          courseAssignments in
      (json (BFacultyDetails faculty (option_map profile_user user) courses),
       s)
  end.

(** [POST /api/faculty] *)
Definition post_faculty (body : Parsed InsertFaculty.t) : Handler :=
  fun s session =>
  match body with
  | None => (Response.mk 400 BValidationError, s)
  | Some facultyData =>
      match getUser s (InsertFaculty.userId facultyData) with
      | None => (fail 400 "User not found", s)
      | Some user =>
          if negb (String.eqb (User.role user) "faculty")
          then (fail 400 "User is not faculty", s)
          else
            match getFacultyByFacultyId s
                    (InsertFaculty.facultyId facultyData) with
            | Some existingFaculty =>
                (fail 400 "Faculty ID already exists", s)
            | None =>
                match getFacultyByUserId s
                        (InsertFaculty.userId facultyData) with
                | Some existingProfile =>
                    (fail 400 "User already has a faculty profile", s)
                | None =>
                    let '(faculty, s') := createFaculty s facultyData in
                    (Response.mk 201
                       (BProfile KFaculty faculty
                          (Some (profile_user user))), s')
                end
            end
      end
  end.

(** [PUT /api/faculty/:id] *)
Definition put_faculty (id : ParsedInt) (body : PartialFaculty.t) : Handler :=
  fun s session =>
  match get_at KFaculty s id with
  | None => (fail 404 "Faculty member not found", s)
  | Some faculty =>
      let taken :=
        key_taken (PartialFaculty.facultyId body) (Faculty.facultyId faculty)
          (getFacultyByFacultyId s) Faculty.id id in
      if taken then (fail 400 "Faculty ID already exists", s)
      else
        match update_at KFaculty s id body with
        | (None, s') => (fail 500 "Failed to update faculty member", s')
        | (Some updatedFaculty, s') =>
            let user := getUser s' (Faculty.userId updatedFaculty) in
            (json (BProfile KFaculty updatedFaculty
                     (option_map profile_user user)), s')
        end
  end.

(** *** Course routes *)

(** [GET /api/courses] *)
Definition get_courses : Handler := fun s session =>
  let courses := getAllCourses s in
  (json (BRows KCourse courses), s).

(** [GET /api/courses/:id] *)
Definition get_course (id : ParsedInt) : Handler := fun s session =>
  match get_at KCourse s id with
  | None => (fail 404 "Course not found", s)
  | Some course =>
      let courseAssignments :=
        match id with
        | Some i => getCourseAssignmentsByCourse s i
        | None => []
        end in
      let assignmentsWithFaculty :=
        map (fun assignment =>
               let faculty :=
                 getFaculty s (CourseAssignment.facultyId assignment) in
               let user :=
                 match faculty with
                 | Some f => getUser s (Faculty.userId f)
                 | None => None
                 end in
               AssignedFaculty.mk assignment faculty
                 (option_map User.name user))
          courseAssignments in
      (json (BCourseDetails course assignmentsWithFaculty), s)
  end.

(** [POST /api/courses] *)
Definition post_courses (body : Parsed InsertCourse.t) : Handler :=
  fun s session =>
  match body with
  | None => (Response.mk 400 BValidationError, s)
  | Some courseData =>
      match getCourseByCode s (InsertCourse.code courseData) with
      | Some existingCourse => (fail 400 "Course code already exists", s)
      | None =>
          let '(course, s') := createCourse s courseData in
          (Response.mk 201 (BRow KCourse course), s')
      end
  end.

(** [PUT /api/courses/:id] *)
Definition put_course (id : ParsedInt) (body : PartialCourse.t) : Handler :=
  fun s session =>
  match get_at KCourse s id with
  | None => (fail 404 "Course not found", s)
  | Some course =>
      let taken :=
        key_taken (PartialCourse.code body) (Course.code course)
          (getCourseByCode s) Course.id id in
      if taken then (fail 400 "Course code already exists", s)
      else
        match update_at KCourse s id body with
        | (None, s') => (fail 500 "Failed to update course", s')
        | (Some updatedCourse, s') => (json (BRow KCourse updatedCourse), s')
        end
  end.

(** *** Course assignment, enrollment, attendance, grade and event routes *)

(** [POST /api/course-assignments] *)
Definition post_course_assignments (body : Parsed InsertCourseAssignment.t)
  : Handler := fun s session =>
  match body with
  | None => (Response.mk 400 BValidationError, s)
  | Some assignmentData =>
      match getCourse s (InsertCourseAssignment.courseId assignmentData) with
      | None => (fail 400 "Course not found", s)
      | Some course =>
          match getFaculty s
                  (InsertCourseAssignment.facultyId assignmentData) with
          | None => (fail 400 "Faculty member not found", s)
          | Some faculty =>
              let '(assignment, s') :=
                createCourseAssignment s assignmentData in
              (Response.mk 201 (BRow KCourseAssignment assignment), s')
          end
      end
  end.

(** [e => e.courseAssignmentId === enrollmentData.courseAssignmentId
         && e.status === "enrolled"] *)
Definition enrolled_in (courseAssignmentId : Z) (e : Enrollment.t) : bool :=
  (Enrollment.courseAssignmentId e =? courseAssignmentId)
  && status_matches "enrolled" (Enrollment.status e).

(** [POST /api/enrollments] *)
Definition post_enrollments (body : Parsed InsertEnrollment.t) : Handler :=
  fun s session =>
  match body with
  | None => (Response.mk 400 BValidationError, s)
  | Some enrollmentData =>
      match getStudent s (InsertEnrollment.studentId enrollmentData) with
      | None => (fail 400 "Student not found", s)
      | Some student =>
          match getCourseAssignment s
                  (InsertEnrollment.courseAssignmentId enrollmentData) with
          | None => (fail 400 "Course assignment not found", s)
          | Some courseAssignment =>
              let enrollments :=
                getEnrollmentsByStudent s
                  (InsertEnrollment.studentId enrollmentData) in
              let alreadyEnrolled :=
                existsb
                  (enrolled_in
                     (InsertEnrollment.courseAssignmentId enrollmentData))
                  enrollments in
              if alreadyEnrolled
              then (fail 400 "Student is already enrolled in this course", s)
              else
                let '(enrollment, s') :=
                  createEnrollment s enrollmentData in
                (Response.mk 201 (BRow KEnrollment enrollment), s')
          end
      end
  end.

(** [GET /api/attendance/enrollment/:enrollmentId] *)
Definition get_attendance_by_enrollment (enrollmentId : ParsedInt) : Handler :=
  fun s session =>
  let attendanceRecords :=
    match enrollmentId with
    | Some i => getAttendanceByEnrollment s i
    | None => []
    end in
  (json (BRows KAttendance attendanceRecords), s).

(** [POST /api/attendance] *)
Definition post_attendance (body : Parsed InsertAttendance.t) : Handler :=
  fun s session =>
  match body with
  | None => (Response.mk 400 BValidationError, s)
  | Some attendanceData =>
      match getEnrollment s (InsertAttendance.enrollmentId attendanceData) with
      | None => (fail 400 "Enrollment not found", s)
      | Some enrollment =>
          let '(attendance, s') := createAttendance s attendanceData in
          (Response.mk 201 (BRow KAttendance attendance), s')
      end
  end.

(** [GET /api/grades/enrollment/:enrollmentId] *)
Definition get_grades_by_enrollment (enrollmentId : ParsedInt) : Handler :=
  fun s session =>
  let grades :=
    match enrollmentId with
    | Some i => getGradesByEnrollment s i
    | None => []
    end in
  (json (BRows KGrade grades), s).

(** [POST /api/grades] *)
Definition post_grades (body : Parsed InsertGrade.t) : Handler :=
  fun s session =>
  match body with
  | None => (Response.mk 400 BValidationError, s)
  | Some gradeData =>
      match getEnrollment s (InsertGrade.enrollmentId gradeData) with
      | None => (fail 400 "Enrollment not found", s)
      | Some enrollment =>
          let '(grade, s') := createGrade s gradeData in
          (Response.mk 201 (BRow KGrade grade), s')
      end
  end.

(** [GET /api/events] *)
Definition get_events : Handler := fun s session =>
  let events := getAllEvents s in
  (json (BRows KEvent events), s).

(** [GET /api/events/upcoming]; [now] is the clock the store reads. *)
Definition get_events_upcoming (now : Z) : Handler := fun s session =>
  let events := getUpcomingEvents s now in
  (json (BRows KEvent events), s).

(** [POST /api/events] *)
Definition post_events (body : Parsed InsertEvent.t) : Handler :=
  fun s session =>
  match body with
  | None => (Response.mk 400 BValidationError, s)
  | Some eventData =>
      let '(event, s') := createEvent s eventData in
      (Response.mk 201 (BRow KEvent event), s')
  end.

(** [GET /api/dashboard/stats] *)
Definition get_dashboard_stats : Handler := fun s session =>
  let stats := getDashboardStats s in
  (json (BDashboardStats stats), s).

(** *** The handlers that differ in the table and the wording only *)

(** The entity as the messages name it, at the start of a sentence and
    inside one. *)
Definition Entity (k : kind) : string :=
  match k with
  | KUser => "User" | KStudent => "Student" | KFaculty => "Faculty member"
  | KCourse => "Course" | KCourseAssignment => "Course assignment"
  | KEnrollment => "Enrollment" | KAttendance => "Attendance record"
  | KGrade => "Grade" | KEvent => "Event"
  end.

Definition entity (k : kind) : string :=
  match k with
  | KUser => "user" | KStudent => "student" | KFaculty => "faculty member"
  | KCourse => "course" | KCourseAssignment => "course assignment"
  | KEnrollment => "enrollment" | KAttendance => "attendance record"
  | KGrade => "grade" | KEvent => "event"
  end.

(** [PUT /api/enrollments/:id], [PUT /api/attendance/:id],
    [PUT /api/grades/:id] and [PUT /api/events/:id]. *)
Definition put_row (k : kind) (id : ParsedInt) (body : PartialRow k)
  : Handler := fun s session =>
  match get_at k s id with
  | None => (fail 404 (String.append (Entity k) " not found"), s)
  | Some row =>
      match update_at k s id body with
      | (None, s') =>
          (fail 500 (String.append "Failed to update " (entity k)), s')
      | (Some updated, s') => (json (BRow k updated), s')
      end
  end.

(** [DELETE /api/<entities>/:id], for every table but the users. *)
Definition delete_row (k : kind) (id : ParsedInt) : Handler :=
  fun s session =>
  let '(deleted, s') := delete_at k s id in
  if deleted
  then (json (BMessage (String.append (Entity k) " deleted successfully")),
        s')
  else (fail 404 (String.append (Entity k) " not found"), s').

(** *** The router *)

(** One constructor for each route [registerRoutes] installs, with what
    its handler reads besides the store and the session: the parameter,
    the body and, for the upcoming events, the clock. *)
Inductive Request :=
  | POST_auth_login (body : Obj)
  | POST_auth_logout
  | GET_auth_session
  | GET_users
  | GET_user (id : ParsedInt)
  | POST_users (body : Parsed InsertUser.t)
  | PUT_user (id : ParsedInt) (body : PartialUser.t)
  | DELETE_user (id : ParsedInt)
  | GET_students
  | GET_student (id : ParsedInt)
  | POST_students (body : Parsed InsertStudent.t)
  | PUT_student (id : ParsedInt) (body : PartialStudent.t)
  | DELETE_student (id : ParsedInt)
  | GET_faculty_members
  | GET_faculty (id : ParsedInt)
  | POST_faculty (body : Parsed InsertFaculty.t)
  | PUT_faculty (id : ParsedInt) (body : PartialFaculty.t)
  | DELETE_faculty (id : ParsedInt)
  | GET_courses
  | GET_course (id : ParsedInt)
  | POST_courses (body : Parsed InsertCourse.t)
  | PUT_course (id : ParsedInt) (body : PartialCourse.t)
  | DELETE_course (id : ParsedInt)
  | POST_course_assignments (body : Parsed InsertCourseAssignment.t)
  | DELETE_course_assignment (id : ParsedInt)
  | POST_enrollments (body : Parsed InsertEnrollment.t)
  | PUT_enrollment (id : ParsedInt) (body : PartialEnrollment.t)
  | DELETE_enrollment (id : ParsedInt)
  | GET_attendance_by_enrollment (enrollmentId : ParsedInt)
  | POST_attendance (body : Parsed InsertAttendance.t)
  | PUT_attendance (id : ParsedInt) (body : PartialAttendance.t)
  | DELETE_attendance (id : ParsedInt)
  | GET_grades_by_enrollment (enrollmentId : ParsedInt)
  | POST_grades (body : Parsed InsertGrade.t)
  | PUT_grade (id : ParsedInt) (body : PartialGrade.t)
  | DELETE_grade (id : ParsedInt)
  | GET_events
  | GET_events_upcoming (now : Z)
  | POST_events (body : Parsed InsertEvent.t)
  | PUT_event (id : ParsedInt) (body : PartialEvent.t)
  | DELETE_event (id : ParsedInt)
  | GET_dashboard_stats.

Definition admin : list string := ["admin"].
Definition admin_or_faculty : list string := ["admin"; "faculty"].

(** The middlewares and the handler of a route that works on the store;
    [None] for the three auth routes, which have no middleware and work
    on the session. *)
Definition route (r : Request)
  : option (list Middleware * Handler) :=
  match r with
  | POST_auth_login _ | POST_auth_logout | GET_auth_session => None
  | GET_users => Some ([requireAuth; requireRole admin], get_users)
  | GET_user id => Some ([requireAuth], get_user id)
  | POST_users body => Some ([requireAuth; requireRole admin], post_users body)
  | PUT_user id body => Some ([requireAuth], put_user id body)
  | DELETE_user id => Some ([requireAuth; requireRole admin], delete_user id)
  | GET_students => Some ([requireAuth], get_students)
  | GET_student id => Some ([requireAuth], get_student id)
  | POST_students body =>
      Some ([requireAuth; requireRole admin], post_students body)
  | PUT_student id body =>
      Some ([requireAuth; requireRole admin], put_student id body)
  | DELETE_student id =>
      Some ([requireAuth; requireRole admin], delete_row KStudent id)
  | GET_faculty_members => Some ([requireAuth], get_faculty_members)
  | GET_faculty id => Some ([requireAuth], get_faculty id)
  | POST_faculty body =>
      Some ([requireAuth; requireRole admin], post_faculty body)
  | PUT_faculty id body =>
      Some ([requireAuth; requireRole admin], put_faculty id body)
  | DELETE_faculty id =>
      Some ([requireAuth; requireRole admin], delete_row KFaculty id)
  | GET_courses => Some ([requireAuth], get_courses)
  | GET_course id => Some ([requireAuth], get_course id)
  | POST_courses body =>
      Some ([requireAuth; requireRole admin], post_courses body)
  | PUT_course id body =>
      Some ([requireAuth; requireRole admin], put_course id body)
  | DELETE_course id =>
      Some ([requireAuth; requireRole admin], delete_row KCourse id)
  | POST_course_assignments body =>
      Some ([requireAuth; requireRole admin], post_course_assignments body)
  | DELETE_course_assignment id =>
      Some ([requireAuth; requireRole admin], delete_row KCourseAssignment id)
  | POST_enrollments body =>
      Some ([requireAuth; requireRole admin], post_enrollments body)
  | PUT_enrollment id body =>
      Some ([requireAuth; requireRole admin_or_faculty],
            put_row KEnrollment id body)
  | DELETE_enrollment id =>
      Some ([requireAuth; requireRole admin], delete_row KEnrollment id)
  | GET_attendance_by_enrollment enrollmentId =>
      Some ([requireAuth], get_attendance_by_enrollment enrollmentId)
  | POST_attendance body =>
      Some ([requireAuth; requireRole admin_or_faculty], post_attendance body)
  | PUT_attendance id body =>
      Some ([requireAuth; requireRole admin_or_faculty],
            put_row KAttendance id body)
  | DELETE_attendance id =>
      Some ([requireAuth; requireRole admin_or_faculty],
            delete_row KAttendance id)
  | GET_grades_by_enrollment enrollmentId =>
      Some ([requireAuth], get_grades_by_enrollment enrollmentId)
  | POST_grades body =>
      Some ([requireAuth; requireRole admin_or_faculty], post_grades body)
  | PUT_grade id body =>
      Some ([requireAuth; requireRole admin_or_faculty],
            put_row KGrade id body)
  | DELETE_grade id =>
      Some ([requireAuth; requireRole admin_or_faculty], delete_row KGrade id)
  | GET_events => Some ([requireAuth], get_events)
  | GET_events_upcoming now => Some ([requireAuth], get_events_upcoming now)
  | POST_events body =>
      Some ([requireAuth; requireRole admin], post_events body)
  | PUT_event id body =>
      Some ([requireAuth; requireRole admin], put_row KEvent id body)
  | DELETE_event id =>
      Some ([requireAuth; requireRole admin], delete_row KEvent id)
  | GET_dashboard_stats => Some ([requireAuth], get_dashboard_stats)
  end.

(** The server's answer to one request: the response, the next store and
    the next [req.session.user]. *)
Definition serve (s : MemStorage) (session : Session) (r : Request)
  : Response.t * MemStorage * Session :=
  match route r with
  | Some (middlewares, handler) =>
      let '(res, s') := through middlewares handler s session in
      (res, s', session)
  | None =>
      match r with
      | POST_auth_login body =>
          let '(res, session') := post_auth_login s session body in
          (res, s, session')
      | POST_auth_logout =>
          let '(res, session') := post_auth_logout session in
          (res, s, session')
      | _ => (get_auth_session session, s, session)
      end
  end.

(** The store after the requests of any clients, each request given with
    the session it arrives in. *)
Fixpoint serve_store (s : MemStorage) (requests : list (Session * Request))
  : MemStorage :=
  match requests with
  | [] => s
  | (session, r) :: rest => serve_store (snd (fst (serve s session r))) rest
  end.

(* ------------------------------------------------------------------ *)
(** ** Notions used to state the properties of the lookups, the runs
       and the routes *)

(** [lookup] answers the first of [rows] whose [key] is the one asked
    for, and nothing when no row has it. *)
Definition finds_first_by {A B : Type} (key : A -> B) (rows : list A)
  (lookup : B -> option A) : Prop :=
  forall x,
    match lookup x with
    | Some row =>
        exists before after,
          rows = before ++ row :: after /\ key row = x /\
          forall y, In y before -> key y <> x
    | None => forall y, In y rows -> key y <> x
    end.

(** No two of [rows] have the same [key]. *)
Definition distinct {A B : Type} (key : A -> B) (rows : list A) : Prop :=
  NoDup (map key rows).

(** The keys of a [Map] are distinct. *)
Definition keys_distinct (s : MemStorage) : Prop :=
  forall k, NoDup (JsMap.keys (table k s)).

(** The uniqueness the schema declares and the routes check: usernames
    (up to letter case, as [getUserByUsername] compares them), student
    ids, faculty ids and course codes, and one profile for a user. *)
Definition unique_keys (s : MemStorage) : Prop :=
  distinct (fun user => toLowerCase (User.username user)) (getAllUsers s) /\
  distinct Student.studentId (getAllStudents s) /\
  distinct Student.userId (getAllStudents s) /\
  distinct Faculty.facultyId (getAllFaculty s) /\
  distinct Faculty.userId (getAllFaculty s) /\
  distinct Course.code (getAllCourses s).

(** The course has one of the statuses the dashboard counts. *)
Definition has_listed_status (c : Course.t) : bool :=
  status_is "active" c || status_is "pending" c || status_is "archived" c.

Inductive Method := GET | POST | PUT | DELETE.

Definition method (r : Request) : Method :=
  match r with
  | GET_auth_session | GET_users | GET_user _ | GET_students | GET_student _
  | GET_faculty_members | GET_faculty _ | GET_courses | GET_course _
  | GET_attendance_by_enrollment _ | GET_grades_by_enrollment _
  | GET_events | GET_events_upcoming _ | GET_dashboard_stats => GET
  | POST_auth_login _ | POST_auth_logout | POST_users _ | POST_students _
  | POST_faculty _ | POST_courses _ | POST_course_assignments _
  | POST_enrollments _ | POST_attendance _ | POST_grades _
  | POST_events _ => POST
  | PUT_user _ _ | PUT_student _ _ | PUT_faculty _ _ | PUT_course _ _
  | PUT_enrollment _ _ | PUT_attendance _ _ | PUT_grade _ _
  | PUT_event _ _ => PUT
  | DELETE_user _ | DELETE_student _ | DELETE_faculty _ | DELETE_course _
  | DELETE_course_assignment _ | DELETE_enrollment _ | DELETE_attendance _
  | DELETE_grade _ | DELETE_event _ => DELETE
  end.

(** The table the handler of a route calls a mutating method of. *)
Definition written (r : Request) : option kind :=
  match r with
  | POST_users _ | PUT_user _ _ | DELETE_user _ => Some KUser
  | POST_students _ | PUT_student _ _ | DELETE_student _ => Some KStudent
  | POST_faculty _ | PUT_faculty _ _ | DELETE_faculty _ => Some KFaculty
  | POST_courses _ | PUT_course _ _ | DELETE_course _ => Some KCourse
  | POST_course_assignments _ | DELETE_course_assignment _ =>
      Some KCourseAssignment
  | POST_enrollments _ | PUT_enrollment _ _ | DELETE_enrollment _ =>
      Some KEnrollment
  | POST_attendance _ | PUT_attendance _ _ | DELETE_attendance _ =>
      Some KAttendance
  | POST_grades _ | PUT_grade _ _ | DELETE_grade _ => Some KGrade
  | POST_events _ | PUT_event _ _ | DELETE_event _ => Some KEvent
  | _ => None
  end.

(** The store a request leaves. *)
Definition store_after (s : MemStorage) (session : Session) (r : Request)
  : MemStorage := snd (fst (serve s session r)).

(** Some middleware of the chain answers instead of calling [next()]. *)
Definition rejected (middlewares : list Middleware) (session : Session)
  : bool :=
  existsb (fun m => match m session with Some _ => true | None => false end)
    middlewares.



(** Rows under their own ids, and unique keys. *)
Definition well_keyed (s : MemStorage) : Prop :=
  keys_distinct s /\ id_is_key s /\ unique_keys s.

(** Every reference of a row names a stored row. *)
Definition references_resolve (s : MemStorage) : Prop :=
  (forall r, In r (getAllStudents s) -> getUser s (Student.userId r) <> None)
  /\
  (forall r, In r (getAllFaculty s) -> getUser s (Faculty.userId r) <> None)
  /\
  (forall r,
      In r (getAllCourseAssignments s) ->
      getCourse s (CourseAssignment.courseId r) <> None /\
      getFaculty s (CourseAssignment.facultyId r) <> None) /\
  (forall r,
      In r (getAllEnrollments s) ->
      getStudent s (Enrollment.studentId r) <> None /\
      getCourseAssignment s (Enrollment.courseAssignmentId r) <> None) /\
  (forall r,
      In r (getAllAttendance s) ->
      getEnrollment s (Attendance.enrollmentId r) <> None) /\
  (forall r,
      In r (getAllGrades s) ->
      getEnrollment s (Grade.enrollmentId r) <> None).

(** The enrollments of a student in a course assignment that have the
    status "enrolled". *)
Definition enrolled_rows (s : MemStorage) (studentId courseAssignmentId : Z)
  : list Enrollment.t :=
  filter (enrolled_in courseAssignmentId) (getEnrollmentsByStudent s studentId).

(** No student is enrolled twice in a course assignment. *)
Definition enrolled_once (s : MemStorage) : Prop :=
  forall studentId courseAssignmentId,
    len (enrolled_rows s studentId courseAssignmentId) <= 1.

(* ------------------------------------------------------------------ *)
(** ** The sample data of the constructor ([initializeData])

    The constructor ends with [this.initializeData()], which fills the
    tables through the synchronous twins of the create methods.  Two of
    its inputs are not in the text of the program: the clock, and the
    time zone in which [setDate] and the [Date] constructor count days;
    they are gathered in [SeedClock.t].  A date given as
    [new Date("YYYY-MM-DD")] is midnight UTC of that day, in
    milliseconds. *)

Module SeedClock.
Record t := mk {
  (** [new Date()] *)
  today : Z;
  (** the time value [d.setDate(d.getDate() - 1)] gives a date [d] *)
  day_before : Z -> Z;
  (** [new Date(currentDate.getFullYear(), currentDate.getMonth(), day,
      hours, minutes)] *)
  this_month : Z -> Z -> Z -> Z }.
End SeedClock.

(** [create<Entity>Sync(data)]: the body of [create<Entity>], not
    [async]. *)
Definition createUserSync := create KUser.
Definition createStudentSync := create KStudent.
Definition createFacultySync := create KFaculty.
Definition createCourseSync := create KCourse.
Definition createCourseAssignmentSync := create KCourseAssignment.
Definition createEnrollmentSync := create KEnrollment.
Definition createAttendanceSync := create KAttendance.
Definition createGradeSync := create KGrade.
Definition createEventSync := create KEvent.

(** Each create answers the row and the next store; the store is
    threaded through under the one name [s], and [today] is the [Date]
    object that every [setDate] moves one day back. *)
Definition initializeData (clock : SeedClock.t) (s : MemStorage)
  : MemStorage :=
  let '(adminUser, s) :=
    createUserSync s
      (InsertUser.mk "admin" "admin123" "admin@college.edu" "admin"
         "John Admin"
         (Some "https://images.unsplash.com/photo-1535713875002-d1d0cf377fde?ixlib=rb-4.0.3&ixid=MnwxMjA3fDB8MHxwaG90by1wYWdlfHx8fGVufDB8fHx8&auto=format&fit=crop&w=100&h=100")) in
  let '(faculty1, s) :=
    createUserSync s
      (InsertUser.mk "professor.smith" "faculty123" "smith@college.edu"
         "faculty" "Professor Smith"
         (Some "https://images.unsplash.com/photo-1506794778202-cad84cf45f1d?ixlib=rb-4.0.3&ixid=MnwxMjA3fDB8MHxwaG90by1wYWdlfHx8fGVufDB8fHx8&auto=format&fit=crop&w=100&h=100")) in
  let '(faculty2, s) :=
    createUserSync s
      (InsertUser.mk "professor.johnson" "faculty123" "johnson@college.edu"
         "faculty" "Professor Johnson"
         (Some "https://images.unsplash.com/photo-1573497019940-1c28c88b4f3e?ixlib=rb-4.0.3&ixid=MnwxMjA3fDB8MHxwaG90by1wYWdlfHx8fGVufDB8fHx8&auto=format&fit=crop&w=100&h=100")) in
  let '(student1, s) :=
    createUserSync s
      (InsertUser.mk "emma.wilson" "student123" "emma.wilson@example.com"
         "student" "Emma Wilson"
         (Some "https://images.unsplash.com/photo-1494790108377-be9c29b29330?ixlib=rb-4.0.3&ixid=MnwxMjA3fDB8MHxwaG90by1wYWdlfHx8fGVufDB8fHx8&auto=format&fit=crop&w=100&h=100")) in
  let '(student2, s) :=
    createUserSync s
      (InsertUser.mk "james.rodriguez" "student123" "james.r@example.com"
         "student" "James Rodriguez"
         (Some "https://images.unsplash.com/photo-1507003211169-0a1dd7228f2d?ixlib=rb-4.0.3&ixid=MnwxMjA3fDB8MHxwaG90by1wYWdlfHx8fGVufDB8fHx8&auto=format&fit=crop&w=100&h=100")) in
  let '(student3, s) :=
    createUserSync s
      (InsertUser.mk "sophia.chen" "student123" "sophia.c@example.com"
         "student" "Sophia Chen"
         (Some "https://images.unsplash.com/photo-1531123897727-8f129e1688ce?ixlib=rb-4.0.3&ixid=MnwxMjA3fDB8MHxwaG90by1wYWdlfHx8fGVufDB8fHx8&auto=format&fit=crop&w=100&h=100")) in
  let '(student4, s) :=
    createUserSync s
      (InsertUser.mk "michael.johnson" "student123" "michael.j@example.com"
         "student" "Michael Johnson"
         (Some "https://images.unsplash.com/photo-1500648767791-00dcc994a43e?ixlib=rb-4.0.3&ixid=MnwxMjA3fDB8MHxwaG90by1wYWdlfHx8fGVufDB8fHx8&auto=format&fit=crop&w=100&h=100")) in
  let '(facultyProfile1, s) :=
    createFacultySync s
      (InsertFaculty.mk (User.id faculty1) "FAC1001" "Computer Science"
         "Professor" (Some 1534291200000) (Some "active")) in
  let '(facultyProfile2, s) :=
    createFacultySync s
      (InsertFaculty.mk (User.id faculty2) "FAC1002"
         "Business Administration" "Associate Professor"
         (Some 1452384000000) (Some "active")) in
  let '(studentProfile1, s) :=
    createStudentSync s
      (InsertStudent.mk (User.id student1) "STU1001" "Computer Science" 3
         (Some "active") (Some 1598918400000)) in
  let '(studentProfile2, s) :=
    createStudentSync s
      (InsertStudent.mk (User.id student2) "STU1002"
         "Business Administration" 2 (Some "active") (Some 1630454400000)) in
  let '(studentProfile3, s) :=
    createStudentSync s
      (InsertStudent.mk (User.id student3) "STU1003"
         "Electrical Engineering" 4 (Some "on leave") (Some 1567296000000)) in
  let '(studentProfile4, s) :=
    createStudentSync s
      (InsertStudent.mk (User.id student4) "STU1004" "Biology" 1
         (Some "inactive") (Some 1661990400000)) in
  let '(course1, s) :=
    createCourseSync s
      (InsertCourse.mk "CS101" "Introduction to Computer Science"
         (Some "Fundamental concepts of computer science and programming") 3
         "Computer Science" (Some "active")) in
  let '(course2, s) :=
    createCourseSync s
      (InsertCourse.mk "BA200" "Business Ethics"
         (Some "Ethical principles and moral issues in business management")
         3 "Business Administration" (Some "active")) in
  let '(course3, s) :=
    createCourseSync s
      (InsertCourse.mk "PSY101" "Psychology 101"
         (Some "Introduction to the principles of psychology") 3
         "Psychology" (Some "active")) in
  let '(course4, s) :=
    createCourseSync s
      (InsertCourse.mk "EE201" "Circuit Analysis"
         (Some "Basic principles of electrical circuit analysis") 4
         "Electrical Engineering" (Some "pending")) in
  let '(course5, s) :=
    createCourseSync s
      (InsertCourse.mk "BIO110" "Introduction to Biology"
         (Some "Fundamental principles of biology") 4 "Biology"
         (Some "active")) in
  let '(assignment1, s) :=
    createCourseAssignmentSync s
      (InsertCourseAssignment.mk (Course.id course1)
         (Faculty.id facultyProfile1) "Fall" 2023) in
  let '(assignment2, s) :=
    createCourseAssignmentSync s
      (InsertCourseAssignment.mk (Course.id course2)
         (Faculty.id facultyProfile2) "Fall" 2023) in
  let '(assignment3, s) :=
    createCourseAssignmentSync s
      (InsertCourseAssignment.mk (Course.id course3)
         (Faculty.id facultyProfile1) "Fall" 2023) in
  let '(assignment4, s) :=
    createCourseAssignmentSync s
      (InsertCourseAssignment.mk (Course.id course5)
         (Faculty.id facultyProfile2) "Fall" 2023) in
  let '(enrollment1, s) :=
    createEnrollmentSync s
      (InsertEnrollment.mk (Student.id studentProfile1)
         (CourseAssignment.id assignment1) (Some 1692057600000)
         (Some "enrolled")) in
  let '(enrollment2, s) :=
    createEnrollmentSync s
      (InsertEnrollment.mk (Student.id studentProfile1)
         (CourseAssignment.id assignment2) (Some 1692057600000)
         (Some "enrolled")) in
  let '(enrollment3, s) :=
    createEnrollmentSync s
      (InsertEnrollment.mk (Student.id studentProfile2)
         (CourseAssignment.id assignment2) (Some 1691625600000)
         (Some "enrolled")) in
  let '(enrollment4, s) :=
    createEnrollmentSync s
      (InsertEnrollment.mk (Student.id studentProfile3)
         (CourseAssignment.id assignment1) (Some 1691798400000)
         (Some "enrolled")) in
  let '(enrollment5, s) :=
    createEnrollmentSync s
      (InsertEnrollment.mk (Student.id studentProfile3)
         (CourseAssignment.id assignment3) (Some 1691798400000)
         (Some "enrolled")) in
  let '(enrollment6, s) :=
    createEnrollmentSync s
      (InsertEnrollment.mk (Student.id studentProfile4)
         (CourseAssignment.id assignment4) (Some 1691193600000)
         (Some "enrolled")) in
  let today := SeedClock.today clock in
  let today := SeedClock.day_before clock today in
  let '(_, s) :=
    createAttendanceSync s
      (InsertAttendance.mk (Enrollment.id enrollment1) (Some today)
         "present" (Some "")) in
  let today := SeedClock.day_before clock today in
  let '(_, s) :=
    createAttendanceSync s
      (InsertAttendance.mk (Enrollment.id enrollment2) (Some today)
         "present" (Some "")) in
  let today := SeedClock.day_before clock today in
  let '(_, s) :=
    createAttendanceSync s
      (InsertAttendance.mk (Enrollment.id enrollment3) (Some today) "late"
         (Some "Arrived 10 minutes late")) in
  let today := SeedClock.day_before clock today in
  let '(_, s) :=
    createAttendanceSync s
      (InsertAttendance.mk (Enrollment.id enrollment4) (Some today) "absent"
         (Some "")) in
  let today := SeedClock.day_before clock today in
  let '(_, s) :=
    createAttendanceSync s
      (InsertAttendance.mk (Enrollment.id enrollment5) (Some today)
         "excused" (Some "Doctor's appointment")) in
  let '(_, s) :=
    createGradeSync s
      (InsertGrade.mk (Enrollment.id enrollment1) "Midterm Exam" 85 100 30
         (Some 1697328000000)) in
  let '(_, s) :=
    createGradeSync s
      (InsertGrade.mk (Enrollment.id enrollment1) "Assignment 1" 92 100 15
         (Some 1695168000000)) in
  let '(_, s) :=
    createGradeSync s
      (InsertGrade.mk (Enrollment.id enrollment2) "Midterm Exam" 78 100 30
         (Some 1697500800000)) in
  let '(_, s) :=
    createGradeSync s
      (InsertGrade.mk (Enrollment.id enrollment3) "Midterm Exam" 88 100 30
         (Some 1697500800000)) in
  let '(_, s) :=
    createEventSync s
      (InsertEvent.mk "Faculty Meeting"
         (Some "Discussion on curriculum updates for the upcoming semester.")
         (SeedClock.this_month clock 15 9 0)
         (SeedClock.this_month clock 15 11 0)
         (Some "Admin Building, Room 302") "administrative") in
  let '(_, s) :=
    createEventSync s
      (InsertEvent.mk "Science Exhibition"
         (Some "Annual science exhibition featuring student projects and innovations.")
         (SeedClock.this_month clock 18 10 0)
         (SeedClock.this_month clock 18 16 0)
         (Some "Science Complex, Main Hall") "academic") in
  let '(_, s) :=
    createEventSync s
      (InsertEvent.mk "Enrollment Deadline"
         (Some "Last day for course enrollment and schedule changes.")
         (SeedClock.this_month clock 22 0 0)
         (SeedClock.this_month clock 22 23 59) (Some "Online")
         "administrative") in
  s.

(** [new MemStorage()] *)
Definition MemStorage_constructor (clock : SeedClock.t) : MemStorage :=
  Eval vm_compute in initializeData clock new_MemStorage.

(* ------------------------------------------------------------------ *)
(** ** A sample server used in the examples of the routes *)

(** A clock in UTC, read at midnight of 1 November 2023. *)
Definition utc_clock : SeedClock.t :=
  SeedClock.mk 1698796800000 (fun d => d - 86400000)
    (fun day hours minutes =>
       1698796800000 + (day - 1) * 86400000 + hours * 3600000
       + minutes * 60000).

(** The store of a server started at that time. *)
Definition sample_server : MemStorage :=
  Eval vm_compute in MemStorage_constructor utc_clock.

(** The sessions the logins of three of the sample accounts open. *)
Definition admin_session : SessionUser.t :=
  SessionUser.mk 1 "admin" "admin" "John Admin".

Definition faculty_session : SessionUser.t :=
  SessionUser.mk 2 "professor.smith" "faculty" "Professor Smith".

Definition student_session : SessionUser.t :=
  SessionUser.mk 4 "emma.wilson" "student" "Emma Wilson".

Definition new_user : InsertUser.t :=
  InsertUser.mk "Grace.Hopper" "cobol1959" "grace@college.edu" "faculty"
    "Grace Hopper" None.

(** A user posted with the empty string for a username, which the insert
    schema accepts. *)
Definition nameless_user : InsertUser.t :=
  InsertUser.mk "" "secret" "nobody@college.edu" "student" "Nobody" None.

Definition new_enrollment : InsertEnrollment.t :=
  InsertEnrollment.mk 2 1 None (Some "enrolled").

(** Bodies of PUT requests: a new username; the empty username; a new
    grade; a profile moved to user 99. *)
Definition rename_body (username : string) : PartialUser.t :=
  PartialUser.mk None (Some username) None None None None None.

Definition regrade_body : PartialGrade.t :=
  PartialGrade.mk None None None (Some 90) None None None.

Definition move_profile_body (userId : Z) : PartialStudent.t :=
  PartialStudent.mk None (Some userId) None None None None None.

(** Requests of three clients: the admin posts a user, posts it again
    (refused), renames it and enrolls a student; the professor changes a
    grade; the student tries to delete a user (refused). *)
Definition sample_requests : list (Session * Request) :=
  [ (Some admin_session, POST_users (Some new_user));
    (Some admin_session, POST_users (Some new_user));
    (Some admin_session, PUT_user (Some 8) (rename_body "grace"));
    (Some admin_session, POST_enrollments (Some new_enrollment));
    (Some faculty_session, PUT_grade (Some 1) regrade_body);
    (Some student_session, DELETE_user (Some 2));
    (None, GET_courses) ].

(** The same without the PUT requests. *)
Definition sample_posts : list (Session * Request) :=
  [ (Some admin_session, POST_users (Some new_user));
    (Some admin_session, POST_users (Some new_user));
    (Some admin_session, POST_enrollments (Some new_enrollment));
    (None, GET_courses) ].

(** The sample server after a user with the empty username was posted. *)
Definition nameless_server : MemStorage :=
  Eval vm_compute in
    store_after sample_server (Some admin_session)
      (POST_users (Some nameless_user)).

(** The sample server after the user of the first student was deleted. *)
Definition orphaned_server : MemStorage :=
  Eval vm_compute in
    store_after sample_server (Some admin_session) (DELETE_user (Some 4)).

(* ================================================================== *)
(** * Properties *)

(** ** Facts about [JsMap] *)

Section JsMapFacts.
Variable V : Type.
Implicit Types (m : JsMap.t V) (k : Z) (v : V).

Lemma get_replace_same k v m :
  JsMap.has k m = true -> JsMap.get k (JsMap.replace k v m) = Some v.
Proof.
  unfold JsMap.has.
  induction m as [| [k' v'] rest IH]; simpl; [discriminate|].
  destruct (k' =? k) eqn:E; simpl.
  - now rewrite Z.eqb_refl.
  - now rewrite E.
Qed.

Lemma get_replace_other k k' v m :
  k' <> k -> JsMap.get k' (JsMap.replace k v m) = JsMap.get k' m.
Proof.
  intros Hne.
  induction m as [| [k0 v0] rest IH]; simpl; [reflexivity|].
  destruct (k0 =? k) eqn:E; simpl.
  - apply Z.eqb_eq in E. subst k0.
    now destruct (k =? k') eqn:E'; [apply Z.eqb_eq in E'; congruence|].
  - now rewrite IH.
Qed.

Lemma get_app k m1 m2 :
  JsMap.get k (m1 ++ m2) =
  match JsMap.get k m1 with Some v => Some v | None => JsMap.get k m2 end.
Proof.
  induction m1 as [| [k0 v0] rest IH]; simpl; [reflexivity|].
  now destruct (k0 =? k).
Qed.

Lemma get_set_same k v m : JsMap.get k (JsMap.set k v m) = Some v.
Proof.
  unfold JsMap.set.
  destruct (JsMap.has k m) eqn:H.
  - now apply get_replace_same.
  - rewrite get_app. unfold JsMap.has in H.
    destruct (JsMap.get k m); [discriminate|].
    simpl. now rewrite Z.eqb_refl.
Qed.

Lemma get_set_other k k' v m :
  k' <> k -> JsMap.get k' (JsMap.set k v m) = JsMap.get k' m.
Proof.
  intros Hne. unfold JsMap.set.
  destruct (JsMap.has k m).
  - now apply get_replace_other.
  - rewrite get_app. destruct (JsMap.get k' m); [reflexivity|].
    simpl. now destruct (k =? k') eqn:E; [apply Z.eqb_eq in E; congruence|].
Qed.

Lemma get_remove_same k m : JsMap.get k (JsMap.remove k m) = None.
Proof.
  induction m as [| [k0 v0] rest IH]; simpl; [reflexivity|].
  destruct (k0 =? k) eqn:E; simpl; [assumption|].
  now rewrite E.
Qed.

Lemma get_remove_other k k' m :
  k' <> k -> JsMap.get k' (JsMap.remove k m) = JsMap.get k' m.
Proof.
  intros Hne.
  induction m as [| [k0 v0] rest IH]; simpl; [reflexivity|].
  destruct (k0 =? k) eqn:E; simpl.
  - apply Z.eqb_eq in E. subst k0.
    now destruct (k =? k') eqn:E'; [apply Z.eqb_eq in E'; congruence|].
  - now rewrite IH.
Qed.

Lemma get_Some_In k v m : JsMap.get k m = Some v -> In (k, v) m.
Proof.
  induction m as [| [k0 v0] rest IH]; simpl; [discriminate|].
  destruct (k0 =? k) eqn:E.
  - apply Z.eqb_eq in E. intros [= ->]. left. now subst.
  - intros H. right. now apply IH.
Qed.

Lemma get_None_not_key k m :
  JsMap.get k m = None <-> ~ In k (JsMap.keys m).
Proof.
  induction m as [| [k0 v0] rest IH]; simpl.
  - split; [tauto | reflexivity].
  - destruct (k0 =? k) eqn:E.
    + apply Z.eqb_eq in E. split; [discriminate | tauto].
    + apply Z.eqb_neq in E. rewrite IH. tauto.
Qed.

Lemma has_true_key k m : JsMap.has k m = true <-> In k (JsMap.keys m).
Proof.
  unfold JsMap.has.
  destruct (JsMap.get k m) eqn:E.
  - split; [intros _ | reflexivity].
    apply get_Some_In in E. change k with (fst (k, v)). now apply in_map.
  - apply get_None_not_key in E. split; [discriminate | tauto].
Qed.

Lemma remove_absent k m : JsMap.get k m = None -> JsMap.remove k m = m.
Proof.
  induction m as [| [k0 v0] rest IH]; simpl; [reflexivity|].
  destruct (k0 =? k) eqn:E; [discriminate|].
  intros H. simpl. now rewrite IH.
Qed.

Lemma keys_replace k v m :
  JsMap.keys (JsMap.replace k v m) = JsMap.keys m.
Proof.
  induction m as [| [k0 v0] rest IH]; simpl; [reflexivity|].
  destruct (k0 =? k) eqn:E; simpl.
  - apply Z.eqb_eq in E. now subst.
  - now rewrite IH.
Qed.

Lemma keys_set k v m :
  JsMap.keys (JsMap.set k v m) =
  if JsMap.has k m then JsMap.keys m else JsMap.keys m ++ [k].
Proof.
  unfold JsMap.set. destruct (JsMap.has k m).
  - apply keys_replace.
  - unfold JsMap.keys. now rewrite map_app.
Qed.

Lemma values_set_fresh k v m :
  JsMap.has k m = false ->
  JsMap.values (JsMap.set k v m) = JsMap.values m ++ [v].
Proof.
  intros H. unfold JsMap.set. rewrite H.
  unfold JsMap.values. now rewrite map_app.
Qed.

Lemma keys_remove_incl k k' m :
  In k' (JsMap.keys (JsMap.remove k m)) -> In k' (JsMap.keys m).
Proof.
  unfold JsMap.keys, JsMap.remove. rewrite !in_map_iff.
  intros [x [Hx Hin]]. apply filter_In in Hin. exists x. tauto.
Qed.

Lemma In_values_get v m :
  In v (JsMap.values m) -> exists k, In (k, v) m.
Proof.
  unfold JsMap.values. rewrite in_map_iff.
  intros [[k v'] [Hv Hin]]. simpl in Hv. subst. now exists k.
Qed.

Lemma get_In_values k v m :
  JsMap.get k m = Some v -> In v (JsMap.values m).
Proof.
  intros H. apply get_Some_In in H. unfold JsMap.values.
  change v with (snd (k, v)). now apply in_map.
Qed.
End JsMapFacts.

(** ** Facts about the record of tables *)

Lemma kind_eqb_eq a b : kind_eqb a b = true <-> a = b.
Proof. destruct a, b; simpl; split; congruence. Qed.

Lemma kind_eqb_refl a : kind_eqb a a = true.
Proof. now destruct a. Qed.

Lemma kind_eq_dec (a b : kind) : {a = b} + {a <> b}.
Proof. decide equality. Defined.

Lemma table_set_table k m s : table k (set_table k m s) = m.
Proof. destruct s, k; reflexivity. Qed.

Lemma table_set_table_other k k' (m : JsMap.t (Row k)) s :
  k' <> k -> table k' (set_table k m s) = table k' s.
Proof. destruct s, k, k'; simpl; congruence. Qed.

Lemma set_table_same k s : set_table k (table k s) s = s.
Proof. destruct s, k; reflexivity. Qed.

Lemma counter_set_table k k' (m : JsMap.t (Row k)) s :
  counter k' (set_table k m s) = counter k' s.
Proof. destruct s, k, k'; reflexivity. Qed.

Lemma table_set_counter k k' c s :
  table k' (set_counter k c s) = table k' s.
Proof. destruct s as [? ? ? ? ? ? ? ? ? []], k, k'; reflexivity. Qed.

Lemma counter_set_counter k c s : counter k (set_counter k c s) = c.
Proof. destruct s as [? ? ? ? ? ? ? ? ? []], k; reflexivity. Qed.

Lemma counter_set_counter_other k k' c s :
  k' <> k -> counter k' (set_counter k c s) = counter k' s.
Proof. destruct s as [? ? ? ? ? ? ? ? ? []], k, k'; simpl; congruence. Qed.

Lemma js_incr_safe c : c < MAX_SAFE -> js_incr c = c + 1.
Proof.
  intros H. unfold js_incr.
  now destruct (c <? MAX_SAFE) eqn:E; [|apply Z.ltb_ge in E; lia].
Qed.

Lemma js_incr_ge c : c <= js_incr c.
Proof. unfold js_incr. destruct (c <? MAX_SAFE); lia. Qed.

(** ** What one call does to the tables and the counters *)

Lemma create_row k s data :
  fst (create k s data) = with_id k data (counter k s).
Proof. reflexivity. Qed.

Lemma row_id_with_id k data id : row_id k (with_id k data id) = id.
Proof. destruct k; reflexivity. Qed.

Lemma table_create k s data :
  table k (snd (create k s data)) =
  JsMap.set (counter k s) (with_id k data (counter k s)) (table k s).
Proof.
  unfold create. simpl. now rewrite table_set_table, table_set_counter.
Qed.

Lemma table_create_other k k' s data :
  k' <> k -> table k' (snd (create k s data)) = table k' s.
Proof.
  intros H. unfold create. simpl.
  now rewrite table_set_table_other, table_set_counter.
Qed.

Lemma counter_create k s data :
  counter k (snd (create k s data)) = js_incr (counter k s).
Proof.
  unfold create. simpl. now rewrite counter_set_table, counter_set_counter.
Qed.

Lemma counter_create_other k k' s data :
  k' <> k -> counter k' (snd (create k s data)) = counter k' s.
Proof.
  intros H. unfold create. simpl.
  now rewrite counter_set_table, counter_set_counter_other.
Qed.

Lemma table_update k s id data :
  table k (snd (update k s id data)) =
  match JsMap.get id (table k s) with
  | Some row => JsMap.set id (spread k row data) (table k s)
  | None => table k s
  end.
Proof.
  unfold update. destruct (JsMap.get id (table k s)); simpl.
  - apply table_set_table.
  - reflexivity.
Qed.

Lemma table_update_other k k' s id data :
  k' <> k -> table k' (snd (update k s id data)) = table k' s.
Proof.
  intros H. unfold update. destruct (JsMap.get id (table k s)); simpl.
  - now apply table_set_table_other.
  - reflexivity.
Qed.

Lemma counter_update k k' s id data :
  counter k' (snd (update k s id data)) = counter k' s.
Proof.
  unfold update. destruct (JsMap.get id (table k s)); simpl.
  - apply counter_set_table.
  - reflexivity.
Qed.

Lemma table_delete k s id :
  table k (snd (delete k s id)) = JsMap.remove id (table k s).
Proof. unfold delete. simpl. apply table_set_table. Qed.

Lemma table_delete_other k k' s id :
  k' <> k -> table k' (snd (delete k s id)) = table k' s.
Proof. intros H. unfold delete. simpl. now apply table_set_table_other. Qed.

Lemma counter_delete k k' s id :
  counter k' (snd (delete k s id)) = counter k' s.
Proof. unfold delete. simpl. apply counter_set_table. Qed.

(** ** Reading a row after one call *)

Lemma get_create_same k s data :
  get k (snd (create k s data)) (counter k s) =
  Some (with_id k data (counter k s)).
Proof. unfold get. rewrite table_create. apply get_set_same. Qed.

Lemma get_create_other k k' s data id :
  (k' <> k \/ id <> counter k s) ->
  get k' (snd (create k s data)) id = get k' s id.
Proof.
  intros H. unfold get.
  destruct (kind_eq_dec k' k) as [-> | Hk].
  - rewrite table_create. apply get_set_other. tauto.
  - now rewrite table_create_other.
Qed.

Lemma get_update_other k k' s id data id' :
  (k' <> k \/ id' <> id) ->
  get k' (snd (update k s id data)) id' = get k' s id'.
Proof.
  intros H. unfold get.
  destruct (kind_eq_dec k' k) as [-> | Hk].
  - rewrite table_update. destruct (JsMap.get id (table k s)).
    + apply get_set_other. tauto.
    + reflexivity.
  - now rewrite table_update_other.
Qed.

Lemma get_delete_other k k' s id id' :
  (k' <> k \/ id' <> id) ->
  get k' (snd (delete k s id)) id' = get k' s id'.
Proof.
  intros H. unfold get.
  destruct (kind_eq_dec k' k) as [-> | Hk].
  - rewrite table_delete. apply get_remove_other. tauto.
  - now rewrite table_delete_other.
Qed.

(** ** The object view is faithful, and spread is property-wise *)

Ltac destruct_options :=
  repeat match goal with
         | o : option _ |- _ => destruct o
         end.

(** Compare [name] with every property name in the goal. *)
Ltac split_names name :=
  repeat match goal with
         | |- context [String.eqb ?n name] =>
             is_var name;
             destruct (String.eqb_spec n name) as [<- | ?]
         end.

Lemma entries_inj k (r r' : Row k) : entries k r = entries k r' -> r = r'.
Proof.
  destruct k; destruct r, r'; cbn -[String.eqb];
    destruct_options; cbn -[String.eqb]; intros H; inversion H; reflexivity.
Qed.

Lemma obj_get_app name (a b : Obj) :
  obj_get name (a ++ b) =
  match obj_get name a with Some v => Some v | None => obj_get name b end.
Proof.
  induction a as [| [n v] a IH]; simpl; [reflexivity|].
  now destruct (String.eqb n name).
Qed.

Lemma obj_get_prop name n v :
  obj_get name (prop n v) = if String.eqb n name then Some v else None.
Proof. reflexivity. Qed.

Lemma obj_get_prop_opt name n v :
  obj_get name (prop_opt n v) = if String.eqb n name then v else None.
Proof. destruct v; simpl; [reflexivity | now destruct (String.eqb n name)]. Qed.

Ltac destruct_matched_options :=
  repeat (match goal with
          | |- context [match ?o with _ => _ end] => is_var o; destruct o
          end; cbn).

Lemma spread_entries k (row : Row k) (data : PartialRow k) name :
  obj_get name (entries k (spread k row data)) =
  match obj_get name (supplied k data) with
  | Some v => Some v
  | None => obj_get name (entries k row)
  end.
Proof.
  destruct k; destruct row, data;
    cbn [entries supplied spread user_spread student_spread faculty_spread
           course_spread courseAssignment_spread enrollment_spread
           attendance_spread grade_spread event_spread];
    rewrite !obj_get_app, ?obj_get_prop, ?obj_get_prop_opt;
    split_names name; unfold option_map, pick, pick_set, nullable; cbn;
    destruct_matched_options; reflexivity.
Qed.

(* ------------------------------------------------------------------ *)
(** ** Update: merge semantics and frame *)

(** C5.  [update(id, partial)], for each of the nine tables.  When no row
    is stored under [id] the answer is [undefined] and the store is the
    same.  When a row is, the answer is the merged row, which is what is
    now stored under [id]; read property by property, the merged row has
    the partial's value for each property the partial supplies and the
    old row's value for every other one; every other row of every table,
    the order of the rows and all counters are as before. *)
Theorem update_merges_and_frames k s id (data : PartialRow k) :
  match get k s id with
  | None => update k s id data = (None, s)
  | Some row =>
      let s' := snd (update k s id data) in
      fst (update k s id data) = Some (spread k row data) /\
      get k s' id = Some (spread k row data) /\
      (forall name,
          obj_get name (entries k (spread k row data)) =
          match obj_get name (supplied k data) with
          | Some v => Some v
          | None => obj_get name (entries k row)
          end) /\
      (forall k' id', k' <> k \/ id' <> id -> get k' s' id' = get k' s id') /\
      (forall k', k' <> k -> table k' s' = table k' s) /\
      JsMap.keys (table k s') = JsMap.keys (table k s) /\
      (forall k', counter k' s' = counter k' s)
  end.
Proof.
  destruct (get k s id) as [row |] eqn:Hget.
  - assert (Hrow : JsMap.get id (table k s) = Some row) by exact Hget.
    cbv zeta. repeat split.
    + unfold update. now rewrite Hrow.
    + unfold get. rewrite table_update, Hrow. apply get_set_same.
    + intros name. apply spread_entries.
    + intros k' id' H. now apply get_update_other.
    + intros k' H. now apply table_update_other.
    + rewrite table_update, Hrow, keys_set.
      unfold JsMap.has. now rewrite Hrow.
    + intros k'. apply counter_update.
  - unfold update. unfold get in Hget. now rewrite Hget.
Qed.

(* ------------------------------------------------------------------ *)
(** ** Delete *)

(** C8.  [delete(id)], for each of the nine tables: the answer is [true]
    exactly when a row was stored under [id]; afterwards none is; every
    other row of every table and all counters are as before; a second
    delete of the same [id] answers [false]; and when no row was stored
    under [id] the store is unchanged. *)
Theorem delete_reports_existence k s id :
  let existed := fst (delete k s id) in
  let s' := snd (delete k s id) in
  (existed = true <-> exists row, get k s id = Some row) /\
  (existed = false <-> get k s id = None) /\
  get k s' id = None /\
  (forall k' id', k' <> k \/ id' <> id -> get k' s' id' = get k' s id') /\
  (forall k', counter k' s' = counter k' s) /\
  fst (delete k s' id) = false /\
  (existed = false -> s' = s).
Proof.
  cbv zeta.
  assert (Hafter : get k (snd (delete k s id)) id = None).
  { unfold get. rewrite table_delete. apply get_remove_same. }
  assert (Hfst : forall s0, fst (delete k s0 id) = JsMap.has id (table k s0))
    by reflexivity.
  rewrite !Hfst. unfold JsMap.has. fold (get k s id).
  fold (get k (snd (delete k s id)) id). rewrite Hafter.
  repeat split.
  - destruct (get k s id) as [row |]; [now exists row | discriminate].
  - intros [row ->]. reflexivity.
  - destruct (get k s id); [discriminate | reflexivity].
  - intros ->. reflexivity.
  - intros k' id' H. now apply get_delete_other.
  - intros k'. apply counter_delete.
  - destruct (get k s id) eqn:Hget; [discriminate|]. intros _.
    unfold delete. simpl. rewrite (remove_absent _ _ Hget).
    apply set_table_same.
Qed.

(* ------------------------------------------------------------------ *)
(** ** Rows and their keys *)

Lemma create_preserves_id_is_key k s data :
  id_is_key s -> id_is_key (snd (create k s data)).
Proof.
  intros Hinv k' key row.
  destruct (kind_eq_dec k' k) as [-> | Hk].
  - destruct (Z.eq_dec key (counter k s)) as [-> | Hne].
    + rewrite get_create_same. intros [= <-]. apply row_id_with_id.
    + rewrite get_create_other by tauto. apply Hinv.
  - rewrite get_create_other by tauto. apply Hinv.
Qed.

Lemma delete_preserves_id_is_key k s id :
  id_is_key s -> id_is_key (snd (delete k s id)).
Proof.
  intros Hinv k' key row.
  destruct (kind_eq_dec k' k) as [-> | Hk].
  - destruct (Z.eq_dec key id) as [-> | Hne].
    + unfold get. rewrite table_delete, get_remove_same. discriminate.
    + rewrite get_delete_other by tauto. apply Hinv.
  - rewrite get_delete_other by tauto. apply Hinv.
Qed.

Lemma row_id_spread k (row : Row k) (data : PartialRow k) :
  row_id k (spread k row data) = pick (row_id k row) (partial_id k data).
Proof. destruct k; reflexivity. Qed.

(** An update keeps rows under their ids as long as the partial does not
    carry a different [id]. *)
Lemma update_preserves_id_is_key k s id (data : PartialRow k) :
  partial_id k data = None \/ partial_id k data = Some id ->
  id_is_key s -> id_is_key (snd (update k s id data)).
Proof.
  intros Hid Hinv k' key row.
  destruct (kind_eq_dec k' k) as [-> | Hk].
  - destruct (Z.eq_dec key id) as [-> | Hne].
    + unfold get. rewrite table_update.
      destruct (JsMap.get id (table k s)) as [old |] eqn:Hold.
      * rewrite get_set_same. intros [= <-]. rewrite row_id_spread.
        destruct Hid as [-> | ->]; simpl; [|reflexivity].
        now apply Hinv.
      * rewrite Hold. discriminate.
    + rewrite get_update_other by tauto. apply Hinv.
  - rewrite get_update_other by tauto. apply Hinv.
Qed.

Lemma new_MemStorage_id_is_key : id_is_key new_MemStorage.
Proof. intros k key row. destruct k; discriminate. Qed.

(** The invariant does not survive every update: one user is created in
    the empty store, under key 1 with [id] 1; [updateUser(1, { id: 2 })]
    then leaves, under key 1, a row whose [id] is 2. *)
Lemma update_with_id_breaks_id_is_key :
  let s1 := snd (createUser new_MemStorage sample_user) in
  let s2 := snd (updateUser s1 1 partial_with_id_2) in
  id_is_key s1 /\
  option_map User.id (getUser s1 1) = Some 1 /\
  option_map User.id (getUser s2 1) = Some 2 /\
  getUser s2 2 = None /\
  ~ id_is_key s2.
Proof.
  cbv zeta. split; [|split; [|split; [|split]]].
  - apply (create_preserves_id_is_key KUser), new_MemStorage_id_is_key.
  - reflexivity.
  - reflexivity.
  - reflexivity.
  - intros H.
    specialize (H KUser 1).
    cbv in H. specialize (H _ eq_refl). discriminate.
Qed.

(* ------------------------------------------------------------------ *)
(** ** Identity assignment along a run *)

Lemma fst_run_cons s c rest :
  fst (run s (c :: rest)) = fst (run (fst (perform s c)) rest).
Proof.
  simpl. destruct (perform s c) as [s1 a]. simpl.
  now destruct (run s1 rest).
Qed.

Lemma snd_run_cons s c rest :
  snd (run s (c :: rest)) =
  match snd (perform s c) with
  | Some a => a :: snd (run (fst (perform s c)) rest)
  | None => snd (run (fst (perform s c)) rest)
  end.
Proof.
  simpl. destruct (perform s c) as [s1 a]. simpl.
  now destruct (run s1 rest).
Qed.

Lemma fst_run_app s before after :
  fst (run s (before ++ after)) = fst (run (fst (run s before)) after).
Proof.
  revert s. induction before as [| c rest IH]; intros s; [reflexivity|].
  rewrite <- app_comm_cons, !fst_run_cons. apply IH.
Qed.

Lemma fst_perform s c :
  fst (perform s c) =
  match c with
  | Create k data => snd (create k s data)
  | Update k id data => snd (update k s id data)
  | Delete k id => snd (delete k s id)
  end.
Proof. destruct c; reflexivity. Qed.

Lemma snd_perform s c :
  snd (perform s c) =
  match c with
  | Create k _ => Some (k, counter k s)
  | _ => None
  end.
Proof.
  destruct c as [k data | |]; try reflexivity.
  simpl. now rewrite row_id_with_id.
Qed.

Lemma kind_eqb_false a b : kind_eqb a b = false -> a <> b.
Proof. intros E ->. now rewrite kind_eqb_refl in E. Qed.

Lemma counter_perform k s c :
  counter k (fst (perform s c)) =
  if is_create_of k c then js_incr (counter k s) else counter k s.
Proof.
  rewrite fst_perform.
  destruct c as [k' data | k' id data | k' id]; cbn [is_create_of].
  - destruct (kind_eqb k' k) eqn:E.
    + apply kind_eqb_eq in E. subst k'. apply counter_create.
    + apply counter_create_other. apply kind_eqb_false in E. congruence.
  - apply counter_update.
  - apply counter_delete.
Qed.

Lemma assigned_perform k s c :
  assigned_ids k
    (match snd (perform s c) with Some a => [a] | None => [] end) =
  if is_create_of k c then [counter k s] else [].
Proof.
  rewrite snd_perform.
  destruct c as [k' data | k' id data | k' id]; cbn [is_create_of];
    try reflexivity.
  unfold assigned_ids. cbn [filter fst].
  destruct (kind_eqb k' k) eqn:E; [|reflexivity].
  apply kind_eqb_eq in E. now subst k'.
Qed.

Lemma perform_keys_below k s c :
  keys_below_counter k s ->
  (is_create_of k c = true -> counter k s < MAX_SAFE) ->
  keys_below_counter k (fst (perform s c)).
Proof.
  intros Hinv Hsafe key.
  rewrite counter_perform, fst_perform.
  destruct c as [k' data | k' id data | k' id]; cbn [is_create_of] in *.
  - destruct (kind_eqb k' k) eqn:E.
    + apply kind_eqb_eq in E. subst k'.
      rewrite table_create, keys_set, js_incr_safe by auto.
      destruct (JsMap.has (counter k s) (table k s)).
      * intros H. apply Hinv in H. lia.
      * rewrite in_app_iff. simpl. intros [H | [<- | []]]; [|lia].
        apply Hinv in H. lia.
    + apply kind_eqb_false in E.
      rewrite table_create_other by congruence. apply Hinv.
  - destruct (kind_eq_dec k k') as [<- | Hk].
    + rewrite table_update.
      destruct (JsMap.get id (table k s)) eqn:Hget; [|apply Hinv].
      rewrite keys_set. unfold JsMap.has. rewrite Hget. apply Hinv.
    + rewrite table_update_other by assumption. apply Hinv.
  - destruct (kind_eq_dec k k') as [<- | Hk].
    + rewrite table_delete. intros H. apply keys_remove_incl in H.
      now apply Hinv.
    + rewrite table_delete_other by assumption. apply Hinv.
Qed.

Lemma creates_of_cons k c rest :
  creates_of k (c :: rest) =
  (if is_create_of k c then 1 else 0) + creates_of k rest.
Proof.
  unfold creates_of, len. simpl.
  destruct (is_create_of k c); simpl List.length; lia.
Qed.

Lemma creates_of_nonneg k calls : 0 <= creates_of k calls.
Proof. unfold creates_of, len. lia. Qed.

Lemma assigned_ids_cons k a log :
  assigned_ids k (a :: log) = assigned_ids k [a] ++ assigned_ids k log.
Proof.
  unfold assigned_ids. simpl. now destruct (kind_eqb (fst a) k).
Qed.

Lemma run_assigns_consecutive k calls : forall s,
  keys_below_counter k s ->
  counter k s + creates_of k calls <= MAX_SAFE ->
  assigned_ids k (snd (run s calls)) =
    consecutive (counter k s) (Z.to_nat (creates_of k calls)) /\
  counter k (fst (run s calls)) = counter k s + creates_of k calls /\
  keys_below_counter k (fst (run s calls)).
Proof.
  induction calls as [| c rest IH]; intros s Hinv Hsafe.
  - simpl. unfold creates_of, len. simpl. repeat split; [lia | assumption].
  - rewrite creates_of_cons in *.
    pose proof (creates_of_nonneg k rest) as Hnn.
    assert (Hc : is_create_of k c = true -> counter k s < MAX_SAFE).
    { intros E. rewrite E in Hsafe. lia. }
    pose proof (@perform_keys_below k s c Hinv Hc) as Hinv1.
    pose proof (counter_perform k s c) as Hctr.
    pose proof (assigned_perform k s c) as Hlog.
    rewrite fst_run_cons, snd_run_cons.
    destruct (is_create_of k c) eqn:E.
    + rewrite js_incr_safe in Hctr by auto.
      destruct (IH (fst (perform s c)) Hinv1) as (H1 & H2 & H3);
        [rewrite Hctr; lia|].
      rewrite Hctr in *.
      destruct (snd (perform s c)) as [a |]; [|discriminate].
      rewrite assigned_ids_cons, Hlog, H1.
      replace (Z.to_nat (1 + creates_of k rest))
        with (S (Z.to_nat (creates_of k rest))) by lia.
      cbn [consecutive app]. split; [reflexivity | split; [lia | assumption]].
    + destruct (IH (fst (perform s c)) Hinv1) as (H1 & H2 & H3);
        [rewrite Hctr; lia|].
      rewrite Hctr in *.
      assert (Hl : assigned_ids k (snd (run (fst (perform s c)) rest)) =
                   assigned_ids k
                     match snd (perform s c) with
                     | Some a => a :: snd (run (fst (perform s c)) rest)
                     | None => snd (run (fst (perform s c)) rest)
                     end).
      { destruct (snd (perform s c)) as [a |]; [|reflexivity].
        rewrite assigned_ids_cons, Hlog. reflexivity. }
      rewrite <- Hl, H1, Z.add_0_l.
      split; [reflexivity | split; [lia | assumption]].
Qed.

Lemma consecutive_lower c n id : In id (consecutive c n) -> c <= id.
Proof.
  revert c. induction n as [| n IH]; intros c; simpl; [tauto|].
  intros [<- | H]; [lia|]. apply IH in H. lia.
Qed.

Lemma consecutive_sorted c n : StronglySorted Z.lt (consecutive c n).
Proof.
  revert c. induction n as [| n IH]; intros c; simpl; constructor.
  - apply IH.
  - apply Forall_forall. intros id H. apply consecutive_lower in H. lia.
Qed.

Lemma sorted_lt_NoDup l : StronglySorted Z.lt l -> NoDup l.
Proof.
  induction 1 as [| x l Hs IH Hall]; constructor; [|assumption].
  intros Hin. rewrite Forall_forall in Hall. apply Hall in Hin. lia.
Qed.

Lemma consecutive_length c n : List.length (consecutive c n) = n.
Proof. revert c. induction n; intros c; simpl; congruence. Qed.

Lemma creates_of_app k before after :
  creates_of k (before ++ after) = creates_of k before + creates_of k after.
Proof.
  unfold creates_of, len. rewrite filter_app, length_app. lia.
Qed.

(** C4.  Fix a table and run any sequence of create, update and delete
    calls (on any tables) from a store whose keys lie below the table's
    counter, the counter staying within the integers a double counts
    exactly.  The ids the creates of that table assign are as many as the
    creates, consecutive from the counter, hence strictly increasing and
    pairwise distinct, and above the key of every row the store held at
    the start.  No id comes back: cut the run anywhere, and an id assigned
    after the cut is neither the key of a row present at the cut nor an
    id assigned before it, whatever was deleted in between. *)
Theorem ids_strictly_increasing k s calls :
  keys_below_counter k s ->
  counter k s + creates_of k calls <= MAX_SAFE ->
  let ids := assigned_ids k (snd (run s calls)) in
  len ids = creates_of k calls /\
  ids = consecutive (counter k s) (Z.to_nat (creates_of k calls)) /\
  StronglySorted Z.lt ids /\
  NoDup ids /\
  (forall id key,
      In id ids -> In key (JsMap.keys (table k s)) -> key < id) /\
  (forall before after id,
      calls = before ++ after ->
      In id (assigned_ids k (snd (run (fst (run s before)) after))) ->
      ~ In id (JsMap.keys (table k (fst (run s before)))) /\
      ~ In id (assigned_ids k (snd (run s before)))).
Proof.
  intros Hinv Hsafe. cbv zeta.
  destruct (@run_assigns_consecutive k calls s Hinv Hsafe) as (Hids & _ & _).
  pose proof (creates_of_nonneg k calls) as Hnn.
  rewrite Hids. repeat split.
  - unfold len. rewrite consecutive_length. lia.
  - apply consecutive_sorted.
  - apply sorted_lt_NoDup, consecutive_sorted.
  - intros id key Hid Hkey. apply consecutive_lower in Hid.
    apply Hinv in Hkey. lia.
  - subst calls. rewrite creates_of_app in Hsafe.
    pose proof (creates_of_nonneg k before).
    pose proof (creates_of_nonneg k after).
    destruct (@run_assigns_consecutive k before s Hinv) as (_ & Hc & Hkeys);
      [lia|].
    destruct (@run_assigns_consecutive k after _ Hkeys) as (Ha & _ & _);
      [lia|].
    rewrite Ha in H0. apply consecutive_lower in H0.
    intros Hin. apply Hkeys in Hin. lia.
  - subst calls. rewrite creates_of_app in Hsafe.
    pose proof (creates_of_nonneg k before).
    pose proof (creates_of_nonneg k after).
    destruct (@run_assigns_consecutive k before s Hinv) as (Hb & Hc & Hkeys);
      [lia|].
    destruct (@run_assigns_consecutive k after _ Hkeys) as (Ha & _ & _);
      [lia|].
    rewrite Ha in H0. apply consecutive_lower in H0.
    rewrite Hb. intros Hin.
    assert (Hup : forall c n x, In x (consecutive c n) -> x < c + Z.of_nat n).
    { intros c n. revert c. induction n as [| n IH]; intros c x; simpl;
        [tauto|]. intros [<- | Hx]; [lia|]. apply IH in Hx. lia. }
    apply Hup in Hin. lia.
Qed.

Lemma new_MemStorage_keys_below k : keys_below_counter k new_MemStorage.
Proof. intros key. destruct k; intros []. Qed.

Lemma ids_strictly_increasing_witness :
  assigned_ids KUser (snd (run new_MemStorage sample_calls)) = [1; 2; 3] /\
  len (assigned_ids KUser (snd (run new_MemStorage sample_calls))) =
    creates_of KUser sample_calls /\
  StronglySorted Z.lt
    (assigned_ids KUser (snd (run new_MemStorage sample_calls))).
Proof.
  split; [reflexivity|].
  pose proof (@ids_strictly_increasing KUser new_MemStorage sample_calls
                (new_MemStorage_keys_below KUser)) as H.
  assert (Hsafe : counter KUser new_MemStorage + creates_of KUser sample_calls
                  <= MAX_SAFE) by (vm_compute; discriminate).
  destruct (H Hsafe) as (H1 & _ & H3 & _).
  split; assumption.
Defined.

(* ------------------------------------------------------------------ *)
(** ** Rows stay under their ids along a run *)

Lemma perform_preserves_id_is_key s c :
  keeps_id c -> id_is_key s -> id_is_key (fst (perform s c)).
Proof.
  intros Hc Hinv. rewrite fst_perform.
  destruct c as [k data | k id data | k id].
  - now apply create_preserves_id_is_key.
  - now apply update_preserves_id_is_key.
  - now apply delete_preserves_id_is_key.
Qed.

(** C10, as the code has it.  In the store the constructor starts from
    every row is stored under its own [id], and every create, every
    delete and every update whose partial has no [id] property, or whose
    [id] is the key, keeps it so: after any run of such calls, on any
    tables, every row of every table is stored under its own [id]. *)
Theorem id_is_key_preserved s calls :
  id_is_key s -> Forall keeps_id calls ->
  id_is_key new_MemStorage /\ id_is_key (fst (run s calls)).
Proof.
  intros Hinv Hcalls. split; [apply new_MemStorage_id_is_key|].
  revert s Hinv. induction Hcalls as [| c rest Hc _ IH]; intros s Hinv.
  - exact Hinv.
  - rewrite fst_run_cons. apply IH. now apply perform_preserves_id_is_key.
Qed.

Lemma id_is_key_preserved_witness :
  id_is_key (fst (run new_MemStorage sample_calls)).
Proof.
  apply (@id_is_key_preserved new_MemStorage sample_calls).
  - apply new_MemStorage_id_is_key.
  - unfold sample_calls.
    repeat (apply Forall_cons;
            [first [exact I | right; reflexivity | left; reflexivity]|]).
    apply Forall_nil.
Defined.

(* ------------------------------------------------------------------ *)
(** ** The sort, for a comparator that orders by an integer key *)

Section SortFacts.
Variable A : Type.
Variable key : A -> Z.
Variable cmp : A -> A -> Z.
Hypothesis cmp_key : forall a b, cmp a b <= 0 <-> key a <= key b.

Let key_le (a b : A) : Prop := key a <= key b.
Let has_key (c : Z) (a : A) : bool := key a =? c.

Lemma sort_insert_perm x l : Permutation (sort_insert cmp x l) (x :: l).
Proof.
  induction l as [| y rest IH]; simpl; [apply Permutation_refl|].
  destruct (cmp x y <=? 0); [apply Permutation_refl|].
  rewrite IH. apply perm_swap.
Qed.

Lemma js_sort_perm l : Permutation (js_sort cmp l) l.
Proof.
  induction l as [| x rest IH]; simpl; [constructor|].
  rewrite sort_insert_perm. now constructor.
Qed.

Lemma sort_insert_sorted x l :
  StronglySorted key_le l -> StronglySorted key_le (sort_insert cmp x l).
Proof.
  induction 1 as [| y rest Hs IH Hall]; simpl.
  - repeat constructor.
  - destruct (cmp x y <=? 0) eqn:E.
    + apply Z.leb_le, cmp_key in E.
      constructor; [now constructor|].
      constructor; [exact E|].
      revert Hall. apply Forall_impl. unfold key_le. intros; lia.
    + apply Z.leb_gt in E.
      assert (Hyx : key y <= key x).
      { destruct (Z.le_gt_cases (key x) (key y)) as [H | H]; [|lia].
        apply cmp_key in H. lia. }
      constructor; [exact IH|].
      apply (Permutation_Forall (Permutation_sym (sort_insert_perm x rest))).
      now constructor.
Qed.

Lemma js_sort_sorted l : StronglySorted key_le (js_sort cmp l).
Proof.
  induction l as [| x rest IH]; simpl; [constructor|].
  now apply sort_insert_sorted.
Qed.

Lemma filter_sort_insert c x l :
  filter (has_key c) (sort_insert cmp x l) = filter (has_key c) (x :: l).
Proof.
  induction l as [| y rest IH]; [reflexivity|].
  cbn [sort_insert].
  destruct (cmp x y <=? 0) eqn:E; [reflexivity|].
  apply Z.leb_gt in E.
  assert (Hlt : key y < key x).
  { destruct (Z.le_gt_cases (key x) (key y)) as [H | H]; [|lia].
    apply cmp_key in H. lia. }
  cbn [filter] in *. rewrite IH. unfold has_key.
  destruct (key y =? c) eqn:Ey; [|reflexivity].
  apply Z.eqb_eq in Ey.
  now destruct (key x =? c) eqn:Ex; [apply Z.eqb_eq in Ex; lia|].
Qed.

(** Stability: the rows of one key keep their order. *)
Lemma js_sort_stable c l :
  filter (has_key c) (js_sort cmp l) = filter (has_key c) l.
Proof.
  induction l as [| x rest IH]; [reflexivity|].
  cbn [js_sort]. rewrite filter_sort_insert. cbn [filter].
  now rewrite IH.
Qed.


End SortFacts.

(* ------------------------------------------------------------------ *)
(** ** Upcoming events *)

(** C9.  [getUpcomingEvents()], the clock reading [now]: the result holds
    exactly the stored events that start strictly after [now], each as
    often as it is stored, in ascending order of [startDate]; events that
    start at the same time keep their iteration order. *)
Theorem upcoming_events_filtered_and_sorted s now :
  let upcoming := getUpcomingEvents s now in
  let later := filter (fun e => now <? Event.startDate e) (getAllEvents s) in
  (forall e,
      In e upcoming <-> In e (getAllEvents s) /\ now < Event.startDate e) /\
  Permutation upcoming later /\
  StronglySorted (fun a b => Event.startDate a <= Event.startDate b)
    upcoming /\
  (forall t,
      filter (fun e => Event.startDate e =? t) upcoming =
      filter (fun e => Event.startDate e =? t) later).
Proof.
  cbv zeta. unfold getUpcomingEvents, getAllEvents, getAll.
  change (table KEvent s) with (events s).
  set (later := filter (fun e => now <? Event.startDate e)
                  (JsMap.values (events s))).
  set (cmp := fun a b : Event.t => Event.startDate a - Event.startDate b).
  assert (Hcmp : forall a b,
             cmp a b <= 0 <-> Event.startDate a <= Event.startDate b)
    by (intros a b; unfold cmp; lia).
  split; [|split; [|split]].
  - intros e. split.
    + intros H. apply (Permutation_in _ (js_sort_perm cmp later)) in H.
      apply filter_In in H. destruct H as [Hin H].
      split; [assumption | now apply Z.ltb_lt].
    + intros [Hin Hlt].
      apply (Permutation_in _ (Permutation_sym (js_sort_perm cmp later))).
      apply filter_In. split; [assumption | now apply Z.ltb_lt].
  - apply js_sort_perm.
  - apply (js_sort_sorted Event.startDate cmp Hcmp).
  - intros t. apply (js_sort_stable Event.startDate cmp Hcmp).
Qed.

(** On a store whose events start at 5000, 1000, 3000 and 2000, read at
    time 2000: the two later events, the earlier one first. *)
Example upcoming_events_example :
  map Event.title (getUpcomingEvents events_store 2000) = ["soon"; "late"].
Proof. reflexivity. Qed.

(* ------------------------------------------------------------------ *)
(** ** Popular courses *)








(* ------------------------------------------------------------------ *)
(** ** Inserts do not check uniqueness *)

Lemma secondary_key_with_id k (data : InsertRow k) id :
  secondary_key k (with_id k data id) = insert_secondary_key k data.
Proof. destruct k; reflexivity. Qed.

Lemma getAll_create_fresh k s (data : InsertRow k) :
  keys_below_counter k s ->
  getAll k (snd (create k s data)) =
  getAll k s ++ [with_id k data (counter k s)].
Proof.
  intros Hinv. unfold getAll. rewrite table_create.
  apply values_set_fresh.
  destruct (JsMap.has (counter k s) (table k s)) eqn:E; [|reflexivity].
  apply has_true_key, Hinv in E. lia.
Qed.

(** C7.  [createUser], [createStudent], [createFaculty] and
    [createCourse] (the tables with a secondary key: username, studentId,
    facultyId, code): when a row with the payload's secondary key is
    already stored, the call still answers a new row, stored under a new
    id next to the old one, which is untouched; the table then holds two
    rows with that key.  ([create] is a function: it answers a row for
    every payload and has no failing outcome.) *)
Theorem create_accepts_duplicate_key k s (data : InsertRow k) key existing sk :
  insert_secondary_key k data = Some sk ->
  get k s key = Some existing ->
  secondary_key k existing = Some sk ->
  keys_below_counter k s ->
  let row := fst (create k s data) in
  let s' := snd (create k s data) in
  row = with_id k data (counter k s) /\
  row_id k row = counter k s /\
  secondary_key k row = Some sk /\
  key <> counter k s /\
  get k s' key = Some existing /\
  get k s' (counter k s) = Some row /\
  getAll k s' = getAll k s ++ [row].
Proof.
  intros Hsk Hget Hex Hinv. cbv zeta.
  assert (Hne : key <> counter k s).
  { assert (Hin : In key (JsMap.keys (table k s))).
    { apply has_true_key. unfold JsMap.has. unfold get in Hget.
      now rewrite Hget. }
    apply Hinv in Hin. lia. }
  rewrite create_row.
  split; [reflexivity|].
  split; [apply row_id_with_id|].
  split; [now rewrite secondary_key_with_id|].
  split; [exact Hne|].
  split; [rewrite get_create_other by tauto; exact Hget|].
  split; [apply get_create_same|].
  now apply getAll_create_fresh.
Qed.

Lemma create_accepts_duplicate_key_witness :
  let s := snd (createUser new_MemStorage sample_user) in
  map User.username (getAllUsers (snd (createUser s sample_user))) =
    ["Admin"; "Admin"] /\
  map User.id (getAllUsers (snd (createUser s sample_user))) = [1; 2] /\
  getAllUsers (snd (createUser s sample_user)) =
    getAllUsers s ++ [fst (createUser s sample_user)].
Proof.
  cbv zeta. split; [reflexivity | split; [reflexivity|]].
  assert (Hinv : keys_below_counter KUser
                   (snd (createUser new_MemStorage sample_user))).
  { intros key [<- | []]. reflexivity. }
  apply (@create_accepts_duplicate_key KUser
           (snd (createUser new_MemStorage sample_user)) sample_user 1
           (user_with_id sample_user 1) "Admin"
           eq_refl eq_refl eq_refl Hinv).
Defined.

(* ------------------------------------------------------------------ *)
(** ** Lookups by username *)

Lemma find_first_match {A} (f : A -> bool) (l : list A) :
  match find f l with
  | Some x => first_match f l x
  | None => forall y, In y l -> f y = false
  end.
Proof.
  induction l as [| a rest IH]; simpl; [tauto|].
  destruct (f a) eqn:E.
  - exists [], rest. simpl. tauto.
  - destruct (find f rest) as [x |].
    + destruct IH as (before & after & -> & Hx & Hb).
      exists (a :: before), after. simpl. repeat split; [assumption|].
      intros y [<- | Hy]; auto.
    + intros y [<- | Hy]; auto.
Qed.


Lemma In_values_set {V} k (v x : V) m :
  In x (JsMap.values (JsMap.set k v m)) -> x = v \/ In x (JsMap.values m).
Proof.
  unfold JsMap.set. destruct (JsMap.has k m).
  - induction m as [| [k0 v0] rest IH]; simpl; [tauto|].
    destruct (k0 =? k); simpl; intuition.
  - unfold JsMap.values. rewrite map_app, in_app_iff. simpl. intuition.
Qed.



(* ------------------------------------------------------------------ *)
(** ** Student details *)




(** The student has two enrollments, each with one attendance record and
    one grade; the course assignment of the first was deleted.  The
    answer is not [null] and holds the second enrollment only, with its
    records. *)
Example student_details_dangling_example :
  map Enrollment.id (getEnrollmentsByStudent dangling_store 1) = [1; 2] /\
  option_map
    (fun d =>
       map (fun b =>
              (Enrollment.id (EnrollmentDetails.enrollment b),
               map Attendance.id (EnrollmentDetails.attendance b),
               map Grade.id (EnrollmentDetails.grades b)))
         (StudentDetails.enrollments d))
    (getStudentDetails dangling_store 1) = Some [(2, [2], [2])].
Proof. split; reflexivity. Qed.

(* ------------------------------------------------------------------ *)
(** ** Rounding of doubles

    The operations of [SpecFloat] are followed through their definitions
    to bound the error of a quotient and of a product of doubles. *)

Unset Implicit Arguments.

Lemma digits2_pos_bounds p :
  2 ^ (Zpos (digits2_pos p) - 1) <= Zpos p < 2 ^ Zpos (digits2_pos p).
Proof.
  induction p as [p IH | p IH |]; cbn [digits2_pos].
  - rewrite Pos2Z.inj_succ, (Pos2Z.inj_xI p).
    replace (Z.succ (Zpos (digits2_pos p)) - 1)
      with (Z.succ (Zpos (digits2_pos p) - 1)) by lia.
    rewrite !Z.pow_succ_r by lia.
    revert IH. generalize (2 ^ (Zpos (digits2_pos p) - 1)).
    generalize (2 ^ Zpos (digits2_pos p)). intros; lia.
  - rewrite Pos2Z.inj_succ, (Pos2Z.inj_xO p).
    replace (Z.succ (Zpos (digits2_pos p)) - 1)
      with (Z.succ (Zpos (digits2_pos p) - 1)) by lia.
    rewrite !Z.pow_succ_r by lia.
    revert IH. generalize (2 ^ (Zpos (digits2_pos p) - 1)).
    generalize (2 ^ Zpos (digits2_pos p)). intros; lia.
  - simpl. lia.
Qed.

Lemma Zdigits2_unique m d :
  0 < d -> 2 ^ (d - 1) <= m < 2 ^ d -> Zdigits2 m = d.
Proof.
  intros Hd [Hlo Hhi].
  assert (Hm : 0 < m) by (pose proof (Z.pow_pos_nonneg 2 (d - 1)); lia).
  destruct m as [| p |]; try lia.
  cbn [Zdigits2]. pose proof (digits2_pos_bounds p) as [Hl Hh].
  destruct (Z.lt_trichotomy (Zpos (digits2_pos p)) d) as [H | [H | H]];
    [|assumption|].
  - assert (2 ^ Zpos (digits2_pos p) <= 2 ^ (d - 1))
      by (apply Z.pow_le_mono_r; lia). lia.
  - assert (2 ^ d <= 2 ^ (Zpos (digits2_pos p) - 1))
      by (apply Z.pow_le_mono_r; lia). lia.
Qed.


Lemma shr_1_located N D mrs :
  0 < D -> 0 <= shr_m mrs -> located N D mrs ->
  let mrs' := shr_1 mrs in
  0 <= shr_m mrs' /\ shr_m mrs' = shr_m mrs / 2 /\ located N (2 * D) mrs'.
Proof.
  intros HD Hm Hloc. destruct mrs as [m r s]. cbn [shr_m] in *.
  unfold located in *. cbn [shr_m shr_r shr_s] in Hloc.
  destruct m as [| [p | p |] |]; try lia; cbn [shr_1 shr_m shr_r shr_s];
    cbv zeta.
  - split; [lia|]. split; [reflexivity|].
    unfold located. cbn [shr_m shr_r shr_s].
    destruct r, s; cbn [orb]; lia.
  - rewrite (Pos2Z.inj_xI p) in *.
    replace ((2 * Zpos p + 1) / 2) with (Zpos p)
      by (apply Z.div_unique with (r := 1); lia).
    split; [lia|]. split; [reflexivity|].
    unfold located. cbn [shr_m shr_r shr_s].
    destruct r, s; cbn [orb]; lia.
  - rewrite (Pos2Z.inj_xO p) in *.
    replace ((2 * Zpos p) / 2) with (Zpos p)
      by (apply Z.div_unique with (r := 0); lia).
    split; [lia|]. split; [reflexivity|].
    unfold located. cbn [shr_m shr_r shr_s].
    destruct r, s; cbn [orb]; lia.
  - split; [lia|]. split; [reflexivity|].
    unfold located. cbn [shr_m shr_r shr_s].
    destruct r, s; cbn [orb]; lia.
Qed.

Lemma iter_shr_1_located p : forall N D mrs,
  0 < D -> 0 <= shr_m mrs -> located N D mrs ->
  0 <= shr_m (iter_pos shr_1 p mrs) /\
  shr_m (iter_pos shr_1 p mrs) = shr_m mrs / 2 ^ Zpos p /\
  located N (2 ^ Zpos p * D) (iter_pos shr_1 p mrs).
Proof.
  induction p as [p IH | p IH |]; intros N D mrs HD Hm Hloc;
    cbn [iter_pos].
  - destruct (shr_1_located N D mrs HD Hm Hloc) as (H0 & H1 & H2).
    destruct (IH N (2 * D) (shr_1 mrs) ltac:(lia) H0 H2) as (H3 & H4 & H5).
    assert (Hp : 0 < 2 ^ Zpos p) by (apply Z.pow_pos_nonneg; lia).
    destruct (IH N (2 ^ Zpos p * (2 * D)) _ ltac:(nia) H3 H5)
      as (H6 & H7 & H8).
    assert (Hpow : 2 ^ Zpos p~1 = 2 * 2 ^ Zpos p * 2 ^ Zpos p).
    { rewrite (Pos2Z.inj_xI p).
      replace (2 * Zpos p + 1) with (Z.succ (Zpos p + Zpos p)) by lia.
      rewrite Z.pow_succ_r, Z.pow_add_r by lia. ring. }
    split; [exact H6|]. split.
    + rewrite H7, H4, H1, !Z.div_div, Hpow by lia. f_equal. ring.
    + rewrite Hpow.
      replace (2 * 2 ^ Zpos p * 2 ^ Zpos p * D)
        with (2 ^ Zpos p * (2 ^ Zpos p * (2 * D))) by ring.
      exact H8.
  - destruct (IH N D mrs HD Hm Hloc) as (H3 & H4 & H5).
    assert (Hp : 0 < 2 ^ Zpos p) by (apply Z.pow_pos_nonneg; lia).
    destruct (IH N (2 ^ Zpos p * D) _ ltac:(nia) H3 H5) as (H6 & H7 & H8).
    assert (Hpow : 2 ^ Zpos p~0 = 2 ^ Zpos p * 2 ^ Zpos p).
    { rewrite (Pos2Z.inj_xO p).
      replace (2 * Zpos p) with (Zpos p + Zpos p) by lia.
      now rewrite Z.pow_add_r by lia. }
    split; [exact H6|]. split.
    + rewrite H7, H4, !Z.div_div, Hpow by lia. reflexivity.
    + rewrite Hpow.
      replace (2 ^ Zpos p * 2 ^ Zpos p * D)
        with (2 ^ Zpos p * (2 ^ Zpos p * D)) by ring.
      exact H8.
  - destruct (shr_1_located N D mrs HD Hm Hloc) as (H0 & H1 & H2).
    change (2 ^ 1) with 2. tauto.
Qed.

Lemma shr_n_located n N D mrs :
  0 <= n -> 0 < D -> 0 <= shr_m mrs -> located N D mrs ->
  0 <= shr_m (shr_n n mrs) /\
  shr_m (shr_n n mrs) = shr_m mrs / 2 ^ n /\
  located N (2 ^ n * D) (shr_n n mrs).
Proof.
  intros Hn HD Hm Hloc. destruct n as [| p | p]; [| |lia].
  - cbn [shr_n]. change (2 ^ 0) with 1. rewrite Z.div_1_r.
    replace (1 * D) with D by ring. tauto.
  - now apply iter_shr_1_located.
Qed.

Lemma shr_eq mrs e n : 0 <= n -> shr mrs e n = (shr_n n mrs, e + n).
Proof.
  intros Hn. destruct n as [| p | p]; [| reflexivity | lia].
  cbn [shr shr_n]. now rewrite Z.add_0_r.
Qed.

Lemma fexp_normal e : -1074 <= e - 53 -> fexp prec emax e = e - 53.
Proof. unfold fexp, emin, prec, emax. lia. Qed.

Lemma round_nearest_even_located N D mrs :
  0 < D -> located N D mrs ->
  let mr := round_nearest_even (shr_m mrs) (loc_of_shr_record mrs) in
  (mr = shr_m mrs \/ mr = shr_m mrs + 1) /\
  - D <= 2 * (mr * D - N) <= D.
Proof.
  intros HD Hloc. destruct mrs as [m r s]. unfold located in Hloc.
  cbn [shr_m shr_r shr_s] in *. cbv zeta.
  destruct r, s; cbn [loc_of_shr_record round_nearest_even].
  - split; [now right | lia].
  - destruct (Z.even m); (split; [tauto | lia]).
  - split; [now left | lia].
  - split; [now left | lia].
Qed.

Lemma shr_fexp_eq m e l n :
  0 <= n -> 2 ^ (52 + n) <= m < 2 ^ (53 + n) -> -1074 <= e + n ->
  shr_fexp prec emax m e l = (shr_n n (shr_record_of_loc m l), e + n).
Proof.
  intros Hn Hm He. unfold shr_fexp.
  rewrite (Zdigits2_unique m (53 + n)) by
    first [lia | replace (53 + n - 1) with (52 + n) by lia; exact Hm].
  rewrite fexp_normal by lia.
  replace (53 + n + e - 53 - e) with n by lia.
  now apply shr_eq.
Qed.

Lemma shr_m_record_of_loc m l : shr_m (shr_record_of_loc m l) = m.
Proof. now destruct l as [| []]. Qed.

(** The rounding step shared by all operations: a mantissa of [53 + n]
    bits is cut to 53 bits, to nearest; [mr] is the rounded mantissa
    before a possible carry into a 54th bit. *)
Lemma binary_round_aux_correct sx mx ex lx n N D :
  0 < D -> 0 <= n ->
  2 ^ (52 + n) <= mx < 2 ^ (53 + n) ->
  -1074 <= ex + n < 971 ->
  located N D (shr_record_of_loc mx lx) ->
  exists mr m e,
    binary_round_aux prec emax sx mx ex lx = S754_finite sx m e /\
    2 ^ 52 <= mr <= 2 ^ 53 /\
    2 ^ 52 <= Zpos m < 2 ^ 53 /\
    ex + n <= e <= ex + n + 1 /\
    Zpos m * 2 ^ (e - (ex + n)) = mr /\
    - (2 ^ n * D) <= 2 * (mr * (2 ^ n * D) - N) <= 2 ^ n * D.
Proof.
  intros HD Hn Hmx Hex Hloc.
  assert (Hpn : 0 < 2 ^ n) by (apply Z.pow_pos_nonneg; lia).
  assert (Hmx0 : 0 <= mx) by (pose proof (Z.pow_pos_nonneg 2 (52 + n)); lia).
  unfold binary_round_aux.
  rewrite (shr_fexp_eq mx ex lx n) by (assumption || lia).
  set (mrs' := shr_n n (shr_record_of_loc mx lx)).
  destruct (shr_n_located n N D (shr_record_of_loc mx lx) Hn HD)
    as (Hm0 & Hmdiv & Hloc'); [now rewrite shr_m_record_of_loc | assumption|].
  fold mrs' in Hm0, Hmdiv, Hloc'. rewrite shr_m_record_of_loc in Hmdiv.
  assert (Hm' : 2 ^ 52 <= shr_m mrs' < 2 ^ 53).
  { rewrite Hmdiv. split.
    - apply Z.div_le_lower_bound; [lia|].
      rewrite <- Z.pow_add_r by lia. replace (n + 52) with (52 + n) by lia.
      lia.
    - apply Z.div_lt_upper_bound; [lia|].
      rewrite <- Z.pow_add_r by lia. replace (n + 53) with (53 + n) by lia.
      lia. }
  destruct (round_nearest_even_located N (2 ^ n * D) mrs' ltac:(nia) Hloc')
    as (Hmr & Herr).
  set (mr := round_nearest_even (shr_m mrs') (loc_of_shr_record mrs')) in *.
  assert (Hmr' : 2 ^ 52 <= mr <= 2 ^ 53) by lia.
  destruct (Z.eq_dec mr (2 ^ 53)) as [Heq | Hne].
  - (* carry: the rounded mantissa is 2^53 and is shifted once more *)
    rewrite Heq.
    rewrite (shr_fexp_eq (2 ^ 53) (ex + n) loc_Exact 1) by
      (try lia; change (2 ^ (52 + 1)) with (2 ^ 53);
       change (2 ^ (53 + 1)) with (2 ^ 54); lia).
    cbn [shr_record_of_loc shr_n].
    change (shr_m (iter_pos shr_1 1 (Build_shr_record (2 ^ 53) false false)))
      with (2 ^ 52).
    change (2 ^ 52) with (Zpos (2 ^ 52)) at 1.
    cbv beta iota.
    replace (ex + n + 1 <=? emax - prec) with true
      by (symmetry; apply Z.leb_le; unfold emax, prec; lia).
    exists mr, (2 ^ 52)%positive, (ex + n + 1).
    split; [reflexivity|]. split; [lia|].
    split; [change (Zpos (2 ^ 52)) with (2 ^ 52); lia|].
    split; [lia|]. split; [|exact Herr].
    replace (ex + n + 1 - (ex + n)) with 1 by lia. rewrite Heq. reflexivity.
  - assert (Hlt : 2 ^ 52 <= mr < 2 ^ 53) by lia.
    rewrite (shr_fexp_eq mr (ex + n) loc_Exact 0) by
      (try lia; change (52 + 0) with 52; change (53 + 0) with 53; exact Hlt).
    cbn [shr_record_of_loc shr_n shr_m].
    destruct mr as [| pm |] eqn:Epm; try lia.
    rewrite Z.add_0_r.
    replace (ex + n <=? emax - prec) with true
      by (symmetry; apply Z.leb_le; unfold emax, prec; lia).
    exists (Zpos pm), pm, (ex + n).
    split; [reflexivity|]. split; [lia|]. split; [lia|].
    split; [lia|]. split; [|exact Herr].
    replace (ex + n - (ex + n)) with 0 by lia. change (2 ^ 0) with 1. lia.
Qed.

Lemma Pos_iter_xO m k : Zpos (Pos.iter xO m k) = Zpos m * 2 ^ Zpos k.
Proof.
  induction k as [| k IH] using Pos.peano_ind.
  - cbn [Pos.iter]. rewrite (Pos2Z.inj_xO m). change (2 ^ 1) with 2. ring.
  - rewrite Pos.iter_succ, (Pos2Z.inj_xO (Pos.iter xO m k)), IH,
      Pos2Z.inj_succ, Z.pow_succ_r by lia.
    ring.
Qed.

(** An integer below [2^53] is a double, exactly: the mantissa is the
    integer shifted left until it has 53 bits. *)
Lemma num_of_Z_exact z :
  0 < z < 2 ^ 53 ->
  exists m e,
    num_of_Z z = S754_finite false m e /\
    2 ^ 52 <= Zpos m < 2 ^ 53 /\ -52 <= e <= 0 /\
    Zpos m = z * 2 ^ (- e).
Proof.
  intros Hz. destruct z as [| pz |]; try lia.
  unfold num_of_Z. cbn [binary_normalize]. unfold binary_round.
  pose proof (digits2_pos_bounds pz) as Hd.
  set (d := Zpos (digits2_pos pz)) in *.
  assert (Hd53 : 1 <= d <= 53).
  { split; [unfold d; lia|].
    destruct (Z.le_gt_cases d 53) as [H | H]; [assumption|].
    assert (2 ^ 53 <= 2 ^ (d - 1)) by (apply Z.pow_le_mono_r; lia). lia. }
  rewrite Z.add_0_r, fexp_normal by lia.
  assert (Hal : exists mz,
             shl_align pz 0 (d - 53) = (mz, d - 53) /\
             Zpos mz = Zpos pz * 2 ^ (53 - d)).
  { unfold shl_align. rewrite Z.sub_0_r.
    destruct (d - 53) as [| k | k] eqn:Ek; try lia.
    - exists pz. split; [reflexivity|].
      replace (53 - d) with 0 by lia. change (2 ^ 0) with 1. lia.
    - exists (Pos.iter xO pz k). split; [reflexivity|].
      rewrite Pos_iter_xO. f_equal. f_equal. lia. }
  destruct Hal as (mz & -> & Hmz).
  assert (Hmz53 : 2 ^ 52 <= Zpos mz < 2 ^ 53).
  { rewrite Hmz. split.
    - replace 52 with ((d - 1) + (53 - d)) by lia.
      rewrite Z.pow_add_r by lia.
      apply Z.mul_le_mono_nonneg_r; [apply Z.pow_nonneg|]; lia.
    - replace 53 with (d + (53 - d)) at 2 by lia.
      rewrite Z.pow_add_r by lia.
      apply Z.mul_lt_mono_pos_r; [apply Z.pow_pos_nonneg|]; lia. }
  destruct (binary_round_aux_correct false (Zpos mz) (d - 53) loc_Exact 0
              (Zpos mz) 1)
    as (mr & m & e & Heq & Hmr & Hm & He & Hval & Herr);
    try lia.
  { unfold located; cbn [shr_m shr_r shr_s shr_record_of_loc]; lia. }
  change (2 ^ 0) with 1 in Herr.
  assert (Hmr_eq : mr = Zpos mz) by lia.
  assert (He_eq : e = d - 53).
  { destruct (Z.eq_dec e (d - 53)) as [H | H]; [assumption|].
    replace (e - (d - 53 + 0)) with 1 in Hval by lia.
    change (2 ^ 1) with 2 in Hval. lia. }
  subst e. replace (d - 53 - (d - 53 + 0)) with 0 in Hval by lia.
  change (2 ^ 0) with 1 in Hval.
  exists m, (d - 53). split; [exact Heq|]. split; [exact Hm|].
  split; [lia|].
  replace (- (d - 53)) with (53 - d) by lia. lia.
Qed.

Lemma new_location_located D q r N :
  0 < D -> 0 <= r < D -> N = D * q + r ->
  located N D (shr_record_of_loc q (new_location D r)).
Proof.
  intros HD Hr HN. unfold new_location.
  destruct (Z.even D) eqn:Ev.
  - unfold new_location_even.
    destruct (r =? 0) eqn:E0.
    + apply Z.eqb_eq in E0. unfold located; cbn [shr_m shr_r shr_s shr_record_of_loc]; lia.
    + apply Z.eqb_neq in E0.
      destruct (Z.compare_spec (2 * r) D); unfold located; cbn [shr_m shr_r shr_s shr_record_of_loc]; lia.
  - unfold new_location_odd.
    assert (Hodd : exists k, D = 2 * k + 1).
    { apply Z.odd_spec. now rewrite <- Z.negb_even, Ev. }
    destruct Hodd as [k Hk].
    destruct (r =? 0) eqn:E0.
    + apply Z.eqb_eq in E0. unfold located; cbn [shr_m shr_r shr_s shr_record_of_loc]; lia.
    + apply Z.eqb_neq in E0.
      destruct (Z.compare_spec (2 * r + 1) D); unfold located; cbn [shr_m shr_r shr_s shr_record_of_loc]; lia.
Qed.

(** Rounded mantissa [mr] scaled by [P], against the exact [N]: half a
    unit of error is at most [2^-53] of the result. *)
Lemma half_unit_relative mr P N :
  0 < P -> 2 ^ 52 <= mr ->
  - P <= 2 * (mr * P - N) <= P ->
  2 ^ 53 * (mr * P - N) <= mr * P /\ 2 ^ 53 * (N - mr * P) <= mr * P.
Proof.
  intros HP Hmr Herr.
  assert (H : 2 ^ 52 * P <= mr * P) by (apply Z.mul_le_mono_nonneg_r; lia).
  change (2 ^ 53) with (2 ^ 52 * 2). lia.
Qed.

(** The core of a division: the integer quotient [N / D], of 53 or 54
    bits, with the location its remainder gives, is rounded to within
    [2^-53] (relatively) of [N / D]. *)
Lemma div_round_correct N D e' :
  0 < D -> 2 ^ 52 * D <= N < 2 ^ 54 * D -> -1074 <= e' < 969 ->
  exists m e,
    (let '(q, r) := Z.div_eucl N D in
     binary_round_aux prec emax false q e' (new_location D r)) =
      S754_finite false m e /\
    2 ^ 52 <= Zpos m < 2 ^ 53 /\
    0 <= e - e' <= 2 /\
    let M := Zpos m * 2 ^ (e - e') * D in
    2 ^ 53 * (M - N) <= M /\ 2 ^ 53 * (N - M) <= M.
Proof.
  intros HD HN He.
  pose proof (Z_div_mod N D ltac:(lia)) as Hdm.
  destruct (Z.div_eucl N D) as [q r]. destruct Hdm as [HNq Hr].
  assert (Hq : 2 ^ 52 <= q < 2 ^ 54).
  { assert (Hq' : q = N / D)
      by (apply Z.div_unique with (r := r); [lia | assumption]).
    rewrite Hq'. split.
    - apply Z.div_le_lower_bound; lia.
    - apply Z.div_lt_upper_bound; lia. }
  set (n := if q <? 2 ^ 53 then 0 else 1).
  assert (Hn : 0 <= n <= 1) by (unfold n; destruct (q <? 2 ^ 53); lia).
  assert (Hqn : 2 ^ (52 + n) <= q < 2 ^ (53 + n)).
  { unfold n. destruct (q <? 2 ^ 53) eqn:E;
      [apply Z.ltb_lt in E | apply Z.ltb_ge in E]; cbn; lia. }
  destruct (binary_round_aux_correct false q e' (new_location D r) n N D)
    as (mr & m & e & Heq & Hmr & Hm & Hee & Hval & Herr); try lia.
  { now apply new_location_located. }
  exists m, e. split; [exact Heq|]. split; [exact Hm|]. split; [lia|].
  cbv zeta.
  assert (Hpn : 0 < 2 ^ n) by (apply Z.pow_pos_nonneg; lia).
  replace (e - e') with ((e - (e' + n)) + n) by lia.
  rewrite Z.pow_add_r by lia.
  replace (Zpos m * (2 ^ (e - (e' + n)) * 2 ^ n) * D)
    with (mr * (2 ^ n * D)) by (rewrite <- Hval; ring).
  apply half_unit_relative; [nia | lia | exact Herr].
Qed.

(** Division of two doubles with full mantissas: the quotient is within
    [2^-53], relatively, of [ma * 2^ea / (mb * 2^eb)]. *)
Lemma num_div_correct ma ea mb eb :
  2 ^ 52 <= Zpos ma < 2 ^ 53 -> 2 ^ 52 <= Zpos mb < 2 ^ 53 ->
  -1021 <= ea - eb < 1020 ->
  exists m e,
    num_div (S754_finite false ma ea) (S754_finite false mb eb) =
      S754_finite false m e /\
    2 ^ 52 <= Zpos m < 2 ^ 53 /\
    0 <= e - (ea - eb - 53) <= 2 /\
    let M := Zpos m * 2 ^ (e - (ea - eb - 53)) * Zpos mb in
    let N := Zpos ma * 2 ^ 53 in
    2 ^ 53 * (M - N) <= M /\ 2 ^ 53 * (N - M) <= M.
Proof.
  intros Ha Hb He.
  unfold num_div, SFdiv. cbn [xorb]. unfold SFdiv_core_binary.
  rewrite !(Zdigits2_unique _ 53) by (try lia; assumption).
  replace (53 + ea - (53 + eb)) with (ea - eb + 53 - 53) by lia.
  rewrite fexp_normal by lia.
  replace (ea - eb + 53 - 53) with (ea - eb) by lia.
  rewrite Z.min_l by lia.
  replace (ea - eb - (ea - eb - 53)) with 53 by lia.
  cbv iota. rewrite Z.shiftl_mul_pow2 by lia.
  destruct (div_round_correct (Zpos ma * 2 ^ 53) (Zpos mb) (ea - eb - 53))
    as (m & e & Heq & H); try lia.
  exists m, e. split; [|exact H].
  revert Heq.
  now destruct (Z.div_eucl (Zpos ma * 2 ^ 53) (Zpos mb)).
Qed.

(** The double of a decimal with one fractional digit is within [2^-53],
    relatively, of the decimal: [m * 2^e] against [n / 10]. *)
Lemma num_of_tenths_nearest n :
  0 < n < 2 ^ 53 ->
  exists m e,
    num_of_tenths false n = S754_finite false m e /\
    2 ^ 52 <= Zpos m < 2 ^ 53 /\
    -56 <= e <= 0 /\
    2 ^ 53 * (10 * Zpos m - n * 2 ^ (- e)) <= 10 * Zpos m /\
    2 ^ 53 * (n * 2 ^ (- e) - 10 * Zpos m) <= 10 * Zpos m.
Proof.
  intros Hn. destruct n as [| pn |]; try lia.
  unfold num_of_tenths, SFdiv. cbn [xorb]. unfold SFdiv_core_binary.
  pose proof (digits2_pos_bounds pn) as Hd.
  cbn [Zdigits2]. change (Zpos (digits2_pos 10)) with 4.
  set (d := Zpos (digits2_pos pn)) in *.
  assert (Hd53 : 1 <= d <= 53).
  { split; [unfold d; lia|].
    destruct (Z.le_gt_cases d 53) as [H | H]; [assumption|].
    assert (2 ^ 53 <= 2 ^ (d - 1)) by (apply Z.pow_le_mono_r; lia). lia. }
  replace (d + 0 - (4 + 0)) with (d - 4) by lia.
  rewrite fexp_normal by lia.
  rewrite Z.min_l by lia.
  replace (0 - 0 - (d - 4 - 53)) with (57 - d) by lia.
  destruct (57 - d) as [| s | s] eqn:Es; try lia.
  rewrite <- Es. rewrite Z.shiftl_mul_pow2 by lia.
  assert (Hp : 0 < 2 ^ (d - 1)) by (apply Z.pow_pos_nonneg; lia).
  assert (HN : 2 ^ 56 <= Zpos pn * 2 ^ (57 - d) < 2 ^ 57).
  { split.
    - replace 56 with ((d - 1) + (57 - d)) by lia.
      rewrite Z.pow_add_r by lia.
      apply Z.mul_le_mono_nonneg_r; [apply Z.pow_nonneg|]; lia.
    - replace 57 with (d + (57 - d)) at 2 by lia.
      rewrite Z.pow_add_r by lia.
      apply Z.mul_lt_mono_pos_r; [apply Z.pow_pos_nonneg|]; lia. }
  destruct (div_round_correct (Zpos pn * 2 ^ (57 - d)) 10 (d - 4 - 53))
    as (m & e & Heq & Hm & He & H1 & H2); try lia.
  exists m, e. split.
  { revert Heq.
    now destruct (Z.div_eucl (Zpos pn * 2 ^ (57 - d)) 10). }
  split; [exact Hm|]. split; [lia|].
  cbv zeta in H1, H2.
  set (k := e - (d - 4 - 53)) in *.
  assert (Hk : 0 < 2 ^ k) by (apply Z.pow_pos_nonneg; lia).
  assert (Hpow : 2 ^ (57 - d) = 2 ^ (- e) * 2 ^ k).
  { rewrite <- Z.pow_add_r by lia. f_equal. unfold k. lia. }
  rewrite Hpow in H1, H2.
  split.
  - apply (Z.mul_le_mono_pos_r _ _ (2 ^ k) Hk).
    replace (2 ^ 53 * (10 * Zpos m - Zpos pn * 2 ^ (- e)) * 2 ^ k)
      with (2 ^ 53 * (Zpos m * 2 ^ k * 10 - Zpos pn * (2 ^ (- e) * 2 ^ k)))
      by ring.
    replace (10 * Zpos m * 2 ^ k) with (Zpos m * 2 ^ k * 10) by ring.
    exact H1.
  - apply (Z.mul_le_mono_pos_r _ _ (2 ^ k) Hk).
    replace (2 ^ 53 * (Zpos pn * 2 ^ (- e) - 10 * Zpos m) * 2 ^ k)
      with (2 ^ 53 * (Zpos pn * (2 ^ (- e) * 2 ^ k) - Zpos m * 2 ^ k * 10))
      by ring.
    replace (10 * Zpos m * 2 ^ k) with (Zpos m * 2 ^ k * 10) by ring.
    exact H2.
Qed.

(** Multiplication of two doubles with full mantissas. *)
Lemma num_mul_correct ma ea mb eb :
  2 ^ 52 <= Zpos ma < 2 ^ 53 -> 2 ^ 52 <= Zpos mb < 2 ^ 53 ->
  -1126 <= ea + eb < 917 ->
  exists m e,
    num_mul (S754_finite false ma ea) (S754_finite false mb eb) =
      S754_finite false m e /\
    2 ^ 52 <= Zpos m < 2 ^ 53 /\
    52 <= e - (ea + eb) <= 54 /\
    let M := Zpos m * 2 ^ (e - (ea + eb)) in
    let N := Zpos ma * Zpos mb in
    2 ^ 53 * (M - N) <= M /\ 2 ^ 53 * (N - M) <= M.
Proof.
  intros Ha Hb He.
  unfold num_mul, SFmul. cbn [xorb]. rewrite Pos2Z.inj_mul.
  set (N := Zpos ma * Zpos mb).
  assert (HN : 2 ^ 104 <= N < 2 ^ 106).
  { unfold N. change (2 ^ 104) with (2 ^ 52 * 2 ^ 52).
    change (2 ^ 106) with (2 ^ 53 * 2 ^ 53). nia. }
  set (n := if N <? 2 ^ 105 then 52 else 53).
  assert (Hn : 52 <= n <= 53) by (unfold n; destruct (N <? 2 ^ 105); lia).
  assert (HNn : 2 ^ (52 + n) <= N < 2 ^ (53 + n)).
  { unfold n. destruct (N <? 2 ^ 105) eqn:E;
      [apply Z.ltb_lt in E | apply Z.ltb_ge in E]; cbn; lia. }
  destruct (binary_round_aux_correct false N (ea + eb) loc_Exact n N 1)
    as (mr & m & e & Heq & Hmr & Hm & Hee & Hval & Herr); try lia.
  { unfold located; cbn [shr_m shr_r shr_s shr_record_of_loc]; lia. }
  exists m, e. split; [exact Heq|]. split; [exact Hm|]. split; [lia|].
  cbv zeta.
  assert (Hpn : 0 < 2 ^ n) by (apply Z.pow_pos_nonneg; lia).
  replace (e - (ea + eb)) with ((e - (ea + eb + n)) + n) by lia.
  rewrite Z.pow_add_r by lia.
  replace (Zpos m * (2 ^ (e - (ea + eb + n)) * 2 ^ n))
    with (mr * (2 ^ n * 1)) by (rewrite <- Hval; ring).
  apply half_unit_relative; [lia | lia | exact Herr].
Qed.

(** The arithmetic core: [u] and [v] stand for the quotient and the
    product as floats computed them, each within [2^-53] (relatively) of
    what it rounds; [n] is the nearest count of tenths of the product.
    Then [n] is a nearest count of tenths of [100 * p / t] itself. *)
Lemma tenths_nearest m1 m2 A B C W p t n :
  0 < A -> 0 < C -> 0 < W -> 0 < p <= t -> t < 2 ^ 32 ->
  W * (A * C) = B * 2 ^ 46 ->
  2 ^ 53 * (m1 * A * t - p * B) <= m1 * A * t ->
  2 ^ 53 * (p * B - m1 * A * t) <= m1 * A * t ->
  2 ^ 53 * (m2 * C - m1 * (100 * 2 ^ 46)) <= m2 * C ->
  2 ^ 53 * (m1 * (100 * 2 ^ 46) - m2 * C) <= m2 * C ->
  2 * W * n <= 20 * m2 + W < 2 * W * (n + 1) ->
  m2 < 10 ^ 21 * W /\ - t <= 2 * (n * t - 1000 * p) <= t.
Proof.
  intros HA HC HW Hp Ht HWAC Hi1 Hi2 Hii1 Hii2 Hiii.
  set (c := A * C) in *.
  assert (Hc : 0 < c) by (unfold c; nia).
  set (u := m1 * A * t) in *.
  set (y := p * B) in *.
  set (v := m2 * t * c).
  (* the second pair of bounds, scaled by [A * t] *)
  assert (Hs : 0 <= A * t) by nia.
  assert (Hv1 : 2 ^ 53 * (v - 100 * 2 ^ 46 * u) <= v).
  { pose proof (Z.mul_le_mono_nonneg_r _ _ (A * t) Hs Hii1) as H.
    unfold v, u, c. lia. }
  assert (Hv2 : 2 ^ 53 * (100 * 2 ^ 46 * u - v) <= v).
  { pose proof (Z.mul_le_mono_nonneg_r _ _ (A * t) Hs Hii2) as H.
    unfold v, u, c. lia. }
  assert (Hy : 2 ^ 46 * y = p * W * c)
    by (unfold y; rewrite <- Z.mul_assoc, HWAC; ring).
  (* two-sided bound on [v] by [100 * p * W * c], then cancel [c] *)
  assert (Hup : (2 ^ 53 - 1) * (2 ^ 53 - 1) * v
                <= 100 * (2 ^ 53 * 2 ^ 53) * (p * W * c)) by lia.
  assert (Hlo : 100 * (2 ^ 53 * 2 ^ 53) * (p * W * c)
                <= (2 ^ 53 + 1) * (2 ^ 53 + 1) * v) by lia.
  set (al := m2 * t).
  set (be := p * W).
  assert (Hup' : (2 ^ 53 - 1) * (2 ^ 53 - 1) * al
                 <= 100 * (2 ^ 53 * 2 ^ 53) * be).
  { apply (Z.mul_le_mono_pos_r _ _ c Hc).
    replace ((2 ^ 53 - 1) * (2 ^ 53 - 1) * al * c)
      with ((2 ^ 53 - 1) * (2 ^ 53 - 1) * v) by (unfold v, al; ring).
    replace (100 * (2 ^ 53 * 2 ^ 53) * be * c)
      with (100 * (2 ^ 53 * 2 ^ 53) * (p * W * c)) by (unfold be; ring).
    exact Hup. }
  assert (Hlo' : 100 * (2 ^ 53 * 2 ^ 53) * be
                 <= (2 ^ 53 + 1) * (2 ^ 53 + 1) * al).
  { apply (Z.mul_le_mono_pos_r _ _ c Hc).
    replace ((2 ^ 53 + 1) * (2 ^ 53 + 1) * al * c)
      with ((2 ^ 53 + 1) * (2 ^ 53 + 1) * v) by (unfold v, al; ring).
    replace (100 * (2 ^ 53 * 2 ^ 53) * be * c)
      with (100 * (2 ^ 53 * 2 ^ 53) * (p * W * c)) by (unfold be; ring).
    exact Hlo. }
  assert (Hbe : W <= be <= 2 ^ 32 * W) by (unfold be; nia).
  split.
  - (* the product is far below 10^21 *)
    assert (Hal : be * t <= 2 ^ 32 * W * t) by nia.
    destruct (Z.lt_ge_cases m2 (10 ^ 21 * W)) as [H | H]; [assumption|].
    exfalso.
    assert (H1 : 10 ^ 21 * W * t <= al) by (unfold al; nia).
    assert (H2 : be <= W * t) by (unfold be; nia).
    lia.
  - destruct Hiii as [Hn1 Hn2].
    assert (Hg1 : 2 * (W * n * t) <= 20 * al + W * t).
    { replace (2 * (W * n * t)) with (2 * W * n * t) by ring.
      replace (20 * al + W * t) with ((20 * m2 + W) * t)
        by (unfold al; ring).
      apply Z.mul_le_mono_nonneg_r; lia. }
    assert (Hg2 : 20 * al + W * t < 2 * (W * n * t) + 2 * (W * t)).
    { replace (2 * (W * n * t) + 2 * (W * t)) with (2 * W * (n + 1) * t)
        by ring.
      replace (20 * al + W * t) with ((20 * m2 + W) * t)
        by (unfold al; ring).
      apply Z.mul_lt_mono_pos_r; lia. }
    split.
    + destruct (Z.le_gt_cases (- t) (2 * (n * t - 1000 * p))) as [H | H];
        [assumption | exfalso].
      assert (H' : W * (2 * (1000 * p - n * t) - t - 1) >= 0) by nia.
      replace (W * (2 * (1000 * p - n * t) - t - 1))
        with (2000 * be - 2 * (W * n * t) - W * t - W) in H'
        by (unfold be; ring).
      lia.
    + destruct (Z.le_gt_cases (2 * (n * t - 1000 * p)) t) as [H | H];
        [assumption | exfalso].
      assert (H' : W * (2 * (n * t - 1000 * p) - t - 1) >= 0) by nia.
      replace (W * (2 * (n * t - 1000 * p) - t - 1))
        with (2 * (W * n * t) - 2000 * be - W * t - W) in H'
        by (unfold be; ring).
      lia.
Qed.

Lemma num_of_Z_100 :
  num_of_Z 100 = S754_finite false (100 * 2 ^ 46) (-46).
Proof. vm_compute. reflexivity. Qed.

Lemma floor_div_bounds a b : 0 < b -> b * (a / b) <= a < b * (a / b + 1).
Proof.
  intros Hb. pose proof (Z.mul_div_le a b Hb).
  pose proof (Z.mul_succ_div_gt a b Hb). lia.
Qed.

(** [parseFloat(((part / total) * 100).toFixed(1))] is the double of a
    count of tenths nearest to [100 * part / total]. *)
Lemma percent_rounded part total :
  0 <= part <= total -> 0 < total < 2 ^ 32 ->
  exists n,
    parseFloat_toFixed1 (percent_of part total) = num_of_tenths false n /\
    0 <= n /\
    - total <= 2 * (n * total - 1000 * part) <= total.
Proof.
  intros Hp Ht. unfold percent_of.
  replace (0 <? total) with true by (symmetry; apply Z.ltb_lt; lia).
  destruct (num_of_Z_exact total) as (mt & et & -> & Hmt & Het & Hvt);
    [change (2 ^ 53) with (2 ^ 32 * 2 ^ 21); lia|].
  destruct (Z.eq_dec part 0) as [-> | Hp0].
  { exists 0. cbn. split; [reflexivity | lia]. }
  destruct (num_of_Z_exact part) as (mp & ep & -> & Hmp & Hep & Hvp);
    [change (2 ^ 53) with (2 ^ 32 * 2 ^ 21); lia|].
  rewrite num_of_Z_100.
  set (a := - ep) in *. set (b := - et) in *.
  assert (Hab : b <= a).
  { destruct (Z.le_gt_cases b a) as [H | H]; [assumption | exfalso].
    assert (H1 : 2 ^ a * 2 <= 2 ^ b).
    { replace b with (a + 1 + (b - a - 1)) by lia.
      rewrite !Z.pow_add_r by lia. change (2 ^ 1) with 2.
      assert (0 < 2 ^ a) by (apply Z.pow_pos_nonneg; lia).
      assert (0 < 2 ^ (b - a - 1)) by (apply Z.pow_pos_nonneg; lia).
      nia. }
    change (2 ^ 53) with (2 ^ 52 * 2) in *. nia. }
  destruct (num_div_correct mp ep mt et Hmp Hmt ltac:(lia))
    as (m1 & e1 & -> & Hm1 & Hk1 & Hq1 & Hq2).
  cbv zeta in Hq1, Hq2.
  set (k1 := e1 - (ep - et - 53)) in *.
  destruct (num_mul_correct m1 e1 (100 * 2 ^ 46) (-46) Hm1
              ltac:(vm_compute; split; [discriminate | reflexivity])
              ltac:(lia))
    as (m2 & e2 & -> & Hm2 & Hk2 & Hx1 & Hx2).
  cbv zeta in Hx1, Hx2.
  change (Zpos (100 * 2 ^ 46)) with (100 * 2 ^ 46) in Hx1, Hx2.
  set (k2 := e2 - (e1 + -46)) in *.
  assert (He2 : - e2 = a - b + 99 - k1 - k2) by (unfold k1, k2, a, b; lia).
  assert (He2neg : e2 < 0) by lia.
  set (W := 2 ^ (- e2)).
  assert (HW : 0 < W) by (apply Z.pow_pos_nonneg; lia).
  assert (Hpa : 0 < 2 ^ a) by (apply Z.pow_pos_nonneg; lia).
  assert (Hpb : 0 < 2 ^ b) by (apply Z.pow_pos_nonneg; lia).
  assert (Hpk1 : 0 < 2 ^ k1) by (apply Z.pow_pos_nonneg; lia).
  assert (Hpk2 : 0 < 2 ^ k2) by (apply Z.pow_pos_nonneg; lia).
  set (n := (20 * Zpos m2 + W) / (2 * W)).
  assert (HWAC : W * (2 ^ k1 * 2 ^ b * 2 ^ k2) = 2 ^ a * 2 ^ 53 * 2 ^ 46).
  { unfold W. rewrite He2, <- !Z.pow_add_r by lia. f_equal. lia. }
  assert (Hi1 : 2 ^ 53 * (Zpos m1 * (2 ^ k1 * 2 ^ b) * total
                          - part * (2 ^ a * 2 ^ 53))
                <= Zpos m1 * (2 ^ k1 * 2 ^ b) * total).
  { rewrite Hvp, Hvt in Hq1.
    replace (Zpos m1 * (2 ^ k1 * 2 ^ b) * total)
      with (Zpos m1 * 2 ^ k1 * (total * 2 ^ b)) by ring.
    replace (part * (2 ^ a * 2 ^ 53)) with (part * 2 ^ a * 2 ^ 53) by ring.
    exact Hq1. }
  assert (Hi2 : 2 ^ 53 * (part * (2 ^ a * 2 ^ 53)
                          - Zpos m1 * (2 ^ k1 * 2 ^ b) * total)
                <= Zpos m1 * (2 ^ k1 * 2 ^ b) * total).
  { rewrite Hvp, Hvt in Hq2.
    replace (Zpos m1 * (2 ^ k1 * 2 ^ b) * total)
      with (Zpos m1 * 2 ^ k1 * (total * 2 ^ b)) by ring.
    replace (part * (2 ^ a * 2 ^ 53)) with (part * 2 ^ a * 2 ^ 53) by ring.
    exact Hq2. }
  assert (Hiii : 2 * W * n <= 20 * Zpos m2 + W < 2 * W * (n + 1)).
  { pose proof (floor_div_bounds (20 * Zpos m2 + W) (2 * W) ltac:(lia)) as H.
    fold n in H. lia. }
  destruct (tenths_nearest (Zpos m1) (Zpos m2) (2 ^ k1 * 2 ^ b)
              (2 ^ a * 2 ^ 53) (2 ^ k2) W part total n
              ltac:(apply Z.mul_pos_pos; assumption) Hpk2 HW ltac:(lia)
              ltac:(lia) HWAC Hi1 Hi2 Hx1 Hx2 Hiii)
    as [Hbig Hnear].
  exists n. split; [|split; [|exact Hnear]].
  - unfold parseFloat_toFixed1, at_least_1e21, toFixed1_tenths.
    rewrite (Z.max_l (- e2) 0), (Z.max_r e2 0) by lia.
    change (2 ^ 0) with 1. rewrite !Z.mul_1_r. fold W.
    replace (10 ^ 21 * W <=? Zpos m2) with false
      by (symmetry; apply Z.leb_gt; lia).
    reflexivity.
  - unfold n. apply Z.div_pos; lia.
Qed.

(* ------------------------------------------------------------------ *)
(** ** Dashboard percentages *)

Lemma len_filter_le {A} (f : A -> bool) (l : list A) :
  0 <= len (filter f l) <= len l.
Proof.
  unfold len. pose proof (filter_length_le f l). lia.
Qed.

Lemma len_map {A B} (f : A -> B) (l : list A) : len (map f l) = len l.
Proof. unfold len. now rewrite length_map. Qed.

Lemma filter_status_map st (l : list Course.t) :
  len (filter (status_is st) l) =
  len (filter (status_matches st) (map Course.status l)).
Proof.
  unfold len. f_equal.
  induction l as [| c rest IH]; [reflexivity|].
  cbn [map filter]. change (status_matches st (Course.status c))
    with (status_is st c).
  destruct (status_is st c); cbn [List.length]; now rewrite IH.
Qed.

Lemma filter_attended_map (l : list Attendance.t) :
  len (filter is_attended l) =
  len (filter attended_status (map Attendance.status l)).
Proof.
  unfold len. f_equal.
  induction l as [| r rest IH]; [reflexivity|].
  cbn [map filter]. change (attended_status (Attendance.status r))
    with (is_attended r).
  destruct (is_attended r); cbn [List.length]; now rewrite IH.
Qed.

Lemma percent_of_none part : parseFloat_toFixed1 (percent_of part 0) = num_of_Z 0.
Proof. reflexivity. Qed.

Lemma percent_of_len {A} (f : A -> bool) (l : list A) :
  0 < len l < 2 ^ 32 ->
  exists n,
    parseFloat_toFixed1 (percent_of (len (filter f l)) (len l)) =
      num_of_tenths false n /\
    nearest_tenths n (len (filter f l)) (len l).
Proof.
  intros H. apply percent_rounded; [apply len_filter_le | exact H].
Qed.

(** C2, as the code has it.  [getDashboardStats()].  [attendanceRate] is
    0 when there are no attendance records; otherwise it is the double of
    a decimal [n / 10] that is a multiple of one tenth nearest to
    [100 * attended / records] (at most 0.05 away), where [attended]
    counts the records whose status is "present" or "late".  For each of
    the statuses active, pending and archived, [count] is the number of
    courses of that status and [percentage] is 0 when there are no
    courses and otherwise the double of a multiple of one tenth nearest
    to [100 * count / courses].  When the exact percentage lies halfway
    between two tenths either of them may result: the quotient and the
    product are doubles, and it is the double that [toFixed(1)] rounds.
    (Lists are as long as a JavaScript array can be, below [2^32].)  With
    courses of statuses active, active, pending, archived the active
    entry is count 2, percentage 50.0; with attendance records present,
    present, late, absent, excused the rate is 60.0. *)
Theorem dashboard_percentages s :
  let stats := getDashboardStats s in
  let courses := getAllCourses s in
  let records := getAllAttendance s in
  let attended := len (filter is_attended records) in
  let stat_of (st : string) (cs : CourseStat.t) :=
    CourseStat.count cs = len (filter (status_is st) courses) /\
    (len courses = 0 -> CourseStat.percentage cs = num_of_Z 0) /\
    (0 < len courses < 2 ^ 32 ->
     exists n,
       CourseStat.percentage cs = num_of_tenths false n /\
       nearest_tenths n (CourseStat.count cs) (len courses)) in
  (forall r,
      is_attended r = true <->
      Attendance.status r = "present" \/ Attendance.status r = "late") /\
  (forall st c, status_is st c = true <-> Course.status c = Some st) /\
  (len records = 0 -> DashboardStats.attendanceRate stats = num_of_Z 0) /\
  (0 < len records < 2 ^ 32 ->
   exists n,
     DashboardStats.attendanceRate stats = num_of_tenths false n /\
     nearest_tenths n attended (len records)) /\
  stat_of "active"
    (CourseStatistics.active (DashboardStats.courseStatistics stats)) /\
  stat_of "pending"
    (CourseStatistics.pending (DashboardStats.courseStatistics stats)) /\
  stat_of "archived"
    (CourseStatistics.archived (DashboardStats.courseStatistics stats)) /\
  (map Course.status courses =
     [Some "active"; Some "active"; Some "pending"; Some "archived"] ->
   CourseStatistics.active (DashboardStats.courseStatistics stats) =
     CourseStat.mk 2 (num_of_tenths false 500)) /\
  (map Attendance.status records =
     ["present"; "present"; "late"; "absent"; "excused"] ->
   DashboardStats.attendanceRate stats = num_of_tenths false 600) /\
  num_of_tenths false 500 = num_of_Z 50 /\
  num_of_tenths false 600 = num_of_Z 60.
Proof.
  cbv zeta.
  assert (Hstat : forall st,
             let cs := CourseStat.mk
                         (len (filter (status_is st) (getAllCourses s)))
                         (parseFloat_toFixed1
                            (percent_of
                               (len (filter (status_is st) (getAllCourses s)))
                               (len (getAllCourses s)))) in
             CourseStat.count cs =
               len (filter (status_is st) (getAllCourses s)) /\
             (len (getAllCourses s) = 0 ->
              CourseStat.percentage cs = num_of_Z 0) /\
             (0 < len (getAllCourses s) < 2 ^ 32 ->
              exists n,
                CourseStat.percentage cs = num_of_tenths false n /\
                nearest_tenths n (CourseStat.count cs)
                  (len (getAllCourses s)))).
  { intros st. cbv zeta. cbn [CourseStat.count CourseStat.percentage].
    split; [reflexivity|]. split.
    - intros ->. apply percent_of_none.
    - apply percent_of_len. }
  split.
  { intros r. unfold is_attended.
    rewrite orb_true_iff, !String.eqb_eq. reflexivity. }
  split.
  { intros st c. unfold status_is.
    destruct (Course.status c) as [v |].
    - rewrite String.eqb_eq. split; congruence.
    - split; discriminate. }
  split.
  { intros H. change (DashboardStats.attendanceRate (getDashboardStats s))
      with (parseFloat_toFixed1
              (percent_of (len (filter is_attended (getAllAttendance s)))
                 (len (getAllAttendance s)))).
    rewrite H. apply percent_of_none. }
  split.
  { apply (percent_of_len is_attended (getAllAttendance s)). }
  split; [apply (Hstat "active")|].
  split; [apply (Hstat "pending")|].
  split; [apply (Hstat "archived")|].
  split.
  { intros H.
    assert (Hc : len (filter (status_is "active") (getAllCourses s)) = 2)
      by (rewrite filter_status_map, H; reflexivity).
    assert (Ht : len (getAllCourses s) = 4)
      by (rewrite <- (len_map Course.status), H; reflexivity).
    change (CourseStatistics.active
              (DashboardStats.courseStatistics (getDashboardStats s)))
      with (CourseStat.mk
              (len (filter (status_is "active") (getAllCourses s)))
              (parseFloat_toFixed1
                 (percent_of
                    (len (filter (status_is "active") (getAllCourses s)))
                    (len (getAllCourses s))))).
    rewrite Hc, Ht. vm_compute. reflexivity. }
  split.
  { intros H.
    assert (Hc : len (filter is_attended (getAllAttendance s)) = 3)
      by (rewrite filter_attended_map, H; reflexivity).
    assert (Ht : len (getAllAttendance s) = 5)
      by (rewrite <- (len_map Attendance.status), H; reflexivity).
    change (DashboardStats.attendanceRate (getDashboardStats s))
      with (parseFloat_toFixed1
              (percent_of (len (filter is_attended (getAllAttendance s)))
                 (len (getAllAttendance s)))).
    rewrite Hc, Ht. vm_compute. reflexivity. }
  split; vm_compute; reflexivity.
Qed.

Lemma dashboard_percentages_witness :
  CourseStatistics.active
    (DashboardStats.courseStatistics (getDashboardStats dashboard_store)) =
    CourseStat.mk 2 (num_of_tenths false 500) /\
  DashboardStats.attendanceRate (getDashboardStats dashboard_store) =
    num_of_tenths false 600 /\
  exists n,
    DashboardStats.attendanceRate (getDashboardStats dashboard_store) =
      num_of_tenths false n /\
    nearest_tenths n 3 5.
Proof.
  destruct (dashboard_percentages dashboard_store)
    as (_ & _ & _ & Hrate & _ & _ & _ & Hactive & Hsixty & _).
  split; [apply Hactive; reflexivity|].
  split; [apply Hsixty; reflexivity|].
  apply Hrate. vm_compute. split; reflexivity.
Defined.

(** Where the exact percentage is halfway between two tenths the result
    follows the double: 1 of 2000 (0.05) gives 0.1, and so does 3 of 2000
    (0.15); 1 of 400 (0.25) gives 0.3 and 29 of 400 (7.25) gives 7.2. *)
Example percent_ties :
  parseFloat_toFixed1 (percent_of 1 2000) = num_of_tenths false 1 /\
  parseFloat_toFixed1 (percent_of 3 2000) = num_of_tenths false 1 /\
  parseFloat_toFixed1 (percent_of 1 400) = num_of_tenths false 3 /\
  parseFloat_toFixed1 (percent_of 29 400) = num_of_tenths false 72.
Proof. repeat split; vm_compute; reflexivity. Qed.

(** The rounding is not the textbook one.  [ties_store] holds 80
    attendance records, 23 of them present.  [100 * 23 / 80] is 28.75
    exactly, which rounds to 28.8 whether halves go up or to even; the
    answer is 28.7, because [(23 / 80) * 100] is the double
    28.749999999999996. *)
Lemma attendance_rate_tie :
  let stats := getDashboardStats ties_store in
  len (getAllAttendance ties_store) = 80 /\
  len (filter is_attended (getAllAttendance ties_store)) = 23 /\
  2 * (1000 * 23) = (2 * 287 + 1) * 80 /\
  tenths_half_up 23 80 = 288 /\
  tenths_half_even 23 80 = 288 /\
  DashboardStats.attendanceRate stats = num_of_tenths false 287 /\
  DashboardStats.attendanceRate stats <>
    num_of_tenths false (tenths_half_up 23 80) /\
  DashboardStats.attendanceRate stats <>
    num_of_tenths false (tenths_half_even 23 80).
Proof.
  cbv zeta. repeat split; try (vm_compute; reflexivity);
    vm_compute; discriminate.
Qed.

(* ------------------------------------------------------------------ *)
(** ** The statements above, at concrete stores *)


(** [updateCourse(1, { status: "archived" })]: only [status] changes. *)
Lemma update_merges_and_frames_witness :
  option_map (entries KCourse)
    (fst (updateCourse one_course_store 1 partial_archived)) =
  Some [ ("id", JNum 1); ("code", JStr "CS101");
         ("title", JStr "Introduction"); ("description", JNull);
         ("credits", JNum 3); ("department", JStr "Computer Science");
         ("status", JStr "archived") ] /\
  updateCourse one_course_store 7 partial_archived = (None, one_course_store).
Proof.
  split.
  - pose proof (update_merges_and_frames KCourse one_course_store 1
                  partial_archived) as H.
    cbv zeta in H.
    change (get KCourse one_course_store 1)
      with (Some (course_with_id (course_with_status "CS101" "active") 1))
      in H.
    destruct H as (H & _). unfold updateCourse. rewrite H. reflexivity.
  - exact (update_merges_and_frames KCourse one_course_store 7
             partial_archived).
Defined.

(** Deleting course 1 twice answers [true], then [false]; deleting a
    course that is not there leaves the store as it was. *)
Lemma delete_reports_existence_witness :
  fst (deleteCourse one_course_store 1) = true /\
  fst (deleteCourse (snd (deleteCourse one_course_store 1)) 1) = false /\
  snd (deleteCourse one_course_store 7) = one_course_store.
Proof.
  destruct (delete_reports_existence KCourse one_course_store 1)
    as (H1 & _ & _ & _ & _ & H2 & _).
  destruct (delete_reports_existence KCourse one_course_store 7)
    as (_ & _ & _ & _ & _ & _ & H3).
  split; [|split].
  - apply H1. eexists. reflexivity.
  - exact H2.
  - apply H3. reflexivity.
Defined.

Lemma upcoming_events_filtered_and_sorted_witness :
  StronglySorted (fun a b => Event.startDate a <= Event.startDate b)
    (getUpcomingEvents events_store 2000) /\
  forall e,
    In e (getUpcomingEvents events_store 2000) -> 2000 < Event.startDate e.
Proof.
  destruct (upcoming_events_filtered_and_sorted events_store 2000)
    as (Hin & _ & Hsorted & _).
  split; [exact Hsorted|].
  intros e He. now apply Hin in He.
Defined.

(* ================================================================== *)
(** * Further properties of the store *)

(** ** More facts about [JsMap] *)

Section JsMapMoreFacts.
Variable V : Type.
Implicit Types (m : JsMap.t V) (k : Z) (v : V).

Lemma has_false_not_key k m :
  JsMap.has k m = false <-> ~ In k (JsMap.keys m).
Proof.
  pose proof (has_true_key k m) as H.
  destruct (JsMap.has k m); split; intros H'.
  - discriminate.
  - exfalso. apply H'. now apply H.
  - intros Hin. apply H in Hin. discriminate.
  - reflexivity.
Qed.

Lemma values_replace k v m old :
  JsMap.get k m = Some old ->
  exists l1 l2,
    JsMap.values m = l1 ++ old :: l2 /\
    JsMap.values (JsMap.replace k v m) = l1 ++ v :: l2.
Proof.
  unfold JsMap.values.
  induction m as [| [k0 v0] rest IH]; simpl; [discriminate|].
  destruct (k0 =? k) eqn:E.
  - intros [= ->]. exists [], (map snd rest). simpl. auto.
  - intros Hget. destruct (IH Hget) as (l1 & l2 & Hv & Hs).
    exists (v0 :: l1), l2. simpl. now rewrite Hv, Hs.
Qed.

(** Where [set] puts the value: at the end under a fresh key, in the
    place of the old value under a present one. *)
Lemma values_set_cases k v m :
  (JsMap.get k m = None /\
   JsMap.values (JsMap.set k v m) = JsMap.values m ++ [v]) \/
  (exists l1 old l2,
      JsMap.get k m = Some old /\
      JsMap.values m = l1 ++ old :: l2 /\
      JsMap.values (JsMap.set k v m) = l1 ++ v :: l2).
Proof.
  unfold JsMap.set, JsMap.has.
  destruct (JsMap.get k m) as [old |] eqn:Hget.
  - right. destruct (values_replace k v m old Hget) as (l1 & l2 & Hv & Hs).
    exists l1, old, l2. auto.
  - left. split; [reflexivity|]. unfold JsMap.values. now rewrite map_app.
Qed.

(** A row is replaced by itself: nothing changes. *)
Lemma set_same_value k v m : JsMap.get k m = Some v -> JsMap.set k v m = m.
Proof.
  intros Hget. unfold JsMap.set, JsMap.has. rewrite Hget. revert Hget.
  induction m as [| [k0 v0] rest IH]; simpl; [discriminate|].
  destruct (k0 =? k) eqn:E.
  - intros [= ->]. apply Z.eqb_eq in E. now subst.
  - intros Hget. now rewrite IH.
Qed.

Lemma set_set_same k v v' m :
  JsMap.set k v (JsMap.set k v' m) = JsMap.set k v m.
Proof.
  unfold JsMap.set at 2 3. unfold JsMap.has.
  destruct (JsMap.get k m) as [old |] eqn:Hget.
  - unfold JsMap.set, JsMap.has.
    rewrite get_replace_same by (unfold JsMap.has; now rewrite Hget).
    clear Hget. induction m as [| [k0 v0] rest IH]; simpl; [reflexivity|].
    destruct (k0 =? k) eqn:E; simpl.
    + now rewrite Z.eqb_refl.
    + now rewrite E, IH.
  - unfold JsMap.set, JsMap.has. rewrite get_app, Hget. simpl.
    rewrite Z.eqb_refl.
    induction m as [| [k0 v0] rest IH]; simpl.
    + now rewrite Z.eqb_refl.
    + simpl in Hget. destruct (k0 =? k) eqn:E; [discriminate|].
      now rewrite IH.
Qed.

Lemma remove_set_fresh k v m :
  JsMap.get k m = None -> JsMap.remove k (JsMap.set k v m) = m.
Proof.
  intros Hget. unfold JsMap.set, JsMap.has. rewrite Hget.
  unfold JsMap.remove. rewrite filter_app. simpl. rewrite Z.eqb_refl. simpl.
  rewrite app_nil_r. fold (JsMap.remove k m). now apply remove_absent.
Qed.

Lemma NoDup_keys_set k v m :
  NoDup (JsMap.keys m) -> NoDup (JsMap.keys (JsMap.set k v m)).
Proof.
  intros H. rewrite keys_set. destruct (JsMap.has k m) eqn:E; [assumption|].
  apply has_false_not_key in E.
  apply NoDup_app; [assumption| repeat constructor; intros [] |].
  intros x Hx [<- | []]. contradiction.
Qed.

Lemma NoDup_keys_remove k m :
  NoDup (JsMap.keys m) -> NoDup (JsMap.keys (JsMap.remove k m)).
Proof.
  unfold JsMap.keys, JsMap.remove.
  induction m as [| [k0 v0] rest IH]; simpl; [auto|].
  intros H. inversion H as [| ? ? Hnot Hrest]; subst.
  destruct (negb (k0 =? k)); simpl; [|auto].
  constructor; [|auto]. intros Hin. apply Hnot.
  apply in_map_iff in Hin. destruct Hin as (x & Hx & Hin).
  apply filter_In in Hin. apply in_map_iff. exists x. tauto.
Qed.

(** With distinct keys every entry is the one [get] finds. *)
Lemma In_get k v m :
  NoDup (JsMap.keys m) -> In (k, v) m -> JsMap.get k m = Some v.
Proof.
  unfold JsMap.keys.
  induction m as [| [k0 v0] rest IH]; simpl; [tauto|].
  intros H. inversion H as [| ? ? Hnot Hrest]; subst.
  intros [[= -> ->] | Hin].
  - now rewrite Z.eqb_refl.
  - destruct (k0 =? k) eqn:E; [|auto].
    apply Z.eqb_eq in E. subst. exfalso. apply Hnot.
    apply in_map_iff. now exists (k, v).
Qed.

Lemma values_remove k m :
  JsMap.values (JsMap.remove k m) =
  map snd (filter (fun kv => negb (fst kv =? k)) m).
Proof. reflexivity. Qed.
End JsMapMoreFacts.

(** ** Lookups by a secondary key *)

Lemma find_finds_first {A B : Type} (key : A -> B) (eqb : B -> B -> bool)
  (rows : list A) :
  (forall a b, eqb a b = true <-> a = b) ->
  finds_first_by key rows (fun x => find (fun r => eqb (key r) x) rows).
Proof.
  intros Heqb x.
  pose proof (find_first_match (fun r => eqb (key r) x) rows) as H.
  destruct (find (fun r => eqb (key r) x) rows) as [row |].
  - destruct H as (before & after & -> & Hrow & Hbefore).
    exists before, after. split; [reflexivity|]. split; [now apply Heqb|].
    intros y Hy Hkey. apply Hbefore in Hy. apply Heqb in Hkey. congruence.
  - intros y Hy Hkey. apply H in Hy. apply Heqb in Hkey. congruence.
Qed.



Lemma filter_app_last {A : Type} (f : A -> bool) rows v :
  filter f (rows ++ [v]) = filter f rows ++ (if f v then [v] else []).
Proof. rewrite filter_app. reflexivity. Qed.

Lemma string_eqb_iff a b : String.eqb a b = true <-> a = b.
Proof. apply String.eqb_eq. Qed.

(** X1.  [getStudentByStudentId], [getStudentByUserId],
    [getFacultyByFacultyId], [getFacultyByUserId] and [getCourseByCode]
    answer the first row, in the order of [getAll], whose key is exactly
    the one asked for (strings are compared as they are, letter case
    included), and [undefined] when no row has that key. *)
Theorem secondary_lookups_find_first s :
  finds_first_by Student.studentId (getAllStudents s)
    (getStudentByStudentId s) /\
  finds_first_by Student.userId (getAllStudents s) (getStudentByUserId s) /\
  finds_first_by Faculty.facultyId (getAllFaculty s)
    (getFacultyByFacultyId s) /\
  finds_first_by Faculty.userId (getAllFaculty s) (getFacultyByUserId s) /\
  finds_first_by Course.code (getAllCourses s) (getCourseByCode s).
Proof.
  repeat split.
  - apply (find_finds_first Student.studentId String.eqb), string_eqb_iff.
  - apply (find_finds_first Student.userId Z.eqb), Z.eqb_eq.
  - apply (find_finds_first Faculty.facultyId String.eqb), string_eqb_iff.
  - apply (find_finds_first Faculty.userId Z.eqb), Z.eqb_eq.
  - apply (find_finds_first Course.code String.eqb), string_eqb_iff.
Qed.


(** ** Lookups and relationship queries after a call *)

Lemma getAll_create k s (data : InsertRow k) :
  keys_below_counter k s ->
  getAll k (snd (create k s data)) = getAll k s ++ [fst (create k s data)].
Proof. intros H. rewrite create_row. now apply getAll_create_fresh. Qed.


(** X4.  A create and the relationship queries of its table, in a store
    whose keys lie below their counters: the new row is appended to the
    list of the parent it names, and to no other list. *)
Theorem relationship_queries_after_create s :
  (forall k, keys_below_counter k s) ->
  (forall data x,
      getCourseAssignmentsByCourse (snd (createCourseAssignment s data)) x =
      getCourseAssignmentsByCourse s x ++
      (if InsertCourseAssignment.courseId data =? x
       then [fst (createCourseAssignment s data)] else [])) /\
  (forall data x,
      getCourseAssignmentsByFaculty (snd (createCourseAssignment s data)) x =
      getCourseAssignmentsByFaculty s x ++
      (if InsertCourseAssignment.facultyId data =? x
       then [fst (createCourseAssignment s data)] else [])) /\
  (forall data x,
      getEnrollmentsByStudent (snd (createEnrollment s data)) x =
      getEnrollmentsByStudent s x ++
      (if InsertEnrollment.studentId data =? x
       then [fst (createEnrollment s data)] else [])) /\
  (forall data x,
      getEnrollmentsByCourseAssignment (snd (createEnrollment s data)) x =
      getEnrollmentsByCourseAssignment s x ++
      (if InsertEnrollment.courseAssignmentId data =? x
       then [fst (createEnrollment s data)] else [])) /\
  (forall data x,
      getAttendanceByEnrollment (snd (createAttendance s data)) x =
      getAttendanceByEnrollment s x ++
      (if InsertAttendance.enrollmentId data =? x
       then [fst (createAttendance s data)] else [])) /\
  (forall data x,
      getGradesByEnrollment (snd (createGrade s data)) x =
      getGradesByEnrollment s x ++
      (if InsertGrade.enrollmentId data =? x
       then [fst (createGrade s data)] else [])).
Proof.
  intros Hinv.
  pose proof (fun data =>
                getAll_create KCourseAssignment s data
                  (Hinv KCourseAssignment)) as Ha.
  pose proof (fun data =>
                getAll_create KEnrollment s data (Hinv KEnrollment)) as He.
  pose proof (fun data =>
                getAll_create KAttendance s data (Hinv KAttendance)) as Ht.
  pose proof (fun data => getAll_create KGrade s data (Hinv KGrade)) as Hg.
  unfold getAll in Ha, He, Ht, Hg. cbn [table Row] in Ha, He, Ht, Hg.
  repeat split; intros data x.
  - unfold getCourseAssignmentsByCourse, createCourseAssignment.
    rewrite Ha, filter_app_last. reflexivity.
  - unfold getCourseAssignmentsByFaculty, createCourseAssignment.
    rewrite Ha, filter_app_last. reflexivity.
  - unfold getEnrollmentsByStudent, createEnrollment.
    rewrite He, filter_app_last. reflexivity.
  - unfold getEnrollmentsByCourseAssignment, createEnrollment.
    rewrite He, filter_app_last. reflexivity.
  - unfold getAttendanceByEnrollment, createAttendance.
    rewrite Ht, filter_app_last. reflexivity.
  - unfold getGradesByEnrollment, createGrade.
    rewrite Hg, filter_app_last. reflexivity.
Qed.

(** ** Rows, keys and ids *)

Lemma entry_id_is_key k s key (row : Row k) :
  keys_distinct s -> id_is_key s ->
  In (key, row) (table k s) -> row_id k row = key.
Proof.
  intros Hd Hid Hin. apply Hid. unfold get. now apply In_get.
Qed.

Lemma ids_are_keys k s :
  keys_distinct s -> id_is_key s ->
  map (row_id k) (getAll k s) = JsMap.keys (table k s).
Proof.
  intros Hd Hid. unfold getAll, JsMap.values, JsMap.keys.
  rewrite map_map. apply map_ext_in. intros [key row] Hin. simpl.
  now apply (entry_id_is_key k s).
Qed.

Lemma In_getAll_get k s (row : Row k) :
  keys_distinct s -> id_is_key s ->
  (In row (getAll k s) <-> get k s (row_id k row) = Some row).
Proof.
  intros Hd Hid. split.
  - intros Hin. apply In_values_get in Hin. destruct Hin as [key Hin].
    rewrite (entry_id_is_key k s key row Hd Hid Hin).
    unfold get. now apply In_get.
  - intros Hget. unfold get in Hget. unfold getAll.
    now apply get_In_values in Hget.
Qed.

Lemma map_filter_ext {A B : Type} (f : A -> B) (p : A -> bool)
  (q : B -> bool) (l : list A) :
  (forall x, In x l -> p x = q (f x)) ->
  map f (filter p l) = filter q (map f l).
Proof.
  induction l as [| a rest IH]; simpl; [reflexivity|].
  intros H. rewrite <- (H a) by now left.
  destruct (p a); simpl; rewrite IH; auto.
Qed.

Lemma getAll_delete k s id :
  keys_distinct s -> id_is_key s ->
  getAll k (snd (delete k s id)) =
  filter (fun row => negb (row_id k row =? id)) (getAll k s).
Proof.
  intros Hd Hid. unfold getAll. rewrite table_delete.
  unfold JsMap.remove, JsMap.values. apply map_filter_ext.
  intros [key row] Hin. simpl.
  now rewrite (entry_id_is_key k s key row Hd Hid Hin).
Qed.

Lemma getAll_delete_other k k' s id :
  k' <> k -> getAll k' (snd (delete k s id)) = getAll k' s.
Proof. intros H. unfold getAll. now rewrite table_delete_other. Qed.

Lemma filter_filter_comm {A : Type} (f g : A -> bool) (l : list A) :
  filter f (filter g l) = filter g (filter f l).
Proof.
  induction l as [| a rest IH]; simpl; [reflexivity|].
  destruct (f a) eqn:Ef, (g a) eqn:Eg; simpl; rewrite ?Ef, ?Eg, IH;
    reflexivity.
Qed.

(** X5.  A delete, in a store whose rows sit under their own ids: the
    table loses the row with the deleted id and nothing else, in
    [getAll] and in the relationship lists alike, and the order of the
    other rows is kept; no other table changes.  In particular nothing
    cascades: the enrollments of a deleted student, the attendance and
    grade records of a deleted enrollment and the assignments of a
    deleted course are still listed. *)
Theorem delete_removes_one_row s id :
  keys_distinct s -> id_is_key s ->
  (forall k,
      getAll k (snd (delete k s id)) =
      filter (fun row => negb (row_id k row =? id)) (getAll k s)) /\
  (forall k k', k' <> k -> getAll k' (snd (delete k s id)) = getAll k' s) /\
  (forall x,
      getEnrollmentsByStudent (snd (deleteEnrollment s id)) x =
      filter (fun e => negb (Enrollment.id e =? id))
        (getEnrollmentsByStudent s x)) /\
  (forall x,
      getEnrollmentsByStudent (snd (deleteStudent s id)) x =
      getEnrollmentsByStudent s x) /\
  (forall x,
      getAttendanceByEnrollment (snd (deleteEnrollment s id)) x =
      getAttendanceByEnrollment s x) /\
  (forall x,
      getGradesByEnrollment (snd (deleteEnrollment s id)) x =
      getGradesByEnrollment s x) /\
  (forall x,
      getCourseAssignmentsByCourse (snd (deleteCourse s id)) x =
      getCourseAssignmentsByCourse s x).
Proof.
  intros Hd Hid.
  split; [intros k; now apply getAll_delete|].
  split; [intros k k' H; now apply getAll_delete_other|].
  split.
  { intros x. pose proof (getAll_delete KEnrollment s id Hd Hid) as H.
    unfold getAll in H. cbn [table Row row_id] in H.
    unfold getEnrollmentsByStudent, deleteEnrollment. rewrite H.
    apply filter_filter_comm. }
  repeat split; intros x.
  - pose proof (@table_delete_other KStudent KEnrollment s id) as H.
    cbn [table] in H.
    unfold getEnrollmentsByStudent, deleteStudent. now rewrite H.
  - pose proof (@table_delete_other KEnrollment KAttendance s id) as H.
    cbn [table] in H.
    unfold getAttendanceByEnrollment, deleteEnrollment. now rewrite H.
  - pose proof (@table_delete_other KEnrollment KGrade s id) as H.
    cbn [table] in H.
    unfold getGradesByEnrollment, deleteEnrollment. now rewrite H.
  - pose proof (@table_delete_other KCourse KCourseAssignment s id) as H.
    cbn [table] in H.
    unfold getCourseAssignmentsByCourse, deleteCourse. now rewrite H.
Qed.

(** ** Calls that undo or repeat each other *)

Lemma set_table_set_table k (m m' : JsMap.t (Row k)) s :
  set_table k m (set_table k m' s) = set_table k m s.
Proof. destruct s, k; reflexivity. Qed.

Lemma set_table_set_counter k c s :
  set_table k (table k s) (set_counter k c s) = set_counter k c s.
Proof. destruct s as [? ? ? ? ? ? ? ? ? []], k; reflexivity. Qed.

(** X6.  A create followed by the delete of the row it made, in a store
    whose keys lie below the counter: the delete answers [true] and all
    tables are as before the create; only the counter has moved on, so
    the id is spent. *)
Theorem create_then_delete k s (data : InsertRow k) :
  keys_below_counter k s ->
  delete k (snd (create k s data)) (row_id k (fst (create k s data))) =
  (true, set_counter k (js_incr (counter k s)) s).
Proof.
  intros Hinv. rewrite create_row, row_id_with_id.
  assert (Hget : JsMap.get (counter k s) (table k s) = None).
  { destruct (JsMap.get (counter k s) (table k s)) eqn:E; [|reflexivity].
    assert (Hin : In (counter k s) (JsMap.keys (table k s))).
    { apply has_true_key. unfold JsMap.has. now rewrite E. }
    apply Hinv in Hin. lia. }
  unfold delete, JsMap.delete. cbv beta iota. rewrite table_create. f_equal.
  - unfold JsMap.has. now rewrite get_set_same.
  - rewrite remove_set_fresh by assumption.
    unfold create. cbn [snd].
    rewrite set_table_set_table.
    apply set_table_set_counter.
Qed.

Lemma pick_idem {A : Type} (a : A) o : pick (pick a o) o = pick a o.
Proof. now destruct o. Qed.

Lemma pick_set_idem {A : Type} (a : option A) o :
  pick_set (pick_set a o) o = pick_set a o.
Proof. now destruct o. Qed.

Lemma spread_idem k (row : Row k) (data : PartialRow k) :
  spread k (spread k row data) data = spread k row data.
Proof.
  destruct k; destruct row, data; cbv -[pick pick_set];
    now rewrite ?pick_idem, ?pick_set_idem.
Qed.

Lemma spread_nothing k (row : Row k) (data : PartialRow k) :
  supplied k data = [] -> spread k row data = row.
Proof.
  destruct k; destruct row, data; cbv -[app]; intros H;
    repeat (match type of H with
            | context [match ?o with Some _ => _ | None => _ end] =>
                is_var o; destruct o
            end; cbn in H; try discriminate H);
    reflexivity.
Qed.

(** X7.  An update repeated with the same partial answers the same row
    and leaves the store as the first one left it; and an update whose
    partial supplies no property answers the stored row (or [undefined])
    and changes nothing. *)
Theorem update_idempotent k s id (data : PartialRow k) :
  update k (snd (update k s id data)) id data =
  (fst (update k s id data), snd (update k s id data)) /\
  (supplied k data = [] -> update k s id data = (get k s id, s)).
Proof.
  split.
  - assert (Hu : update k s id data =
                 match JsMap.get id (table k s) with
                 | None => (None, s)
                 | Some row =>
                     (Some (spread k row data),
                      set_table k
                        (JsMap.set id (spread k row data) (table k s)) s)
                 end).
    { unfold update. now destruct (JsMap.get id (table k s)). }
    rewrite Hu.
    destruct (JsMap.get id (table k s)) as [row |] eqn:Hget; cbn [fst snd].
    + unfold update.
      rewrite table_set_table, get_set_same, spread_idem, set_set_same.
      now rewrite set_table_set_table.
    + unfold update. now rewrite Hget.
  - intros Hnone. unfold update, get.
    destruct (JsMap.get id (table k s)) as [row |] eqn:Hget; [|reflexivity].
    rewrite (spread_nothing k row data Hnone).
    rewrite set_same_value by assumption. now rewrite set_table_same.
Qed.

(** ** The rows of a table along a run *)

Lemma create_keys_distinct k s (data : InsertRow k) :
  keys_distinct s -> keys_distinct (snd (create k s data)).
Proof.
  intros H k'. destruct (kind_eq_dec k' k) as [-> | Hk].
  - rewrite table_create. apply NoDup_keys_set, H.
  - rewrite table_create_other by assumption. apply H.
Qed.

Lemma update_keys_distinct k s id (data : PartialRow k) :
  keys_distinct s -> keys_distinct (snd (update k s id data)).
Proof.
  intros H k'. destruct (kind_eq_dec k' k) as [-> | Hk].
  - rewrite table_update. destruct (JsMap.get id (table k s)); [|apply H].
    apply NoDup_keys_set, H.
  - rewrite table_update_other by assumption. apply H.
Qed.

Lemma delete_keys_distinct k s id :
  keys_distinct s -> keys_distinct (snd (delete k s id)).
Proof.
  intros H k'. destruct (kind_eq_dec k' k) as [-> | Hk].
  - rewrite table_delete. apply NoDup_keys_remove, H.
  - rewrite table_delete_other by assumption. apply H.
Qed.

Lemma perform_keys_distinct s c :
  keys_distinct s -> keys_distinct (fst (perform s c)).
Proof.
  intros H. rewrite fst_perform. destruct c.
  - now apply create_keys_distinct.
  - now apply update_keys_distinct.
  - now apply delete_keys_distinct.
Qed.

Lemma new_MemStorage_keys_distinct : keys_distinct new_MemStorage.
Proof. intros k. destruct k; constructor. Qed.

Lemma len_getAll_keys k s :
  len (getAll k s) = len (JsMap.keys (table k s)).
Proof.
  unfold len, getAll, JsMap.values, JsMap.keys. now rewrite !length_map.
Qed.

Lemma len_app_one {A : Type} (l : list A) x : len (l ++ [x]) = len l + 1.
Proof. unfold len. rewrite length_app. simpl. lia. Qed.

Lemma perform_len k s c :
  len (getAll k (fst (perform s c))) <=
  len (getAll k s) + (if is_create_of k c then 1 else 0).
Proof.
  rewrite !len_getAll_keys, fst_perform.
  destruct c as [k' data | k' id data | k' id]; cbn [is_create_of].
  - destruct (kind_eqb k' k) eqn:E.
    + apply kind_eqb_eq in E. subst k'. rewrite table_create, keys_set.
      destruct (JsMap.has (counter k s) (table k s)).
      * lia.
      * rewrite len_app_one. lia.
    + apply kind_eqb_false in E.
      rewrite table_create_other by congruence. lia.
  - destruct (kind_eq_dec k k') as [<- | Hk].
    + rewrite table_update.
      destruct (JsMap.get id (table k s)) eqn:Hget; [|lia].
      rewrite keys_set. unfold JsMap.has. rewrite Hget. lia.
    + rewrite table_update_other by assumption. lia.
  - destruct (kind_eq_dec k k') as [<- | Hk].
    + rewrite table_delete. unfold JsMap.keys, JsMap.remove.
      unfold len. rewrite !length_map.
      pose proof (filter_length_le
                    (fun kv : Z * Row k => negb (fst kv =? id)) (table k s)).
      lia.
    + rewrite table_delete_other by assumption. lia.
Qed.

(** X8.  Fix any run of creates, deletes and updates that leave [id]
    alone, from a store whose rows sit under their own ids.  Afterwards
    [getAll] of each table lists rows with pairwise distinct ids; a row
    is listed exactly when [get] of its id answers it; and the table
    has grown by no more rows than the run created in it. *)
Theorem getAll_lists_each_row_once s calls :
  keys_distinct s -> id_is_key s -> Forall keeps_id calls ->
  let s' := fst (run s calls) in
  forall k,
    NoDup (map (row_id k) (getAll k s')) /\
    (forall row,
        In row (getAll k s') <-> get k s' (row_id k row) = Some row) /\
    len (getAll k s') <= len (getAll k s) + creates_of k calls.
Proof.
  intros Hd Hid Hcalls. cbv zeta. intros k.
  assert (H : keys_distinct (fst (run s calls)) /\
              id_is_key (fst (run s calls)) /\
              len (getAll k (fst (run s calls))) <=
              len (getAll k s) + creates_of k calls).
  { revert s Hd Hid.
    induction Hcalls as [| c rest Hc _ IH]; intros s Hd Hid.
    - cbn [run fst]. unfold creates_of, len. simpl. repeat split; auto. lia.
    - rewrite fst_run_cons, creates_of_cons.
      destruct (IH (fst (perform s c))) as (Hd' & Hid' & Hlen).
      + now apply perform_keys_distinct.
      + now apply perform_preserves_id_is_key.
      + repeat split; auto. pose proof (perform_len k s c). lia. }
  destruct H as (Hd' & Hid' & Hlen).
  split; [|split].
  - rewrite ids_are_keys by assumption. apply Hd'.
  - intros row. now apply In_getAll_get.
  - exact Hlen.
Qed.

(** ** The counts of the dashboard *)

Lemma len_cons {A : Type} (a : A) l : len (a :: l) = len l + 1.
Proof. unfold len. simpl List.length. lia. Qed.

Lemma len_nonneg {A : Type} (l : list A) : 0 <= len l.
Proof. unfold len. lia. Qed.

Lemma status_one (c : Course.t) :
  (if status_is "active" c then 1 else 0)
  + (if status_is "pending" c then 1 else 0)
  + (if status_is "archived" c then 1 else 0)
  + (if negb (has_listed_status c) then 1 else 0) = 1.
Proof.
  unfold has_listed_status, status_is.
  destruct (Course.status c) as [v |]; [|reflexivity].
  destruct (String.eqb_spec v "active") as [-> | Ha]; [reflexivity|].
  destruct (String.eqb_spec v "pending") as [-> | Hp]; [reflexivity|].
  destruct (String.eqb_spec v "archived") as [-> | Hr]; reflexivity.
Qed.

Lemma status_counts (l : list Course.t) :
  len (filter (status_is "active") l) + len (filter (status_is "pending") l)
  + len (filter (status_is "archived") l)
  + len (filter (fun c => negb (has_listed_status c)) l) = len l.
Proof.
  induction l as [| c rest IH]; [reflexivity|].
  cbn [filter]. pose proof (status_one c) as Hone.
  destruct (status_is "active" c), (status_is "pending" c),
    (status_is "archived" c), (negb (has_listed_status c));
    rewrite !len_cons; lia.
Qed.

Lemma len_filter_zero {A : Type} (f : A -> bool) (l : list A) :
  len (filter f l) = 0 <-> forall x, In x l -> f x = false.
Proof.
  induction l as [| a rest IH]; simpl.
  - split; [intros _ x []|reflexivity].
  - destruct (f a) eqn:E.
    + rewrite len_cons. pose proof (len_nonneg (filter f rest)).
      split; [lia|]. intros Hall.
      specialize (Hall a (or_introl eq_refl)). congruence.
    + rewrite IH. split.
      * intros Hall x [<- | Hx]; auto.
      * intros Hall x Hx. apply Hall. now right.
Qed.

(** X9.  The counts of [getDashboardStats()]: the three totals are the
    numbers of rows of the tables; [activeCourses] is the count of the
    active entry; the active, pending and archived counts add up to at
    most [totalCourses], and to exactly [totalCourses] only when every
    course has one of these three statuses, so a course stored without
    a status is counted in the total and in none of the three; and
    [popularCourses] has three entries, or as many as there are courses
    if these are fewer. *)
Theorem dashboard_counts s :
  let stats := getDashboardStats s in
  let statistics := DashboardStats.courseStatistics stats in
  let active := CourseStat.count (CourseStatistics.active statistics) in
  let pending := CourseStat.count (CourseStatistics.pending statistics) in
  let archived := CourseStat.count (CourseStatistics.archived statistics) in
  DashboardStats.totalStudents stats = len (getAllStudents s) /\
  DashboardStats.totalFaculty stats = len (getAllFaculty s) /\
  DashboardStats.totalCourses stats = len (getAllCourses s) /\
  DashboardStats.activeCourses stats = active /\
  0 <= active /\ 0 <= pending /\ 0 <= archived /\
  active + pending + archived <= DashboardStats.totalCourses stats /\
  (active + pending + archived = DashboardStats.totalCourses stats <->
   forall course,
     In course (getAllCourses s) ->
     Course.status course = Some "active" \/
     Course.status course = Some "pending" \/
     Course.status course = Some "archived") /\
  len (DashboardStats.popularCourses stats) =
  Z.min 3 (DashboardStats.totalCourses stats).
Proof.
  cbv zeta. unfold getDashboardStats.
  cbn [DashboardStats.totalStudents DashboardStats.totalFaculty
       DashboardStats.totalCourses DashboardStats.activeCourses
       DashboardStats.courseStatistics DashboardStats.popularCourses
       CourseStatistics.active CourseStatistics.pending
       CourseStatistics.archived CourseStat.count].
  pose proof (status_counts (getAllCourses s)) as Hsum.
  pose proof (len_nonneg (filter (status_is "active") (getAllCourses s))).
  pose proof (len_nonneg (filter (status_is "pending") (getAllCourses s))).
  pose proof (len_nonneg (filter (status_is "archived") (getAllCourses s))).
  pose proof (len_nonneg
                (filter (fun c => negb (has_listed_status c))
                   (getAllCourses s))) as Hother.
  change (Row KCourse) with Course.t in *.
  repeat (split; [first [reflexivity | assumption | lia]|]).
  split.
  - transitivity
      (len (filter (fun c => negb (has_listed_status c)) (getAllCourses s))
       = 0); [lia|].
    rewrite len_filter_zero. split.
    + intros Hall course Hin. specialize (Hall course Hin).
      apply negb_false_iff in Hall. unfold has_listed_status, status_is in Hall.
      destruct (Course.status course) as [v |]; [|discriminate].
      apply orb_true_iff in Hall. destruct Hall as [Hall | Hall].
      * apply orb_true_iff in Hall. destruct Hall as [Hall | Hall];
          apply String.eqb_eq in Hall; subst; auto.
      * apply String.eqb_eq in Hall. subst. auto.
    + intros Hall course Hin. apply negb_false_iff.
      unfold has_listed_status, status_is.
      destruct (Hall course Hin) as [-> | [-> | ->]]; reflexivity.
  - unfold slice0, len. rewrite length_firstn.
    rewrite (Permutation_length (js_sort_perm _ _)), length_map.
    lia.
Qed.

(* ================================================================== *)
(** * Properties of the routes *)

(** ** The middleware chain *)

Lemma through_cases middlewares handler s session :
  (rejected middlewares session = false /\
   through middlewares handler s session = handler s session) \/
  (rejected middlewares session = true /\
   exists res, through middlewares handler s session = (res, s)).
Proof.
  induction middlewares as [| m rest IH]; simpl.
  - now left.
  - destruct (m session) as [res |]; simpl.
    + right. split; [reflexivity|]. now exists res.
    + exact IH.
Qed.

Lemma store_after_route s session r middlewares handler :
  route r = Some (middlewares, handler) ->
  store_after s session r = s \/
  store_after s session r = snd (handler s session).
Proof.
  intros Hr. unfold store_after, serve. rewrite Hr.
  destruct (through_cases middlewares handler s session)
    as [[_ ->] | [_ [res ->]]].
  - right. now destruct (handler s session).
  - now left.
Qed.

Lemma store_after_auth s session r :
  route r = None -> store_after s session r = s.
Proof.
  intros Hr. unfold store_after, serve. rewrite Hr.
  destruct r; try discriminate Hr; cbn [fst snd].
  - now destruct (post_auth_login s session body).
  - reflexivity.
  - reflexivity.
Qed.

(** ** What each handler does to the store, and when *)

Ltac break_matches :=
  repeat match goal with
         | |- context [match ?x with _ => _ end] =>
             lazymatch type of x with
             | prod _ _ => rewrite (surjective_pairing x)
             | _ => destruct x eqn:?
             end; cbn [fst snd]
         end.

Ltac is_student_or_faculty :=
  match goal with
  | H : negb (String.eqb _ _) = false |- _ =>
      apply negb_false_iff in H; apply String.eqb_eq in H; exact H
  end.

Lemma post_users_store body s session :
  snd (post_users body s session) = s \/
  exists data,
    body = Some data /\
    getUserByUsername s (InsertUser.username data) = None /\
    snd (post_users body s session) = snd (createUser s data).
Proof.
  unfold post_users. break_matches; try (left; reflexivity).
  right. eexists. repeat split; eauto.
Qed.

Lemma post_students_store body s session :
  snd (post_students body s session) = s \/
  exists data user,
    body = Some data /\
    getUser s (InsertStudent.userId data) = Some user /\
    User.role user = "student" /\
    getStudentByStudentId s (InsertStudent.studentId data) = None /\
    getStudentByUserId s (InsertStudent.userId data) = None /\
    snd (post_students body s session) = snd (createStudent s data).
Proof.
  unfold post_students. break_matches; try (left; reflexivity).
  right. do 2 eexists. repeat split; eauto. is_student_or_faculty.
Qed.

Lemma post_faculty_store body s session :
  snd (post_faculty body s session) = s \/
  exists data user,
    body = Some data /\
    getUser s (InsertFaculty.userId data) = Some user /\
    User.role user = "faculty" /\
    getFacultyByFacultyId s (InsertFaculty.facultyId data) = None /\
    getFacultyByUserId s (InsertFaculty.userId data) = None /\
    snd (post_faculty body s session) = snd (createFaculty s data).
Proof.
  unfold post_faculty. break_matches; try (left; reflexivity).
  right. do 2 eexists. repeat split; eauto. is_student_or_faculty.
Qed.

Lemma post_courses_store body s session :
  snd (post_courses body s session) = s \/
  exists data,
    body = Some data /\
    getCourseByCode s (InsertCourse.code data) = None /\
    snd (post_courses body s session) = snd (createCourse s data).
Proof.
  unfold post_courses. break_matches; try (left; reflexivity).
  right. eexists. repeat split; eauto.
Qed.

Lemma post_course_assignments_store body s session :
  snd (post_course_assignments body s session) = s \/
  exists data course member,
    body = Some data /\
    getCourse s (InsertCourseAssignment.courseId data) = Some course /\
    getFaculty s (InsertCourseAssignment.facultyId data) = Some member /\
    snd (post_course_assignments body s session) =
    snd (createCourseAssignment s data).
Proof.
  unfold post_course_assignments. break_matches; try (left; reflexivity).
  right. do 3 eexists. repeat split; eauto.
Qed.

Lemma post_enrollments_store body s session :
  snd (post_enrollments body s session) = s \/
  exists data student assignment,
    body = Some data /\
    getStudent s (InsertEnrollment.studentId data) = Some student /\
    getCourseAssignment s (InsertEnrollment.courseAssignmentId data) =
      Some assignment /\
    existsb (enrolled_in (InsertEnrollment.courseAssignmentId data))
      (getEnrollmentsByStudent s (InsertEnrollment.studentId data)) = false /\
    snd (post_enrollments body s session) = snd (createEnrollment s data).
Proof.
  unfold post_enrollments. break_matches; try (left; reflexivity).
  right. do 3 eexists. repeat split; eauto.
Qed.

Lemma post_attendance_store body s session :
  snd (post_attendance body s session) = s \/
  exists data enrollment,
    body = Some data /\
    getEnrollment s (InsertAttendance.enrollmentId data) = Some enrollment /\
    snd (post_attendance body s session) = snd (createAttendance s data).
Proof.
  unfold post_attendance. break_matches; try (left; reflexivity).
  right. do 2 eexists. repeat split; eauto.
Qed.

Lemma post_grades_store body s session :
  snd (post_grades body s session) = s \/
  exists data enrollment,
    body = Some data /\
    getEnrollment s (InsertGrade.enrollmentId data) = Some enrollment /\
    snd (post_grades body s session) = snd (createGrade s data).
Proof.
  unfold post_grades. break_matches; try (left; reflexivity).
  right. do 2 eexists. repeat split; eauto.
Qed.

Lemma post_events_store body s session :
  snd (post_events body s session) = s \/
  exists data,
    body = Some data /\
    snd (post_events body s session) = snd (createEvent s data).
Proof.
  unfold post_events. break_matches; try (left; reflexivity).
  right. eexists. repeat split; eauto.
Qed.

Lemma put_user_store id body s session :
  snd (put_user id body s session) = s \/
  exists i user session_user,
    id = Some i /\ getUser s i = Some user /\
    session = Some session_user /\
    (SessionUser.role session_user = "admin" \/
     SessionUser.id session_user = i) /\
    key_taken (PartialUser.username body) (User.username user)
      (getUserByUsername s) User.id id = false /\
    (forall role,
        PartialUser.role body = Some role -> role <> "" ->
        role <> User.role user -> SessionUser.role session_user = "admin") /\
    snd (put_user id body s session) = snd (updateUser s i body).
Proof.
  unfold put_user. destruct id as [i |]; cbn [get_at update_at];
    [|now left].
  destruct (get KUser s i) as [user |] eqn:Hget; [|now left].
  destruct session as [session_user |]; [|now left].
  destruct (negb (String.eqb (SessionUser.role session_user) "admin")
            && negb (num_eq (SessionUser.id session_user) (Some i)))
    eqn:Haccess; [now left|].
  cbv zeta.
  destruct (key_taken (PartialUser.username body) (User.username user)
              (getUserByUsername s) User.id (Some i)) eqn:Htaken;
    [now left|].
  match goal with
  | |- context [if ?b then _ else _] => destruct b eqn:Hrole
  end; [now left|].
  right. exists i, user, session_user. repeat split; auto.
  - apply andb_false_iff in Haccess. destruct Haccess as [H | H];
      apply negb_false_iff in H.
    + left. now apply String.eqb_eq in H.
    + right. now apply Z.eqb_eq in H.
  - intros role Hbody Hne Hdiff. rewrite Hbody in Hrole.
    destruct (String.eqb_spec (SessionUser.role session_user) "admin")
      as [-> | Hn]; [reflexivity|].
    exfalso. unfold truthy in Hrole.
    apply String.eqb_neq in Hne, Hdiff. rewrite Hne, Hdiff in Hrole.
    discriminate.
  - unfold updateUser. now destruct (update KUser s i body) as [[u |] s'].
Qed.

Lemma put_student_store id body s session :
  snd (put_student id body s session) = s \/
  exists i student,
    id = Some i /\ getStudent s i = Some student /\
    key_taken (PartialStudent.studentId body) (Student.studentId student)
      (getStudentByStudentId s) Student.id id = false /\
    snd (put_student id body s session) = snd (updateStudent s i body).
Proof.
  unfold put_student. destruct id as [i |]; cbn [get_at update_at];
    [|now left].
  destruct (get KStudent s i) as [student |] eqn:Hget; [|now left].
  cbv zeta.
  destruct (key_taken (PartialStudent.studentId body)
              (Student.studentId student) (getStudentByStudentId s)
              Student.id (Some i)) eqn:Htaken; [now left|].
  right. exists i, student. repeat split; auto.
  unfold updateStudent. now destruct (update KStudent s i body) as [[u |] s'].
Qed.

Lemma put_faculty_store id body s session :
  snd (put_faculty id body s session) = s \/
  exists i member,
    id = Some i /\ getFaculty s i = Some member /\
    key_taken (PartialFaculty.facultyId body) (Faculty.facultyId member)
      (getFacultyByFacultyId s) Faculty.id id = false /\
    snd (put_faculty id body s session) = snd (updateFaculty s i body).
Proof.
  unfold put_faculty. destruct id as [i |]; cbn [get_at update_at];
    [|now left].
  destruct (get KFaculty s i) as [member |] eqn:Hget; [|now left].
  cbv zeta.
  destruct (key_taken (PartialFaculty.facultyId body)
              (Faculty.facultyId member) (getFacultyByFacultyId s)
              Faculty.id (Some i)) eqn:Htaken; [now left|].
  right. exists i, member. repeat split; auto.
  unfold updateFaculty. now destruct (update KFaculty s i body) as [[u |] s'].
Qed.

Lemma put_course_store id body s session :
  snd (put_course id body s session) = s \/
  exists i course,
    id = Some i /\ getCourse s i = Some course /\
    key_taken (PartialCourse.code body) (Course.code course)
      (getCourseByCode s) Course.id id = false /\
    snd (put_course id body s session) = snd (updateCourse s i body).
Proof.
  unfold put_course. destruct id as [i |]; cbn [get_at update_at];
    [|now left].
  destruct (get KCourse s i) as [course |] eqn:Hget; [|now left].
  cbv zeta.
  destruct (key_taken (PartialCourse.code body) (Course.code course)
              (getCourseByCode s) Course.id (Some i)) eqn:Htaken;
    [now left|].
  right. exists i, course. repeat split; auto.
  unfold updateCourse. now destruct (update KCourse s i body) as [[u |] s'].
Qed.

Lemma put_row_store k id body s session :
  snd (put_row k id body s session) = s \/
  exists i row,
    id = Some i /\ get k s i = Some row /\
    snd (put_row k id body s session) = snd (update k s i body).
Proof.
  unfold put_row. destruct id as [i |]; cbn [get_at update_at]; [|now left].
  destruct (get k s i) as [row |] eqn:Hget; [|now left].
  right. exists i, row. repeat split; auto.
  now destruct (update k s i body) as [[u |] s'].
Qed.

Lemma delete_user_store id s session :
  snd (delete_user id s session) = s \/
  exists i session_user,
    id = Some i /\ session = Some session_user /\
    SessionUser.id session_user <> i /\
    snd (delete_user id s session) = snd (deleteUser s i).
Proof.
  unfold delete_user. destruct session as [session_user |]; [|now left].
  destruct id as [i |]; cbn [num_eq delete_at]; [|now left].
  destruct (SessionUser.id session_user =? i) eqn:E; [now left|].
  right. exists i, session_user. repeat split; auto.
  - now apply Z.eqb_neq.
  - unfold deleteUser. now destruct (delete KUser s i) as [[|] s'].
Qed.

Lemma delete_row_store k id s session :
  snd (delete_row k id s session) = s \/
  exists i, id = Some i /\ snd (delete_row k id s session) = snd (delete k s i).
Proof.
  unfold delete_row. destruct id as [i |]; cbn [delete_at]; [|now left].
  right. exists i. split; [reflexivity|].
  now destruct (delete k s i) as [[|] s'].
Qed.

(** The handlers of the GET routes answer from the store as it is. *)
Lemma get_handlers_read_only s session r middlewares handler :
  route r = Some (middlewares, handler) -> method r = GET ->
  snd (handler s session) = s.
Proof.
  intros Hr Hm.
  destruct r; try discriminate Hm; cbn [route] in Hr;
    inversion Hr; subst; clear Hr Hm.
  - reflexivity.
  - unfold get_user. break_matches; reflexivity.
  - reflexivity.
  - unfold get_student. break_matches; reflexivity.
  - reflexivity.
  - unfold get_faculty. break_matches; reflexivity.
  - reflexivity.
  - unfold get_course. break_matches; reflexivity.
  - reflexivity.
  - reflexivity.
  - reflexivity.
  - reflexivity.
  - reflexivity.
Qed.


(** ** Who is let through *)

Lemma requireRole_rejects roles role user :
  includes roles (SessionUser.role user) = false ->
  requireRole roles (Some user) = Some (fail 403 "Access denied") /\
  (requireRole roles = requireRole role ->
   includes role (SessionUser.role user) = false) /\
  requireRole roles <> requireAuth.
Proof.
  intros H. unfold requireRole at 1. rewrite H. split; [reflexivity|]. split.
  - intros Heq. apply (f_equal (fun m => m (Some user))) in Heq.
    unfold requireRole in Heq. rewrite H in Heq.
    now destruct (includes role (SessionUser.role user)).
  - intros Heq. apply (f_equal (fun m => m (Some user))) in Heq.
    unfold requireRole, requireAuth in Heq. rewrite H in Heq. discriminate.
Qed.

Lemma through_guarded roles handler s user :
  through [requireAuth; requireRole roles] handler s (Some user) =
  if includes roles (SessionUser.role user) then handler s (Some user)
  else (fail 403 "Access denied", s).
Proof.
  cbn [through requireAuth]. unfold requireRole.
  now destruct (includes roles (SessionUser.role user)).
Qed.

(** X10.  Every route but the three auth routes starts with
    [requireAuth]: a request in a session without a user is answered 401
    "Authentication required" and changes neither the store nor the
    session.  In a session with a user, a route restricted by
    [requireRole] to roles that do not include the user's role answers
    403 "Access denied", again changing nothing; when every restriction
    of the route includes the role, the answer and the next store are
    the handler's.  The three auth routes never change the store. *)
Theorem requests_need_a_session s r :
  match route r with
  | Some (middlewares, handler) =>
      serve s None r = (fail 401 "Authentication required", s, None) /\
      forall user,
        (forall roles,
            In (requireRole roles) middlewares ->
            includes roles (SessionUser.role user) = false ->
            serve s (Some user) r =
            (fail 403 "Access denied", s, Some user)) /\
        ((forall roles,
             In (requireRole roles) middlewares ->
             includes roles (SessionUser.role user) = true) ->
         serve s (Some user) r =
         (fst (handler s (Some user)), snd (handler s (Some user)),
          Some user))
  | None => forall session, store_after s session r = s
  end.
Proof.
  destruct (route r) as [[middlewares handler] |] eqn:Hr;
    [|intros session; now apply store_after_auth].
  assert (Hms : middlewares = [requireAuth] \/
                exists roles, middlewares = [requireAuth; requireRole roles]).
  { destruct r; cbn [route] in Hr; inversion Hr; subst; eauto. }
  unfold serve. rewrite Hr.
  destruct Hms as [-> | [roles0 ->]].
  - split; [reflexivity|]. intros user. split.
    + intros roles [Heq | []] Hno.
      exfalso. symmetry in Heq.
      now apply (requireRole_rejects roles roles user Hno).
    + intros _. cbn [through requireAuth].
      now destruct (handler s (Some user)).
  - split; [reflexivity|]. intros user. rewrite through_guarded. split.
    + intros roles [Heq | [Heq | []]] Hno.
      * exfalso. symmetry in Heq.
        now apply (requireRole_rejects roles roles user Hno).
      * symmetry in Heq.
        apply (requireRole_rejects roles roles0 user Hno) in Heq.
        now rewrite Heq.
    + intros Hall. rewrite (Hall roles0) by (right; now left).
      now destruct (handler s (Some user)).
Qed.


(** ** A request is at most one call of the store *)

Lemma one_create k s s' (data : InsertRow k) m w :
  s' = snd (create k s data) -> m = POST -> w = Some k ->
  s' = s \/
  exists c,
    s' = fst (perform s c) /\
    match c with
    | Create k _ => m = POST /\ w = Some k
    | Update k _ _ => m = PUT /\ w = Some k
    | Delete k _ => m = DELETE /\ w = Some k
    end.
Proof. intros -> -> ->. right. now exists (Create k data). Qed.

Lemma one_update k s s' id (data : PartialRow k) m w :
  s' = snd (update k s id data) -> m = PUT -> w = Some k ->
  s' = s \/
  exists c,
    s' = fst (perform s c) /\
    match c with
    | Create k _ => m = POST /\ w = Some k
    | Update k _ _ => m = PUT /\ w = Some k
    | Delete k _ => m = DELETE /\ w = Some k
    end.
Proof. intros -> -> ->. right. now exists (Update k id data). Qed.

Lemma one_delete k s s' id m w :
  s' = snd (delete k s id) -> m = DELETE -> w = Some k ->
  s' = s \/
  exists c,
    s' = fst (perform s c) /\
    match c with
    | Create k _ => m = POST /\ w = Some k
    | Update k _ _ => m = PUT /\ w = Some k
    | Delete k _ => m = DELETE /\ w = Some k
    end.
Proof. intros -> -> ->. right. now exists (Delete k id). Qed.

Ltac one_call lemma :=
  let H := fresh "H" in
  pose proof lemma as H; destruct H as [H | H];
  [ left; exact H
  | decompose [ex and] H; clear H;
    first [ eapply one_create; [eassumption | reflexivity | reflexivity]
          | eapply one_update; [eassumption | reflexivity | reflexivity]
          | eapply one_delete; [eassumption | reflexivity | reflexivity] ] ].

Lemma store_after_call s session r :
  store_after s session r = s \/
  exists c,
    store_after s session r = fst (perform s c) /\
    match c with
    | Create k _ => method r = POST /\ written r = Some k
    | Update k _ _ => method r = PUT /\ written r = Some k
    | Delete k _ => method r = DELETE /\ written r = Some k
    end.
Proof.
  destruct (route r) as [[middlewares handler] |] eqn:Hr;
    [|left; now apply store_after_auth].
  destruct (store_after_route s session r _ _ Hr) as [-> | ->];
    [now left|].
  destruct (method r) eqn:Hm.
  { left. now apply (get_handlers_read_only s session r middlewares). }
  all: destruct r; try discriminate Hm; cbn [route] in Hr;
    inversion Hr; subst; clear Hr Hm; cbn [written].
  - one_call (post_users_store body s session).
  - one_call (post_students_store body s session).
  - one_call (post_faculty_store body s session).
  - one_call (post_courses_store body s session).
  - one_call (post_course_assignments_store body s session).
  - one_call (post_enrollments_store body s session).
  - one_call (post_attendance_store body s session).
  - one_call (post_grades_store body s session).
  - one_call (post_events_store body s session).
  - one_call (put_user_store id body s session).
  - one_call (put_student_store id body s session).
  - one_call (put_faculty_store id body s session).
  - one_call (put_course_store id body s session).
  - one_call (put_row_store KEnrollment id body s session).
  - one_call (put_row_store KAttendance id body s session).
  - one_call (put_row_store KGrade id body s session).
  - one_call (put_row_store KEvent id body s session).
  - one_call (delete_user_store id s session).
  - one_call (delete_row_store KStudent id s session).
  - one_call (delete_row_store KFaculty id s session).
  - one_call (delete_row_store KCourse id s session).
  - one_call (delete_row_store KCourseAssignment id s session).
  - one_call (delete_row_store KEnrollment id s session).
  - one_call (delete_row_store KAttendance id s session).
  - one_call (delete_row_store KGrade id s session).
  - one_call (delete_row_store KEvent id s session).
Qed.

(** X11.  A request does to the store at most one call of a mutating
    method: none when it is a GET or an auth request, or when a
    middleware or a check of the handler answers it; otherwise one
    [create] for a POST, one [update] for a PUT and one [delete] for a
    DELETE, on the table of the route.  So what the requests of any
    clients do to the store is a run of at most as many calls. *)
Theorem requests_are_store_calls :
  (forall s session r,
      store_after s session r = s \/
      exists c,
        store_after s session r = fst (perform s c) /\
        match c with
        | Create k _ => method r = POST /\ written r = Some k
        | Update k _ _ => method r = PUT /\ written r = Some k
        | Delete k _ => method r = DELETE /\ written r = Some k
        end) /\
  (forall requests s,
      exists calls,
        serve_store s requests = fst (run s calls) /\
        (List.length calls <= List.length requests)%nat).
Proof.
  split; [exact store_after_call|].
  induction requests as [| [session r] rest IH]; intros s.
  - exists []. split; [reflexivity|]. simpl. lia.
  - cbn [serve_store]. fold (store_after s session r).
    destruct (IH (store_after s session r)) as (calls & Hrun & Hlen).
    destruct (store_after_call s session r) as [Heq | (c & Heq & _)].
    + exists calls. rewrite Hrun, Heq. split; [reflexivity|]. simpl. lia.
    + exists (c :: calls). rewrite fst_run_cons, <- Heq.
      split; [exact Hrun|]. simpl. lia.
Qed.


(** ** What a session that is not an admin's can change *)





(** ** Unique keys and the routes *)























(** ** References and the routes *)

Lemma create_keeps_rows k k' s (data : InsertRow k) id :
  get k' s id <> None -> get k' (snd (create k s data)) id <> None.
Proof.
  intros H. destruct (kind_eq_dec k' k) as [-> | Hk].
  - destruct (Z.eq_dec id (counter k s)) as [-> | Hne].
    + now rewrite get_create_same.
    + rewrite get_create_other by tauto. exact H.
  - rewrite get_create_other by tauto. exact H.
Qed.

Ltac old_or_new Hin :=
  unfold getAll in Hin;
  first [ rewrite table_create_other in Hin by discriminate
        | rewrite table_create in Hin; apply In_values_set in Hin;
          destruct Hin as [-> | Hin] ].

(** A create keeps the references resolved when those of the new row
    are. *)
Lemma create_references k s (data : InsertRow k) :
  references_resolve s ->
  match k return InsertRow k -> Prop with
  | KStudent => fun d => getUser s (InsertStudent.userId d) <> None
  | KFaculty => fun d => getUser s (InsertFaculty.userId d) <> None
  | KCourseAssignment => fun d =>
      getCourse s (InsertCourseAssignment.courseId d) <> None /\
      getFaculty s (InsertCourseAssignment.facultyId d) <> None
  | KEnrollment => fun d =>
      getStudent s (InsertEnrollment.studentId d) <> None /\
      getCourseAssignment s (InsertEnrollment.courseAssignmentId d) <> None
  | KAttendance => fun d =>
      getEnrollment s (InsertAttendance.enrollmentId d) <> None
  | KGrade => fun d => getEnrollment s (InsertGrade.enrollmentId d) <> None
  | _ => fun _ => True
  end data ->
  references_resolve (snd (create k s data)).
Proof.
  intros (Hs & Hf & Ha & He & Ht & Hg) Hnew.
  unfold references_resolve, getAllStudents, getAllFaculty,
    getAllCourseAssignments, getAllEnrollments, getAllAttendance,
    getAllGrades, getUser, getStudent, getFaculty, getCourse,
    getCourseAssignment, getEnrollment in *.
  repeat match goal with |- _ /\ _ => split end; intros r Hin;
    try split; apply create_keeps_rows;
    destruct k; old_or_new Hin;
    try (first [ now apply Hs | now apply Hf | now apply Ha
               | now apply He | now apply Ht | now apply Hg ]);
    cbn; tauto.
Qed.

Lemma serve_references s session r :
  references_resolve s -> method r = GET \/ method r = POST ->
  references_resolve (store_after s session r).
Proof.
  intros Hs Hm.
  destruct (route r) as [[middlewares handler] |] eqn:Hroute;
    [|now rewrite store_after_auth].
  destruct (store_after_route s session r _ _ Hroute) as [-> | ->];
    [assumption|].
  destruct Hm as [Hm | Hm].
  { now rewrite (get_handlers_read_only s session r middlewares). }
  destruct r; try discriminate Hm; cbn [route] in Hroute;
    inversion Hroute; subst; clear Hroute Hm.
  - destruct (post_users_store body s session)
      as [-> | (data & _ & _ & ->)]; [assumption|].
    now apply (create_references KUser).
  - destruct (post_students_store body s session)
      as [-> | (data & user & _ & Hu & _ & _ & _ & ->)]; [assumption|].
    apply (create_references KStudent); [assumption|]. now rewrite Hu.
  - destruct (post_faculty_store body s session)
      as [-> | (data & user & _ & Hu & _ & _ & _ & ->)]; [assumption|].
    apply (create_references KFaculty); [assumption|]. now rewrite Hu.
  - destruct (post_courses_store body s session)
      as [-> | (data & _ & _ & ->)]; [assumption|].
    now apply (create_references KCourse).
  - destruct (post_course_assignments_store body s session)
      as [-> | (data & c & f & _ & Hc & Hf & ->)]; [assumption|].
    apply (create_references KCourseAssignment); [assumption|].
    now rewrite Hc, Hf.
  - destruct (post_enrollments_store body s session)
      as [-> | (data & st & a & _ & Hst & Ha & _ & ->)]; [assumption|].
    apply (create_references KEnrollment); [assumption|].
    now rewrite Hst, Ha.
  - destruct (post_attendance_store body s session)
      as [-> | (data & e & _ & He & ->)]; [assumption|].
    apply (create_references KAttendance); [assumption|]. now rewrite He.
  - destruct (post_grades_store body s session)
      as [-> | (data & e & _ & He & ->)]; [assumption|].
    apply (create_references KGrade); [assumption|]. now rewrite He.
  - destruct (post_events_store body s session)
      as [-> | (data & _ & ->)]; [assumption|].
    now apply (create_references KEvent).
Qed.

(** X14.  The POST handlers check the references of the row they
    create, and nothing else creates rows: in a store where every
    reference names a stored row (the user of a profile, the course and
    the faculty member of an assignment, the student and the assignment
    of an enrollment, the enrollment of an attendance or grade record),
    that is still so after any GET and POST requests of any clients.
    (A DELETE does not cascade and a PUT does not check references, so
    either can break it.) *)
Theorem posts_keep_references s requests :
  references_resolve s ->
  Forall (fun request =>
            method (snd request) = GET \/ method (snd request) = POST)
    requests ->
  references_resolve (serve_store s requests).
Proof.
  intros Hs Hall. revert s Hs.
  induction Hall as [| [session r] rest Hr _ IH]; intros s Hs.
  - exact Hs.
  - cbn [serve_store]. apply IH. now apply serve_references.
Qed.


(** ** Double enrollment and the routes *)

Lemma filter_filter_and {A : Type} (f g : A -> bool) (l : list A) :
  filter f (filter g l) = filter (fun x => g x && f x) l.
Proof.
  induction l as [| a rest IH]; simpl; [reflexivity|].
  destruct (g a); simpl; [destruct (f a)|]; now rewrite IH.
Qed.

Lemma len_app {A : Type} (l1 l2 : list A) : len (l1 ++ l2) = len l1 + len l2.
Proof. unfold len. rewrite length_app. lia. Qed.

Lemma len_filter_set {V : Type} (p : V -> bool) k v (m : JsMap.t V) :
  len (filter p (JsMap.values (JsMap.set k v m))) <=
  len (filter p (JsMap.values m)) + (if p v then 1 else 0).
Proof.
  destruct (values_set_cases V k v m)
    as [[_ ->] | (l1 & old & l2 & _ & -> & ->)];
    rewrite !filter_app, !len_app; cbn [filter].
  - destruct (p v); rewrite ?len_cons; unfold len; simpl; lia.
  - destruct (p v), (p old); rewrite ?len_cons;
      pose proof (len_nonneg (filter p l2)); lia.
Qed.

Lemma len_filter_remove {V : Type} (p : V -> bool) k (m : JsMap.t V) :
  len (filter p (JsMap.values (JsMap.remove k m))) <=
  len (filter p (JsMap.values m)).
Proof.
  unfold JsMap.values, JsMap.remove.
  induction m as [| [k0 v0] rest IH]; simpl; [lia|].
  destruct (negb (k0 =? k)); simpl; destruct (p v0);
    rewrite ?len_cons; lia.
Qed.

Lemma existsb_false_filter {A : Type} (f : A -> bool) (l : list A) :
  existsb f l = false -> filter f l = [].
Proof.
  induction l as [| a rest IH]; simpl; [reflexivity|].
  destruct (f a); simpl; [discriminate|]. exact IH.
Qed.

Lemma enrolled_rows_eq s studentId courseAssignmentId :
  enrolled_rows s studentId courseAssignmentId =
  filter (fun e => (Enrollment.studentId e =? studentId)
                   && enrolled_in courseAssignmentId e)
    (JsMap.values (enrollments s)).
Proof.
  unfold enrolled_rows, getEnrollmentsByStudent. apply filter_filter_and.
Qed.

Lemma create_enrollment_once s (data : InsertEnrollment.t) :
  enrolled_once s ->
  existsb (enrolled_in (InsertEnrollment.courseAssignmentId data))
    (getEnrollmentsByStudent s (InsertEnrollment.studentId data)) = false ->
  enrolled_once (snd (createEnrollment s data)).
Proof.
  intros Hs Hcheck sid aid. specialize (Hs sid aid).
  apply existsb_false_filter in Hcheck.
  fold (enrolled_rows s (InsertEnrollment.studentId data)
          (InsertEnrollment.courseAssignmentId data)) in Hcheck.
  rewrite enrolled_rows_eq in *.
  pose proof (table_create KEnrollment s data) as Ht. cbn [table] in Ht.
  unfold createEnrollment. rewrite Ht.
  match goal with
  | |- len (filter ?p (JsMap.values (JsMap.set ?k ?v ?m))) <= 1 =>
      pose proof (len_filter_set p k v m) as Hlen;
      destruct (p v) eqn:Hp
  end; [|cbn [Row] in *; lia].
  cbn in Hp. apply andb_true_iff in Hp. destruct Hp as [Hsid Hp].
  unfold enrolled_in in Hp. apply andb_true_iff in Hp.
  destruct Hp as [Haid _]. cbn in Haid.
  apply Z.eqb_eq in Hsid, Haid. rewrite Hsid, Haid in Hcheck.
  cbn [Row] in *. rewrite Hcheck in Hlen. exact Hlen.
Qed.

Lemma delete_enrollment_once s id :
  enrolled_once s -> enrolled_once (snd (deleteEnrollment s id)).
Proof.
  intros Hs sid aid. specialize (Hs sid aid).
  rewrite enrolled_rows_eq in *.
  pose proof (table_delete KEnrollment s id) as Ht. cbn [table] in Ht.
  unfold deleteEnrollment. rewrite Ht.
  match goal with
  | |- len (filter ?p (JsMap.values (JsMap.remove ?k ?m))) <= 1 =>
      pose proof (len_filter_remove p k m)
  end. cbn [Row] in *. lia.
Qed.

Lemma enrolled_once_frame s s' :
  enrollments s' = enrollments s -> enrolled_once s -> enrolled_once s'.
Proof.
  intros Heq Hs sid aid. specialize (Hs sid aid).
  unfold enrolled_rows, getEnrollmentsByStudent in *. now rewrite Heq.
Qed.

Lemma call_enrolled_once s c :
  enrolled_once s ->
  match c with
  | Create k _ | Update k _ _ => k <> KEnrollment
  | Delete _ _ => True
  end ->
  enrolled_once (fst (perform s c)).
Proof.
  intros Hs Hc. rewrite fst_perform.
  destruct c as [k data | k id data | k id].
  - apply (enrolled_once_frame s); [|assumption].
    apply (@table_create_other k KEnrollment). congruence.
  - apply (enrolled_once_frame s); [|assumption].
    apply (@table_update_other k KEnrollment). congruence.
  - destruct (kind_eq_dec k KEnrollment) as [-> | Hk].
    + now apply delete_enrollment_once.
    + apply (enrolled_once_frame s); [|assumption].
      apply (@table_delete_other k KEnrollment). congruence.
Qed.

Lemma serve_enrolled_once s session r :
  enrolled_once s -> (forall id body, r <> PUT_enrollment id body) ->
  enrolled_once (store_after s session r).
Proof.
  intros Hs Hr.
  assert (Hpost : forall body, r = POST_enrollments body ->
                               enrolled_once (store_after s session r)).
  { intros body ->.
    destruct (store_after_route s session (POST_enrollments body) _ _
                eq_refl) as [-> | ->]; [assumption|].
    destruct (post_enrollments_store body s session)
      as [-> | (data & ? & ? & _ & _ & _ & Hcheck & ->)]; [assumption|].
    now apply create_enrollment_once. }
  destruct (store_after_call s session r) as [-> | (c & Heq & Hc)];
    [assumption|].
  destruct c as [k data | k id data | k id]; destruct Hc as [Hm Hw].
  - destruct (kind_eq_dec k KEnrollment) as [-> | Hk].
    + destruct r; try discriminate Hm; try discriminate Hw.
      now apply (Hpost body).
    + rewrite Heq. now apply call_enrolled_once.
  - destruct (kind_eq_dec k KEnrollment) as [-> | Hk].
    + destruct r; try discriminate Hm; try discriminate Hw.
      now elim (Hr id0 body).
    + rewrite Heq. now apply call_enrolled_once.
  - rewrite Heq. now apply call_enrolled_once.
Qed.

(** X15.  [POST /api/enrollments] refuses a second enrollment with the
    status "enrolled" of a student in a course assignment: in a store
    where no student has two such rows for one assignment, that is
    still so after any requests of any clients other than a PUT of an
    enrollment (whose body is not checked). *)
Theorem nobody_is_enrolled_twice s requests :
  enrolled_once s ->
  Forall (fun request => forall id body, snd request <> PUT_enrollment id body)
    requests ->
  enrolled_once (serve_store s requests).
Proof.
  intros Hs Hall. revert s Hs.
  induction Hall as [| [session r] rest Hr _ IH]; intros s Hs.
  - exact Hs.
  - cbn [serve_store]. apply IH. now apply serve_enrolled_once.
Qed.


(** ** Logging in *)









(** ** Who can read a user row *)

Lemma serve_authenticated s user r handler :
  route r = Some ([requireAuth], handler) ->
  serve s (Some user) r =
  (fst (handler s (Some user)), snd (handler s (Some user)), Some user).
Proof.
  intros Hr. unfold serve. rewrite Hr. cbn [through requireAuth].
  now destruct (handler s (Some user)).
Qed.


(** ** The checks of the user routes at their edges *)

Lemma two_entries_not_distinct {V B : Type} (f : V -> B) (m : JsMap.t V)
  k1 v1 k2 v2 :
  JsMap.get k1 m = Some v1 -> JsMap.get k2 m = Some v2 -> k1 <> k2 ->
  f v1 = f v2 -> ~ distinct f (JsMap.values m).
Proof.
  intros H1 H2 Hne Hf. apply get_Some_In in H1, H2.
  unfold distinct, JsMap.values.
  induction m as [| [k v] rest IH]; simpl in *; [tauto|].
  intros Hnd. inversion Hnd as [| ? ? Hnot Hrest]; subst.
  assert (Hin : forall k0 v0, In (k0, v0) rest ->
                              In (f v0) (map f (map snd rest))).
  { intros k0 v0 H. apply in_map. change v0 with (snd (k0, v0)).
    now apply in_map. }
  destruct H1 as [[= -> ->] | H1], H2 as [[= -> ->] | H2].
  - congruence.
  - apply Hnot. rewrite Hf. now apply (Hin k2).
  - apply Hnot. rewrite <- Hf. now apply (Hin k1).
  - now apply IH.
Qed.

(** X19.  The uniqueness check of [PUT /api/users/:id] is skipped for
    the empty string.  Let an admin put the username "" on a stored
    user while another stored user already has the username "": the
    route answers 200 and the store then holds both rows with the same
    username, so usernames are no longer unique. *)
Theorem put_user_empty_username s admin_user i j row other body :
  SessionUser.role admin_user = "admin" ->
  getUser s i = Some row -> getUser s j = Some other -> i <> j ->
  User.username other = "" ->
  PartialUser.username body = Some "" ->
  let outcome := serve s (Some admin_user) (PUT_user (Some i) body) in
  let s' := snd (fst outcome) in
  fst (fst outcome) = json (BUser (user_view (spread KUser row body))) /\
  getUser s' i = Some (spread KUser row body) /\
  User.username (spread KUser row body) = "" /\
  getUser s' j = Some other /\
  ~ distinct (fun user => toLowerCase (User.username user)) (getAllUsers s').
Proof.
  intros Hadmin Hrow Hother Hij Hname Hbody. cbv zeta.
  rewrite (serve_authenticated s admin_user (PUT_user (Some i) body)
             (put_user (Some i) body) eq_refl).
  cbn [fst snd]. unfold put_user. cbn [get_at update_at].
  assert (Hr : get KUser s i = Some row) by exact Hrow.
  rewrite Hr, Hadmin. cbn [String.eqb Ascii.eqb Bool.eqb negb andb].
  unfold key_taken. rewrite Hbody. cbn [truthy String.eqb negb andb].
  assert (Hrole : match PartialUser.role body with
                  | Some role =>
                      truthy role && negb (String.eqb role (User.role row))
                      && false
                  | None => false
                  end = false).
  { destruct (PartialUser.role body); [|reflexivity].
    now rewrite andb_false_r. }
  rewrite Hrole.
  assert (Hupdate : update KUser s i body =
                    (Some (spread KUser row body),
                     set_table KUser
                       (JsMap.set i (spread KUser row body) (table KUser s))
                       s)).
  { unfold update. unfold get in Hr. now rewrite Hr. }
  rewrite Hupdate. cbn [fst snd].
  assert (Hi : getUser
                 (set_table KUser
                    (JsMap.set i (spread KUser row body) (table KUser s)) s)
                 i = Some (spread KUser row body)).
  { unfold getUser, get. rewrite table_set_table. apply get_set_same. }
  assert (Hj : getUser
                 (set_table KUser
                    (JsMap.set i (spread KUser row body) (table KUser s)) s)
                 j = Some other).
  { unfold getUser, get. rewrite table_set_table.
    rewrite get_set_other by congruence. exact Hother. }
  assert (Hempty : User.username (spread KUser row body) = "").
  { cbn. now rewrite Hbody. }
  repeat split; auto.
  apply (two_entries_not_distinct _ _ i (spread KUser row body) j other);
    auto.
  now rewrite Hempty, Hname.
Qed.




Lemma serve_admin s user r roles handler :
  route r = Some ([requireAuth; requireRole roles], handler) ->
  includes roles (SessionUser.role user) = true ->
  serve s (Some user) r =
  (fst (handler s (Some user)), snd (handler s (Some user)), Some user).
Proof.
  intros Hr Hrole. unfold serve. rewrite Hr, through_guarded, Hrole.
  now destruct (handler s (Some user)).
Qed.

(** X22.  [PUT /api/students/:id] stores whatever [userId] the body
    gives: the handler checks neither that the user exists nor that it
    has no profile yet.  So an admin can point a profile at a user that
    is not stored, after which the reference dangles, or at a user that
    has a profile already, after which the user has two. *)
Theorem put_student_moves_profile s admin_user i row body u :
  SessionUser.role admin_user = "admin" ->
  getStudent s i = Some row ->
  PartialStudent.studentId body = None ->
  PartialStudent.userId body = Some u ->
  let outcome := serve s (Some admin_user) (PUT_student (Some i) body) in
  let s' := snd (fst outcome) in
  fst (fst outcome) =
  json (BProfile KStudent (spread KStudent row body)
          (option_map profile_user (getUser s u))) /\
  getStudent s' i = Some (spread KStudent row body) /\
  Student.userId (spread KStudent row body) = u /\
  (getUser s u = None -> ~ references_resolve s') /\
  (forall j other,
      j <> i -> getStudent s j = Some other -> Student.userId other = u ->
      ~ distinct Student.userId (getAllStudents s')).
Proof.
  intros Hadmin Hrow Hsid Huid. cbv zeta.
  rewrite (serve_admin s admin_user (PUT_student (Some i) body) admin
             (put_student (Some i) body) eq_refl)
    by (unfold includes, admin; cbn [existsb]; now rewrite Hadmin).
  cbn [fst snd]. unfold put_student. cbn [get_at update_at].
  assert (Hr : get KStudent s i = Some row) by exact Hrow.
  rewrite Hr. unfold key_taken. rewrite Hsid.
  assert (Hupdate : update KStudent s i body =
                    (Some (spread KStudent row body),
                     set_table KStudent
                       (JsMap.set i (spread KStudent row body)
                          (table KStudent s)) s)).
  { unfold update. unfold get in Hr. now rewrite Hr. }
  rewrite Hupdate. cbn [fst snd].
  set (s' := set_table KStudent
               (JsMap.set i (spread KStudent row body) (table KStudent s)) s).
  assert (Hu : Student.userId (spread KStudent row body) = u).
  { cbn. now rewrite Huid. }
  assert (Husers : forall x, getUser s' x = getUser s x).
  { intros x. unfold getUser, get, s'.
    now rewrite table_set_table_other by discriminate. }
  assert (Hi : getStudent s' i = Some (spread KStudent row body)).
  { unfold getStudent, get, s'. rewrite table_set_table.
    apply get_set_same. }
  rewrite Hu, Husers.
  repeat split; auto.
  - intros Hnone (Hres & _).
    apply (Hres (spread KStudent row body)).
    + unfold getAllStudents, getAll. now apply (get_In_values i).
    + now rewrite Hu, Husers.
  - intros j other Hj Hother Hou.
    apply (two_entries_not_distinct _ _ i (spread KStudent row body) j other).
    + exact Hi.
    + unfold s'. rewrite table_set_table.
      rewrite get_set_other by congruence. exact Hother.
    + congruence.
    + now rewrite Hu, Hou.
Qed.

(** X23.  A student profile whose user is not stored (as after the
    delete of the user, which does not cascade) is still listed by
    [GET /api/students], with [user: null], but cannot be opened:
    [GET /api/students/:id] answers 404 "Student not found" for it. *)
Theorem orphaned_profile_is_listed_not_found s user i student :
  getStudent s i = Some student ->
  getUser s (Student.userId student) = None ->
  (exists rows,
      serve s (Some user) GET_students =
      (json (BProfiles KStudent rows), s, Some user) /\
      In (student, None) rows) /\
  serve s (Some user) (GET_student (Some i)) =
  (fail 404 "Student not found", s, Some user).
Proof.
  intros Hstudent Huser. split.
  - eexists. split.
    + now rewrite (serve_authenticated s user GET_students get_students
                     eq_refl).
    + apply in_map_iff. exists student. split.
      * unfold with_user. now rewrite Huser.
      * unfold getAllStudents, getAll. now apply (get_In_values i).
  - rewrite (serve_authenticated s user (GET_student (Some i))
               (get_student (Some i)) eq_refl).
    unfold get_student, getStudentDetails. now rewrite Hstudent, Huser.
Qed.


(* ================================================================== *)
(** * The stores the server can reach *)

Lemma id_is_key_of_entries s :
  (forall k, Forall (fun kv => row_id k (snd kv) = fst kv) (table k s)) ->
  id_is_key s.
Proof.
  intros H k key row Hget. unfold get in Hget. apply get_Some_In in Hget.
  specialize (H k). rewrite Forall_forall in H. exact (H _ Hget).
Qed.

Lemma len_filter_distinct {A B : Type} (key : A -> B) (p : A -> bool) c l :
  NoDup (map key l) -> (forall x, p x = true -> key x = c) ->
  len (filter p l) <= 1.
Proof.
  intros Hnd Hp. induction l as [| a rest IH]; simpl; [unfold len; simpl; lia|].
  inversion Hnd as [| ? ? Hnot Hrest]; subst.
  destruct (p a) eqn:Ha; [|auto].
  assert (Hnone : filter p rest = []).
  { destruct (filter p rest) as [| b more] eqn:Hf; [reflexivity|].
    exfalso. assert (Hb : In b (filter p rest)) by (rewrite Hf; now left).
    apply filter_In in Hb. destruct Hb as [Hin Hpb].
    apply Hnot. rewrite (Hp a Ha), <- (Hp b Hpb). now apply in_map. }
  rewrite Hnone. unfold len. simpl. lia.
Qed.

Lemma enrolled_once_of_distinct_pairs s :
  NoDup (map (fun e => (Enrollment.studentId e,
                        Enrollment.courseAssignmentId e))
           (getAllEnrollments s)) ->
  enrolled_once s.
Proof.
  intros Hnd sid aid. rewrite enrolled_rows_eq.
  apply (len_filter_distinct
           (fun e => (Enrollment.studentId e,
                      Enrollment.courseAssignmentId e)) _ (sid, aid));
    [exact Hnd|].
  intros e He. apply andb_true_iff in He. destruct He as [Hs He].
  unfold enrolled_in in He. apply andb_true_iff in He.
  destruct He as [Ha _]. apply Z.eqb_eq in Hs, Ha. now rewrite Hs, Ha.
Qed.

Ltac distinct_literals :=
  repeat (constructor;
          [ cbn [In]; intros Hin; decompose [or] Hin; easy | ]);
  try constructor.

Lemma constructor_keys_distinct clock :
  keys_distinct (MemStorage_constructor clock).
Proof. intros k. destruct k; vm_compute; distinct_literals. Qed.

Lemma constructor_id_is_key clock : id_is_key (MemStorage_constructor clock).
Proof.
  apply id_is_key_of_entries. intros k.
  destruct k; cbv [MemStorage_constructor table];
    repeat (constructor; [reflexivity|]); constructor.
Qed.

Lemma constructor_unique_keys clock :
  unique_keys (MemStorage_constructor clock).
Proof.
  unfold unique_keys, distinct. repeat split; vm_compute; distinct_literals.
Qed.

Lemma constructor_well_keyed clock : well_keyed (MemStorage_constructor clock).
Proof.
  split; [|split].
  - apply constructor_keys_distinct.
  - apply constructor_id_is_key.
  - apply constructor_unique_keys.
Qed.

Lemma constructor_references clock :
  references_resolve (MemStorage_constructor clock).
Proof.
  unfold references_resolve.
  repeat match goal with |- _ /\ _ => split end; intros r Hin;
    cbv [MemStorage_constructor getAllStudents getAllFaculty
           getAllCourseAssignments getAllEnrollments getAllAttendance
           getAllGrades getAll table JsMap.values map snd students faculty
           courseAssignments enrollments attendance grades In] in Hin;
    decompose [or] Hin; clear Hin; try contradiction; subst r;
    try split; vm_compute; discriminate.
Qed.

Lemma constructor_enrolled_once clock :
  enrolled_once (MemStorage_constructor clock).
Proof.
  apply enrolled_once_of_distinct_pairs. vm_compute. distinct_literals.
Qed.

Lemma constructor_keys_below clock k :
  keys_below_counter k (MemStorage_constructor clock).
Proof.
  intros key Hin. destruct k; vm_compute in Hin |- *;
    decompose [or] Hin; clear Hin; try contradiction; subst key; reflexivity.
Qed.






(* ================================================================== *)
(** * The properties on the sample server *)

Lemma sample_server_well_keyed : well_keyed sample_server.
Proof. exact (constructor_well_keyed utc_clock). Qed.

Lemma sample_server_keys_below k : keys_below_counter k sample_server.
Proof. exact (constructor_keys_below utc_clock k). Qed.



Lemma relationship_queries_after_create_witness :
  map Enrollment.id
    (getEnrollmentsByStudent
       (snd (createEnrollment sample_server new_enrollment)) 2) = [3; 7] /\
  map Enrollment.id
    (getEnrollmentsByStudent
       (snd (createEnrollment sample_server new_enrollment)) 1) = [1; 2].
Proof.
  destruct (relationship_queries_after_create sample_server
              sample_server_keys_below) as (_ & _ & He & _).
  split; rewrite He; reflexivity.
Defined.

Lemma delete_removes_one_row_witness :
  map Enrollment.id
    (getEnrollmentsByStudent (snd (deleteEnrollment sample_server 1)) 1) = [2]
  /\
  map Enrollment.id
    (getEnrollmentsByStudent (snd (deleteStudent sample_server 1)) 1) = [1; 2]
  /\
  getStudent (snd (deleteStudent sample_server 1)) 1 = None.
Proof.
  destruct sample_server_well_keyed as (Hd & Hid & _).
  destruct (delete_removes_one_row sample_server 1 Hd Hid)
    as (_ & _ & He & Hs & _).
  split; [rewrite He; reflexivity|].
  split; [rewrite Hs; reflexivity|]. reflexivity.
Defined.

Lemma create_then_delete_witness :
  delete KCourse (snd (create KCourse sample_server (sample_course "CS999")))
    6 =
  (true, set_counter KCourse 7 sample_server).
Proof.
  exact (create_then_delete KCourse sample_server (sample_course "CS999")
           (sample_server_keys_below KCourse)).
Defined.

Lemma getAll_lists_each_row_once_witness :
  map User.id (getAllUsers (fst (run new_MemStorage sample_calls))) = [3] /\
  NoDup (map User.id (getAllUsers (fst (run new_MemStorage sample_calls)))) /\
  len (getAllUsers (fst (run new_MemStorage sample_calls))) <=
  creates_of KUser sample_calls.
Proof.
  assert (Hcalls : Forall keeps_id sample_calls).
  { unfold sample_calls.
    repeat (apply Forall_cons;
            [first [exact I | right; reflexivity | left; reflexivity]|]).
    apply Forall_nil. }
  destruct (getAll_lists_each_row_once new_MemStorage sample_calls
              new_MemStorage_keys_distinct new_MemStorage_id_is_key Hcalls
              KUser) as (Hnd & _ & Hlen).
  split; [reflexivity|]. split; [exact Hnd | exact Hlen].
Defined.





Lemma sample_posts_methods :
  Forall (fun request =>
            method (snd request) = GET \/ method (snd request) = POST)
    sample_posts.
Proof.
  unfold sample_posts.
  repeat (apply Forall_cons; [cbn; first [now left | now right]|]).
  apply Forall_nil.
Qed.

Lemma posts_keep_references_witness :
  map Enrollment.id (getAllEnrollments (serve_store sample_server sample_posts))
  = [1; 2; 3; 4; 5; 6; 7] /\
  references_resolve (serve_store sample_server sample_posts).
Proof.
  split; [reflexivity|].
  exact (posts_keep_references sample_server sample_posts
           (constructor_references utc_clock) sample_posts_methods).
Defined.

Lemma sample_requests_put_no_enrollment :
  Forall (fun request => forall id body, snd request <> PUT_enrollment id body)
    (sample_requests ++
     [(Some admin_session, POST_enrollments (Some new_enrollment))]).
Proof.
  unfold sample_requests. cbn [app].
  repeat (apply Forall_cons; [cbn; intros; discriminate|]).
  apply Forall_nil.
Qed.

Lemma nobody_is_enrolled_twice_witness :
  map Enrollment.id
    (getAllEnrollments
       (serve_store sample_server
          (sample_requests ++
           [(Some admin_session, POST_enrollments (Some new_enrollment))])))
  = [1; 2; 3; 4; 5; 6; 7] /\
  enrolled_once
    (serve_store sample_server
       (sample_requests ++
        [(Some admin_session, POST_enrollments (Some new_enrollment))])).
Proof.
  split; [reflexivity|].
  exact (nobody_is_enrolled_twice sample_server _
           (constructor_enrolled_once utc_clock)
           sample_requests_put_no_enrollment).
Defined.


Lemma put_user_empty_username_witness :
  let s' :=
    store_after nameless_server (Some admin_session)
      (PUT_user (Some 4) (rename_body "")) in
  option_map User.username (getUser s' 4) = Some "" /\
  option_map User.username (getUser s' 8) = Some "" /\
  ~ distinct (fun user => toLowerCase (User.username user)) (getAllUsers s').
Proof.
  cbv zeta.
  destruct (getUser nameless_server 4) as [row |] eqn:Hrow;
    [|discriminate Hrow].
  destruct (getUser nameless_server 8) as [other |] eqn:Hother;
    [|discriminate Hother].
  assert (Hname : User.username other = "").
  { vm_compute in Hother. now injection Hother as <-. }
  destruct (put_user_empty_username nameless_server admin_session 4 8 row
              other (rename_body "") eq_refl Hrow Hother
              ltac:(discriminate) Hname eq_refl)
    as (_ & _ & _ & _ & Hnot).
  split; [reflexivity|]. split; [reflexivity|]. exact Hnot.
Defined.


Lemma put_student_moves_profile_witness :
  let s' :=
    store_after sample_server (Some admin_session)
      (PUT_student (Some 1) (move_profile_body 99)) in
  option_map Student.userId (getStudent s' 1) = Some 99 /\
  getUser s' 99 = None /\
  ~ references_resolve s'.
Proof.
  cbv zeta.
  destruct (getStudent sample_server 1) as [row |] eqn:Hrow;
    [|discriminate Hrow].
  destruct (put_student_moves_profile sample_server admin_session 1 row
              (move_profile_body 99) 99 eq_refl Hrow eq_refl eq_refl)
    as (_ & _ & _ & Hdangling & _).
  split; [reflexivity|]. split; [reflexivity|].
  apply Hdangling. reflexivity.
Defined.

Lemma orphaned_profile_is_listed_not_found_witness :
  option_map Student.userId (getStudent orphaned_server 1) = Some 4 /\
  getUser orphaned_server 4 = None /\
  serve orphaned_server (Some faculty_session) (GET_student (Some 1)) =
  (fail 404 "Student not found", orphaned_server, Some faculty_session).
Proof.
  split; [reflexivity|]. split; [reflexivity|].
  destruct (getStudent orphaned_server 1) as [student |] eqn:Hstudent;
    [|discriminate Hstudent].
  assert (Huser : getUser orphaned_server (Student.userId student) = None).
  { vm_compute in Hstudent. now injection Hstudent as <-. }
  exact (proj2 (orphaned_profile_is_listed_not_found orphaned_server
                  faculty_session 1 student Hstudent Huser)).
Defined.
